(** * DSSAT output processing: a shallow embedding of the Python core

    The development follows the repository's layout:

    - [PyStr]: the [str] methods the parsers use ([strip], [split],
      [upper], [startswith], [isdigit], integer formatting);
    - [Dates]: [data/data_processing.py], [unified_date_convert];
    - [Metrics]: [models/metrics.py], [MetricsCalculator], read in exact
      arithmetic;
    - [Float64], [MetricsFloat64]: [models/metrics.py] in the float64
      arithmetic of the program;
    - [Frames]: the pandas objects the code passes around;
    - [Standardize]: [data/data_processing.py], [standardize_dtypes];
    - [DssatIO]: [data/dssat_io.py], [read_file] and
      [process_treatment_block];
    - [Evaluate]: [data/data_processing.py],
      [get_evaluate_variable_pairs];
    - [XVar]: [data/data_processing.py], [handle_missing_xvar].

    Python exceptions are explicit ([outcome]); a [try]/[except] is a match
    on the outcome.  Library primitives whose behaviour is floating point or
    version dependent (Python's [float] on a string, the [repr] of a float,
    pandas' token-to-number and free-form date parsers, whether [int] has
    the method [is_integer]) are the fields of the class [Runtime]; every
    theorem holds for all runtimes.  The
    properties come after the embedding, in the same order. *)

From Stdlib Require Import ZArith List String Ascii Bool Lia QArith Reals Lra.
From Stdlib Require Import DecimalString.
From Stdlib Require Import Floats.SpecFloat.
From stdpp Require Import gmap strings list sorting.

Set Default Proof Using "Type".

(** ** Python exceptions and the outcome of a call *)

Inductive PyExc : Type :=
| ValueError | TypeError | OverflowError | KeyError | OutOfBoundsDatetime
| AttributeError.

Inductive outcome (A : Type) : Type :=
| Return (a : A)
| Raise (e : PyExc).
Arguments Return {A} a.
Arguments Raise {A} e.

Definition bind {A B} (m : outcome A) (k : A -> outcome B) : outcome B :=
  match m with
  | Return a => k a
  | Raise e => Raise e
  end.

Notation "'let*' x ':=' m 'in' k" := (bind m (fun x => k))
  (at level 10, x name, m at level 100, k at level 200).

(** ** The [str] methods used by the parsers

    A [string] is a sequence of code points below 256 (what a file decoded
    as latin-1 can hold). *)

Module PyStr.

Local Open Scope N_scope.

Definition ord (c : ascii) : N := N_of_ascii c.

(** [c] is one of the ASCII decimal digits; these are the code points
    below 256 that [int] and the regular expression class [\d] accept. *)
Definition is_decimal (c : ascii) : bool :=
  (48 <=? ord c) && (ord c <=? 57).

(** [str.isdigit] for one code point: the decimal digits and the
    superscripts two, three and one. *)
Definition char_isdigit (c : ascii) : bool :=
  is_decimal c || (ord c =? 178) || (ord c =? 179) || (ord c =? 185).

(** [str.isspace] for one code point. *)
Definition char_isspace (c : ascii) : bool :=
  ((9 <=? ord c) && (ord c <=? 13)) || ((28 <=? ord c) && (ord c <=? 32))
  || (ord c =? 133) || (ord c =? 160).

(** [str.upper] for one code point whose upper case is one code point below
    256 (all but 181, 223 and 255). *)
Definition char_upper (c : ascii) : ascii :=
  if ((97 <=? ord c) && (ord c <=? 122))
     || ((224 <=? ord c) && (ord c <=? 254) && negb (ord c =? 247))
  then ascii_of_N (ord c - 32) else c.

Local Close Scope N_scope.
Local Open Scope string_scope.

Definition is_empty (s : string) : bool :=
  match s with EmptyString => true | String _ _ => false end.

(** [s.isdigit()]: non-empty and every character a digit. *)
Fixpoint all_isdigit (s : string) : bool :=
  match s with
  | EmptyString => true
  | String c s' => char_isdigit c && all_isdigit s'
  end.

Definition isdigit (s : string) : bool := negb (is_empty s) && all_isdigit s.

Fixpoint lstrip (s : string) : string :=
  match s with
  | EmptyString => EmptyString
  | String c s' => if char_isspace c then lstrip s' else s
  end.

Fixpoint rstrip (s : string) : string :=
  match s with
  | EmptyString => EmptyString
  | String c s' =>
      let r := rstrip s' in
      if is_empty r && char_isspace c then EmptyString else String c r
  end.

Definition strip (s : string) : string := rstrip (lstrip s).

(** [s.lstrip(chars)] for a single character. *)
Fixpoint lstrip_char (x : ascii) (s : string) : string :=
  match s with
  | EmptyString => EmptyString
  | String c s' => if Ascii.eqb c x then lstrip_char x s' else s
  end.

Fixpoint upper (s : string) : string :=
  match s with
  | EmptyString => EmptyString
  | String c s' => String (char_upper c) (upper s')
  end.

Definition startswith (s p : string) : bool := String.prefix p s.

Fixpoint endswith_char (s : string) (x : ascii) : bool :=
  match s with
  | EmptyString => false
  | String c EmptyString => Ascii.eqb c x
  | String _ s' => endswith_char s' x
  end.

(** [s[:-1]] *)
Fixpoint drop_last (s : string) : string :=
  match s with
  | EmptyString => EmptyString
  | String _ EmptyString => EmptyString
  | String c s' => String c (drop_last s')
  end.

(** [s[i:]] *)
Fixpoint from_index (i : nat) (s : string) : string :=
  match i, s with
  | O, _ => s
  | S _, EmptyString => EmptyString
  | S i', String _ s' => from_index i' s'
  end.

(** [s[i:j]] for [i <= j] *)
Definition slice (i j : nat) (s : string) : string := substring i (j - i) s.

(** [s.split()]: the maximal runs of non-space characters. [cur] is the
    run being read. *)
Fixpoint split_from (cur : string) (s : string) : list string :=
  match s with
  | EmptyString => if is_empty cur then [] else [cur]
  | String c s' =>
      if char_isspace c
      then (if is_empty cur then split_from EmptyString s'
            else cur :: split_from EmptyString s')
      else split_from (cur ++ String c EmptyString) s'
  end.

Definition split (s : string) : list string := split_from EmptyString s.

(** [str(n)] for an integer. *)
Definition str_of_int (n : Z) : string := NilZero.string_of_int (Z.to_int n).

Fixpoint zeros (k : nat) : string :=
  match k with O => EmptyString | S k' => String "0" (zeros k') end.

(** Zeros on the left up to the width, as [Series.str.zfill] pads. *)
Definition zfill (width : nat) (s : string) : string :=
  zeros (width - String.length s) ++ s.

(** [f"{n:0<width>d}"]: the sign first, then zeros up to the width. *)
Definition format_0d (width : nat) (n : Z) : string :=
  if (n <? 0)%Z
  then String "-" (zfill (width - 1) (str_of_int (Z.abs n)))
  else zfill width (str_of_int n).

Definition digit_value (c : ascii) : Z := Z.of_N (ord c) - 48.

(** The characters [is_decimal] accepts. *)
Definition decimal_chars : list ascii :=
  ["0"; "1"; "2"; "3"; "4"; "5"; "6"; "7"; "8"; "9"]%char.

Fixpoint all_decimal (s : string) : bool :=
  match s with
  | EmptyString => true
  | String c s' => is_decimal c && all_decimal s'
  end.

Fixpoint decimal_value (acc : Z) (s : string) : Z :=
  match s with
  | EmptyString => acc
  | String c s' => decimal_value (10 * acc + digit_value c) s'
  end.

(** [int(s)] for a string on which [isdigit] holds: the superscript
    digits are digits for [isdigit] but not for [int]. *)
Definition int_of_digits (s : string) : outcome Z :=
  if negb (is_empty s) && all_decimal s
  then Return (decimal_value 0 s)
  else Raise ValueError.

End PyStr.

(** ** Scalars shared by the modules *)

(** A Python [float]: not-a-number, an infinity, or the finite value
    [m * 2^e]. *)
Inductive PyFloat : Type :=
| FNaN
| FInf (negative : bool)
| FFinite (m e : Z).

(** A pandas [Timestamp] at midnight: the calendar year and the ordinal day
    within that year ([Timestamp.year], [Timestamp.dayofyear]). *)
Record Timestamp : Type := mkTimestamp { ts_year : Z; ts_dayofyear : Z }.

(** [pd.NaT] is the missing [Timestamp]. *)
Definition NaT : option Timestamp := None.

(** The library primitives that are taken as given. *)
Class Runtime : Type := {
  (** [float(s)] for a [str]; [None] when Python raises [ValueError] *)
  float_of_str : string -> option PyFloat;
  (** [str(f)] for a [float] *)
  float_repr : PyFloat -> string;
  (** what [pd.to_numeric(..., errors="coerce")] makes of one token;
      [None] is NaN *)
  to_numeric_scalar : string -> option Q;
  (** whether [pd.to_numeric] reads the token as an integer rather than as
      a float: a column of such tokens is parsed to an integer dtype *)
  to_numeric_is_int : string -> bool;
  (** whether [int] has the method [is_integer]: Python 3.12 and later *)
  int_has_is_integer : bool;
  (** what [pd.to_datetime(..., errors="coerce")] without a format makes of
      one string, and of one number; [None] is NaT *)
  to_datetime_scalar : string -> option Timestamp;
  to_datetime_number : Q -> option Timestamp
}.

(** ** [unified_date_convert] *)

Module Dates.
Import PyStr.
Local Open Scope Z_scope.

(** *** The proleptic Gregorian calendar of [datetime.date] *)

Definition is_leap (y : Z) : bool :=
  (y mod 4 =? 0) && (negb (y mod 100 =? 0) || (y mod 400 =? 0)).

Definition days_in_year (y : Z) : Z := if is_leap y then 366 else 365.

Definition days_before_year (y : Z) : Z :=
  let p := y - 1 in 365 * p + p / 4 - p / 100 + p / 400.

(** [date(year, 1, 1).toordinal() + dayofyear - 1] *)
Definition toordinal (t : Timestamp) : Z :=
  days_before_year (ts_year t) + ts_dayofyear t.

(** *** [pd.to_datetime(s, format="%Y%j")]

    The format compiles to the regular expression
    [(?P<Y>\d\d\d\d)(?P<j>36[0-6]|3[0-5]\d|[1-2]\d\d|0[1-9]\d|00[1-9]|[1-9]\d|0[1-9]|[1-9])],
    matched at the start of the string; text left over is an error. *)

Definition is_char (x : ascii) (c : ascii) : bool := Ascii.eqb c x.

Definition in_range (lo hi : Z) (c : ascii) : bool :=
  is_decimal c && (lo <=? digit_value c) && (digit_value c <=? hi).

Definition alt3 (p1 p2 p3 : ascii -> bool) (s : string) : option (Z * string) :=
  match s with
  | String a (String b (String c r)) =>
      if p1 a && p2 b && p3 c
      then Some (100 * digit_value a + 10 * digit_value b + digit_value c, r)
      else None
  | _ => None
  end.

Definition alt2 (p1 p2 : ascii -> bool) (s : string) : option (Z * string) :=
  match s with
  | String a (String b r) =>
      if p1 a && p2 b then Some (10 * digit_value a + digit_value b, r) else None
  | _ => None
  end.

Definition alt1 (p1 : ascii -> bool) (s : string) : option (Z * string) :=
  match s with
  | String a r => if p1 a then Some (digit_value a, r) else None
  | _ => None
  end.

(** The first alternative that matches wins. *)
Fixpoint first_match (alts : list (string -> option (Z * string))) (s : string)
  : option (Z * string) :=
  match alts with
  | [] => None
  | f :: alts' =>
      match f s with
      | Some r => Some r
      | None => first_match alts' s
      end
  end.

Definition match_j : string -> option (Z * string) :=
  first_match
    [ alt3 (is_char "3") (is_char "6") (in_range 0 6);
      alt3 (is_char "3") (in_range 0 5) is_decimal;
      alt3 (in_range 1 2) is_decimal is_decimal;
      alt3 (is_char "0") (in_range 1 9) is_decimal;
      alt3 (is_char "0") (is_char "0") (in_range 1 9);
      alt2 (in_range 1 9) is_decimal;
      alt2 (is_char "0") (in_range 1 9);
      alt1 (in_range 1 9) ].

(** The year and the julian day the format reads from [s]. *)
Definition strptime_Yj (s : string) : outcome (Z * Z) :=
  match s with
  | String a (String b (String c (String d r))) =>
      if is_decimal a && is_decimal b && is_decimal c && is_decimal d then
        match match_j r with
        | Some (j, rest) =>
            if is_empty rest
            then Return (1000 * digit_value a + 100 * digit_value b
                         + 10 * digit_value c + digit_value d, j)
            else Raise ValueError            (* unconverted data remains *)
        | None => Raise ValueError           (* does not match format *)
        end
      else Raise ValueError
  | _ => Raise ValueError
  end.

(** [date.fromordinal((julian - 1) + date(year, 1, 1).toordinal())]: day 366
    of a common year is the first day of the next year. *)
Definition date_of_julian (year julian : Z) : outcome Timestamp :=
  if (year <? 1) || (9999 <? year) then Raise ValueError
  else if julian <=? days_in_year year then Return (mkTimestamp year julian)
  else if year =? 9999 then Raise ValueError
  else Return (mkTimestamp (year + 1) (julian - days_in_year year)).

(** The midnights a [datetime64[ns]] holds: 1677-09-22 to 2262-04-11. *)
Definition in_ns_bounds (t : Timestamp) : bool :=
  ((1677 <? ts_year t) || ((ts_year t =? 1677) && (265 <=? ts_dayofyear t)))
  && ((ts_year t <? 2262) || ((ts_year t =? 2262) && (ts_dayofyear t <=? 101))).

Definition to_datetime_Yj (s : string) : outcome (option Timestamp) :=
  let* yj := strptime_Yj s in
  let* t := date_of_julian (fst yj) (snd yj) in
  if in_ns_bounds t then Return (Some t) else Raise OutOfBoundsDatetime.

(** *** The arguments and the built-ins applied to them *)

Inductive PyVal : Type :=
| PyNone
| PyInt (n : Z)
| PyFloatV (f : PyFloat)
| PyStr (s : string).

Definition is_None (v : PyVal) : bool :=
  match v with PyNone => true | _ => false end.

(** The nearest integer with 53 significant bits, ties to even, of [a >= 0]. *)
Definition round_to_53 (a : Z) : Z :=
  let k := Z.log2 a + 1 in
  if k <=? 53 then a
  else
    let sh := k - 53 in
    let q := Z.shiftr a sh in
    let r := Z.land a (Z.ones sh) in
    let half := Z.shiftl 1 (sh - 1) in
    let q' := if (half <? r) || ((r =? half) && Z.odd q) then q + 1 else q in
    Z.shiftl q' sh.

(** [float(n)] for an [int]. *)
Definition float_of_int (n : Z) : outcome PyFloat :=
  let r := round_to_53 (Z.abs n) in
  if 2 ^ 1024 <=? r then Raise OverflowError
  else Return (FFinite (Z.sgn n * r) 0).

(** [int(f)] for a [float]: truncation towards zero. *)
Definition int_of_float (f : PyFloat) : outcome Z :=
  match f with
  | FNaN => Raise ValueError
  | FInf _ => Raise OverflowError
  | FFinite m e => Return (if 0 <=? e then m * 2 ^ e else Z.quot m (2 ^ (- e)))
  end.

Section WithRuntime.
Context {rt : Runtime}.

Definition py_str (v : PyVal) : string :=
  match v with
  | PyNone => "None"
  | PyInt n => str_of_int n
  | PyFloatV f => float_repr f
  | PyStr s => s
  end.

Definition py_float (v : PyVal) : outcome PyFloat :=
  match v with
  | PyNone => Raise TypeError
  | PyInt n => float_of_int n
  | PyFloatV f => Return f
  | PyStr s =>
      match float_of_str s with
      | Some f => Return f
      | None => Raise ValueError
      end
  end.

(** [int(float(v))] *)
Definition int_float (v : PyVal) : outcome Z :=
  let* f := py_float v in int_of_float f.

(** The body of the [try] block. *)
Definition unified_date_convert_try (year doy date_str : PyVal)
  : outcome (option Timestamp) :=
  if negb (is_None date_str) then
    let date_str := strip (py_str date_str) in
    if (String.length date_str =? 5)%nat && isdigit date_str then
      let* year_part := int_of_digits (slice 0 2 date_str) in
      let* doy_part := int_of_digits (from_index 2 date_str) in
      let century_prefix := if year_part <=? 30 then "20" else "19" in
      let full_year := (century_prefix ++ format_0d 2 year_part)%string in
      to_datetime_Yj (full_year ++ format_0d 3 doy_part)
    else
      Return NaT
  else if negb (is_None year) && negb (is_None doy) then
    let* year := int_float year in
    let* doy := int_float doy in
    if (1 <=? doy) && (doy <=? 366) then
      to_datetime_Yj (str_of_int year ++ format_0d 3 doy)
    else
      Return NaT
  else
    Return NaT.

(** [except Exception as e]: log and return [pd.NaT]. *)
Definition unified_date_convert (year doy date_str : PyVal)
  : outcome (option Timestamp) :=
  match unified_date_convert_try year doy date_str with
  | Return d => Return d
  | Raise _ => Return NaT
  end.

End WithRuntime.

End Dates.

(** ** [MetricsCalculator], in exact arithmetic

    Array entries are real numbers; [None] is a NaN entry.  The arithmetic
    is exact, so rounding, overflow and infinite entries are outside this
    reading; it carries the properties that are stated for exact
    arithmetic.  The float64 arithmetic of the program is in
    [MetricsFloat64]. *)

Module Metrics.
Local Open Scope R_scope.

Definition np_sum (a : list R) : R := fold_right Rplus 0 a.

(** [np.mean] of a non-empty array. *)
Definition np_mean (a : list R) : R := np_sum a / INR (length a).

(** An elementwise operation on two one-dimensional arrays: equal shapes, or
    one of them of length one; other shapes do not broadcast. *)
Definition elementwise (f : R -> R -> R) (a b : list R) : outcome (list R) :=
  if (length a =? length b)%nat then Return (zip_with f a b)
  else match a, b with
       | [x], _ => Return (map (f x) b)
       | _, [y] => Return (map (fun x => f x y) a)
       | _, _ => Raise ValueError
       end.

Definition d_stat_try (measured simulated : list R) : outcome (option R) :=
  let M := measured in
  let S := simulated in
  let M_mean := np_mean M in
  let* sq := elementwise (fun m s => (m - s) ^ 2) M S in
  let numerator := np_sum sq in
  let* spread :=
    elementwise (fun m s => (Rabs (m - M_mean) + Rabs (s - M_mean)) ^ 2) M S in
  let denominator := np_sum spread in
  Return (if Req_dec_T denominator 0 then None
          else Some (1 - numerator / denominator)).

(** Willmott's index of agreement; an exception is logged and gives
    [None]. *)
Definition d_stat (measured simulated : list R) : option R :=
  match d_stat_try measured simulated with
  | Return d => d
  | Raise _ => None
  end.

Definition rmse (obs_values sim_values : list R) : outcome R :=
  let* sq := elementwise (fun o s => (o - s) ^ 2) obs_values sim_values in
  Return (sqrt (np_mean sq)).

Record metrics : Type := mkMetrics {
  TRT : string;
  n : nat;
  RMSE : R;
  NRMSE : option R;
  Willmott_d_stat : option R
}.

Definition notnan (x : option R) : bool :=
  match x with Some _ => true | None => false end.

(** [a[mask]] for an array whose entries under the mask are numbers. *)
Fixpoint select (mask : list bool) (a : list (option R)) : list R :=
  match mask, a with
  | true :: mask', Some x :: a' => x :: select mask' a'
  | _ :: mask', _ :: a' => select mask' a'
  | _, _ => []
  end.

Definition calculate_metrics_try
    (sim_values obs_values : list (option R)) (treatment_number : string)
  : outcome (option metrics) :=
  if (length sim_values =? 0)%nat || (length obs_values =? 0)%nat then
    Return None
  else
    let min_length := Nat.min (length sim_values) (length obs_values) in
    let mask := zip_with (fun s o => notnan s && notnan o)
                  (take min_length sim_values) (take min_length obs_values) in
    let sim_values := select mask (take min_length sim_values) in
    let obs_values := select mask (take min_length obs_values) in
    if (length sim_values =? 0)%nat then
      Return None
    else
      let mean_obs := np_mean obs_values in
      let n := length sim_values in
      let* rmse_value := rmse obs_values sim_values in
      let nrmse := if Req_dec_T mean_obs 0 then None
                   else Some (rmse_value / mean_obs * 100) in
      let d_stat := d_stat obs_values sim_values in
      Return (Some (mkMetrics treatment_number n rmse_value nrmse d_stat)).

Definition calculate_metrics
    (sim_values obs_values : list (option R)) (treatment_number : string)
  : option metrics :=
  match calculate_metrics_try sim_values obs_values treatment_number with
  | Return r => r
  | Raise _ => None
  end.

End Metrics.

(** ** The pandas objects

    A frame is its row count and its columns by label; labels are unique,
    as the data model requires. *)

Module Frames.

Record Frame (Col : Type) : Type := mkFrame {
  nrows : nat;
  columns : gmap string Col
}.
Arguments mkFrame {Col} nrows columns.
Arguments nrows {Col} f.
Arguments columns {Col} f.

(** [df.empty]: no rows or no columns. *)
Definition empty {Col} (df : Frame Col) : bool :=
  (nrows df =? 0)%nat || (size (columns df) =? 0)%nat.

(** [col in df.columns] *)
Definition has_column {Col} (col : string) (df : Frame Col) : bool :=
  match columns df !! col with Some _ => true | None => false end.

(** [df[col] = values] *)
Definition set_column {Col} (col : string) (v : Col) (df : Frame Col) : Frame Col :=
  mkFrame (nrows df) (<[col := v]> (columns df)).

(** A cell of a frame that was built from the tokens of a text file. *)
Inductive text_cell : Type :=
| TNone
| TNaN
| TStr (s : string).

Definition text_isna (c : text_cell) : bool :=
  match c with TStr _ => false | _ => true end.

Abbreviation TextFrame := (Frame (list text_cell)).

(** A column with its dtype: [object], [Int64], [float64],
    [datetime64[ns]]; [None] is the missing entry of the dtype. *)
Inductive Series : Type :=
| ObjectS (v : list text_cell)
| Int64S (v : list (option Z))
| Float64S (v : list (option Q))
| DatetimeS (v : list (option Timestamp)).

Abbreviation TypedFrame := (Frame Series).

(** A scalar of a frame of any dtype; [NA] is None, NaN and NaT. *)
Inductive cell : Type :=
| NA
| CStr (s : string)
| CInt (z : Z)
| CFloat (q : Q)
| CDate (t : Timestamp).

Definition isna (c : cell) : bool :=
  match c with NA => true | _ => false end.

Abbreviation DataFrame := (Frame (list cell)).

Definition ts_eqb (a b : Timestamp) : bool :=
  (ts_year a =? ts_year b)%Z && (ts_dayofyear a =? ts_dayofyear b)%Z.

(** [a == b] for two scalars; a missing value equals nothing. *)
Definition cell_eqb (a b : cell) : bool :=
  match a, b with
  | CStr x, CStr y => String.eqb x y
  | CInt x, CInt y => (x =? y)%Z
  | CFloat x, CFloat y => Qeq_bool x y
  | CInt x, CFloat y => Qeq_bool (inject_Z x) y
  | CFloat x, CInt y => Qeq_bool x (inject_Z y)
  | CDate x, CDate y => ts_eqb x y
  | _, _ => false
  end.

End Frames.

(** ** [standardize_dtypes] *)

Module Standardize.
Import PyStr Frames.

Definition timestamp_cols : list string := ["YEAR"; "DOY"; "DATE"]%string.
Definition treatment_cols : list string := ["TRT"]%string.

Definition reserved (col : string) : bool :=
  bool_decide (col ∈ timestamp_cols) || bool_decide (col ∈ treatment_cols).

(** [str(x)] for one cell, as [astype(str)] applies it. *)
Definition astype_str (c : text_cell) : text_cell :=
  match c with
  | TNone => TStr "None"
  | TNaN => TStr "nan"
  | TStr s => TStr s
  end.

(** [x.is_integer()] for a number; [float] has the method in every
    version of Python, [int] from Python 3.12. *)
Definition is_integer (q : Q) : bool :=
  (Qnum q mod Zpos (Qden q) =? 0)%Z.

Definition int_value (q : Q) : Z := (Qnum q / Zpos (Qden q))%Z.

Definition fits_int64 (z : Z) : bool :=
  (- 2 ^ 63 <=? z)%Z && (z <? 2 ^ 63)%Z.

(** [astype("Int64")]: the cast is refused unless every value is a whole
    number that a signed 64-bit integer holds. *)
Definition astype_Int64 (v : list (option Q)) : outcome (list (option Z)) :=
  if forallb (fun x => match x with
                       | Some q => is_integer q && fits_int64 (int_value q)
                       | None => true
                       end) v
  then Return (map (option_map int_value) v)
  else Raise TypeError.

(** [s.isna().mean()]; NaN for a column without rows. *)
Definition isna_mean (v : list (option Q)) : option Q :=
  match length v with
  | O => None
  | S _ => Some (Z.of_nat (length (filter (fun x => x = None) v))
                 # Pos.of_nat (length v))
  end.

(** [nan_ratio < 0.1] *)
Definition below_tenth (ratio : option Q) : bool :=
  match ratio with
  | Some r => match Qlt_le_dec r (1 # 10) with left _ => true | right _ => false end
  | None => false
  end.

Definition dropna {A} (v : list (option A)) : list A := omap (fun x => x) v.

Section WithRuntime.
Context {rt : Runtime}.

(** [pd.to_numeric(s, errors="coerce")] *)
Definition to_numeric (s : list text_cell) : list (option Q) :=
  map (fun c => match c with
                | TStr t => to_numeric_scalar t
                | _ => None
                end) s.

(** Whether the parsed column has an integer dtype: no entry is missing
    and every token is read as an integer.  [apply] then passes Python
    [int]s to the lambda; otherwise the dtype is float64 and it passes
    [float]s. *)
Definition integer_dtype (s : list text_cell) : bool :=
  forallb (fun x => match x with Some _ => true | None => false end) (to_numeric s)
  && forallb (fun c => match c with
                       | TStr t => to_numeric_is_int t
                       | _ => false
                       end) s.

(** [numeric_series.dropna().apply(lambda x: x.is_integer()).all()] *)
Definition all_is_integer (s : list text_cell) : outcome bool :=
  if integer_dtype s && negb int_has_is_integer then Raise AttributeError
  else Return (forallb is_integer (dropna (to_numeric s))).

(** The [try] block of the numeric conversion; [Return None] leaves the
    column as it is. *)
Definition numeric_conversion (s : list text_cell) : outcome (option Series) :=
  let numeric_series := to_numeric s in
  let nan_ratio := isna_mean numeric_series in
  if below_tenth nan_ratio then
    let* whole := all_is_integer s in
    if whole then
      let* v := astype_Int64 numeric_series in Return (Some (Int64S v))
    else
      Return (Some (Float64S numeric_series))
  else
    Return None.

(** One step of the loop over the columns. *)
Definition standardize_column (col : string) (s : list text_cell) : Series :=
  if reserved col then
    ObjectS (map astype_str s)
  else
    match numeric_conversion s with
    | Return (Some s') => s'
    | Return None => ObjectS s
    | Raise _ => ObjectS s              (* except Exception: pass *)
    end.

(** [df.dropna(axis=1, how='all')] *)
Definition drop_all_nan (df : TextFrame) : TextFrame :=
  mkFrame (nrows df)
    (filter (fun kv => forallb text_isna (snd kv) = false) (columns df)).

Definition standardize_dtypes (df : TextFrame) : TypedFrame :=
  if empty df then
    mkFrame (nrows df) (ObjectS <$> columns df)
  else
    let df := drop_all_nan df in
    mkFrame (nrows df)
      (map_imap (fun col s => Some (standardize_column col s)) (columns df)).

End WithRuntime.

(** A token parser for plain decimal literals: an optional sign, digits, and
    an optional point followed by digits.  It instantiates the runtime in
    the examples. *)

Fixpoint decimal_fraction (num : Z) (den : positive) (s : string) : option Q :=
  match s with
  | EmptyString => Some (num # den)
  | String c s' =>
      if is_decimal c
      then decimal_fraction (10 * num + digit_value c) (10 * den) s'
      else None
  end.

Fixpoint decimal_unsigned (acc : Z) (seen : bool) (s : string) : option Q :=
  match s with
  | EmptyString => if seen then Some (inject_Z acc) else None
  | String c s' =>
      if is_decimal c then decimal_unsigned (10 * acc + digit_value c) true s'
      else if Ascii.eqb c "." then
        (if seen || negb (is_empty s') then decimal_fraction acc 1 s' else None)
      else None
  end.

(** The tokens among them that are integers: an optional sign and
    digits. *)
Definition integer_literal (s : string) : bool :=
  match s with
  | String c s' =>
      if Ascii.eqb c "-" || Ascii.eqb c "+"
      then negb (is_empty s') && all_decimal s'
      else all_decimal s
  | EmptyString => false
  end.

Definition decimal_literal (s : string) : option Q :=
  match s with
  | String c s' =>
      if Ascii.eqb c "-" then option_map Qopp (decimal_unsigned 0 false s')
      else if Ascii.eqb c "+" then decimal_unsigned 0 false s'
      else decimal_unsigned 0 false s
  | EmptyString => None
  end.

End Standardize.

(** ** [read_file] and [process_treatment_block]

    The file is its list of lines, each with its line end, as [readlines]
    returns them. *)

Module DssatIO.
Import PyStr Frames Standardize.

(** A line of a file, with its line end. *)
Definition text_line (s : string) : string := (s ++ String "010" EmptyString)%string.

(** [line.strip().upper().startswith("TREATMENT")] *)
Definition is_treatment_line (line : string) : bool :=
  startswith (upper (strip line)) "TREATMENT".

(** [next((i for i, line in enumerate(lines) if p(line)), None)] *)
Fixpoint find_index (p : string -> bool) (lines : list string) : option nat :=
  match lines with
  | [] => None
  | line :: lines' =>
      if p line then Some O else option_map S (find_index p lines')
  end.

(** [[i for i, line in enumerate(lines) if p(line)]], counting from [i]. *)
Fixpoint indices_from (i : nat) (p : string -> bool) (lines : list string)
  : list nat :=
  match lines with
  | [] => []
  | line :: lines' =>
      if p line then i :: indices_from (S i) p lines'
      else indices_from (S i) p lines'
  end.

(** [lines[i:j]] *)
Definition slice_lines (i j : nat) (lines : list string) : list string :=
  take (j - i) (drop i lines).

(** [pd.DataFrame(data, columns=columns)] for a list of token rows: short
    rows are padded with [None], and the widest row has to be as wide as
    the header. *)
Definition DataFrame_of_rows (data : list (list string)) (columns : list string)
  : outcome TextFrame :=
  let width := foldr Nat.max O (map length data) in
  if (width =? length columns)%nat then
    Return (mkFrame (length data)
              (list_to_map
                 (imap (fun j name =>
                          (name, map (fun row => match row !! j with
                                                 | Some tok => TStr tok
                                                 | None => TNone
                                                 end) data))
                       columns)))
  else Raise ValueError.

(** [line.lstrip("@").strip().split()] *)
Definition header_tokens (line : string) : list string :=
  split (strip (lstrip_char "@" line)).

(** [[line.strip().split() for line in lines
      if line.strip() and not line.startswith("*")]] *)
Definition data_rows (lines : list string) : list (list string) :=
  map (fun line => split (strip line))
    (filter (fun line => negb (is_empty (strip line))
                         && negb (startswith line "*") = true)
       lines).

Definition process_treatment_block_try (lines : list string)
  : outcome (option TextFrame) :=
  match find_index (fun line => startswith line "@") lines with
  | None => Return None
  | Some header_index =>
      let headers := header_tokens (nth header_index lines EmptyString) in
      let data_lines := data_rows (drop (header_index + 1) lines) in
      match data_lines with
      | [] => Return None
      | _ =>
          let* df := DataFrame_of_rows data_lines headers in
          match find is_treatment_line lines with
          | Some treatment_line =>
              match split treatment_line !! 1%nat with
              | Some trt_num =>
                  Return (Some (set_column "TRT"
                                  (replicate (nrows df) (TStr trt_num)) df))
              | None => Return (Some df)           (* except IndexError: pass *)
              end
          | None => Return (Some df)
          end
      end
  end.

Definition process_treatment_block (lines : list string) : option TextFrame :=
  match process_treatment_block_try lines with
  | Return df => df
  | Raise _ => None
  end.

(** The slices [lines[start_idx:next_idx]], one per treatment line. *)
Fixpoint treatment_blocks (lines : list string) (treatment_indices : list nat)
  : list (list string) :=
  match treatment_indices with
  | [] => []
  | start_idx :: rest =>
      let next_idx := match rest with
                      | next :: _ => next
                      | [] => length lines
                      end in
      slice_lines start_idx next_idx lines :: treatment_blocks lines rest
  end.

(** [pd.concat([a, b], ignore_index=True)]: the rows of [a], then the rows
    of [b]; a column one frame lacks is NaN in that frame's rows. *)
Definition concat2 (a b : TextFrame) : TextFrame :=
  mkFrame (nrows a + nrows b)
    (merge (fun ca cb =>
              match ca, cb with
              | Some x, Some y => Some (x ++ y)
              | Some x, None => Some (x ++ replicate (nrows b) TNaN)
              | None, Some y => Some (replicate (nrows a) TNaN ++ y)
              | None, None => None
              end)
       (columns a) (columns b)).

Definition concat (frames : list TextFrame) : TextFrame :=
  foldl concat2 (mkFrame O ∅) frames.

(** [combined_data.loc[:, combined_data.notna().any()]] *)
Definition keep_notna_any (df : TextFrame) : TextFrame :=
  mkFrame (nrows df)
    (filter (fun kv => existsb (fun c => negb (text_isna c)) (snd kv) = true)
       (columns df)).

Definition text_of (c : text_cell) : string :=
  match astype_str c with TStr s => s | _ => EmptyString end.

(** [pd.to_datetime(year + doy.str.zfill(3), format="%Y%j", errors='coerce')]
    for one row. *)
Definition date_of_row (year doy : text_cell) : option Timestamp :=
  match Dates.to_datetime_Yj (text_of year ++ zfill 3 (text_of doy)) with
  | Return d => d
  | Raise _ => NaT
  end.

(** The DATE column is built from the YEAR and DOY columns, which
    [standardize_dtypes] has left as text. *)
Definition create_DATE (df : TypedFrame) : TypedFrame :=
  match columns df !! "YEAR"%string, columns df !! "DOY"%string with
  | Some (ObjectS year), Some (ObjectS doy) =>
      set_column "DATE" (DatetimeS (zip_with date_of_row year doy)) df
  | _, _ => df
  end.

Section WithRuntime.
Context {rt : Runtime}.

(** [file] is [None] when the path does not exist or no encoding reads
    it. *)
Definition read_file (file : option (list string)) : option TypedFrame :=
  match file with
  | None => None
  | Some [] => None
  | Some lines =>
      let treatment_indices := indices_from O is_treatment_line lines in
      let data_frames :=
        match treatment_indices with
        | _ :: _ =>
            omap process_treatment_block (treatment_blocks lines treatment_indices)
        | [] =>
            match process_treatment_block lines with
            | Some df => [df]
            | None => []
            end
        end in
      match data_frames with
      | _ :: _ =>
          let combined_data := concat data_frames in
          let combined_data := keep_notna_any combined_data in
          let combined_data := standardize_dtypes combined_data in
          Some (create_DATE combined_data)
      | [] => None
      end
  end.

End WithRuntime.

End DssatIO.

(** ** [get_evaluate_variable_pairs] *)

Module Evaluate.
Import PyStr Frames.

Definition metadata_columns : list string :=
  ["RUN"; "EXCODE"; "TRNO"; "RN"; "CR"]%string.

(** One entry of the code dictionary. *)
Record VariableInfo : Type := mkInfo { label : string; description : string }.

(** [parse_data_cde], from the lines of DATA.CDE; [None] when the file
    cannot be opened.  Every failure is logged and leaves the dictionary as
    it is. *)
Definition parse_data_cde (file : option (list string)) : gmap string VariableInfo :=
  match file with
  | None => ∅
  | Some lines =>
      let data_lines :=
        filter (fun line => negb (startswith line "!" || startswith line "*") = true)
          lines in
      match DssatIO.find_index (fun line => startswith line "@") data_lines with
      | None => ∅                                         (* StopIteration *)
      | Some header_index =>
          foldl (fun variable_info line =>
                   if (String.length (strip line) =? 0)%nat then variable_info
                   else
                     let cde := strip (slice 0 6 line) in
                     let label := strip (slice 7 20 line) in
                     let description :=
                       if (21 <? String.length line)%nat
                       then strip (slice 21 70 line) else EmptyString in
                     if negb (is_empty cde)
                     then <[cde := mkInfo label description]> variable_info
                     else variable_info)
            (∅ : gmap string VariableInfo)
            (drop (header_index + 1) data_lines)
      end
  end.

(** [get_variable_info]: the label, or [None]. *)
Definition get_variable_label (data_cde : option (list string))
    (variable_name : string) : option string :=
  label <$> (parse_data_cde data_cde !! variable_name).

(** Tuples of strings compare as Python compares them: component by
    component, strings by code point. *)
Definition triple_compare (a b : string * string * string) : comparison :=
  match String.compare (fst (fst a)) (fst (fst b)) with
  | Eq => match String.compare (snd (fst a)) (snd (fst b)) with
          | Eq => String.compare (snd a) (snd b)
          | c => c
          end
  | c => c
  end.

Definition triple_le (a b : string * string * string) : Prop :=
  triple_compare a b <> Gt.

Global Instance triple_le_dec a b : Decision (triple_le a b).
Proof. unfold triple_le. apply _. Defined.

(** [data[[col, measured_var]].dropna()]: the aligned rows where neither
    side is missing. *)
Definition valid_rows (sim meas : list cell) : list (cell * cell) :=
  filter (fun p => negb (isna (fst p)) && negb (isna (snd p)) = true)
    (zip sim meas).

(** The tuple the loop appends for the column [col], if any. *)
Definition pair_for (data_cde : option (list string)) (data : DataFrame)
    (col : string) : option (string * string * string) :=
  if bool_decide (col ∈ metadata_columns) then None
  else if endswith_char col "S" then
    let base_name := drop_last col in
    let measured_var := (base_name ++ "M")%string in
    match columns data !! col, columns data !! measured_var with
    | Some sim, Some meas =>
        let sim_all_missing := forallb isna sim in
        let meas_all_missing := forallb isna meas in
        if sim_all_missing || meas_all_missing then None
        else
          let valid_data := valid_rows sim meas in
          match valid_data with
          | [] => None
          | _ =>
              if forallb (fun p => cell_eqb (fst p) (snd p)) valid_data then None
              else
                let display_name :=
                  match get_variable_label data_cde base_name with
                  | Some var_label =>
                      if is_empty var_label then base_name else var_label
                  | None => base_name
                  end in
                Some (display_name, col, measured_var)
          end
    | _, _ => None
    end
  else None.

(** [data_cde] is the content of the DATA.CDE file that [get_variable_info]
    reads. *)
Definition get_evaluate_variable_pairs (data_cde : option (list string))
    (data : DataFrame) : list (string * string * string) :=
  merge_sort triple_le
    (omap (pair_for data_cde data) (elements (dom (columns data)))).

End Evaluate.

(** ** [handle_missing_xvar] *)

Module XVar.
Import PyStr Frames.

(** [pd.Series.min] of a datetime column: the earliest date, NaT when there
    is none. *)
Definition earlier (a b : Timestamp) : Timestamp :=
  if (Dates.toordinal b <? Dates.toordinal a)%Z then b else a.

Fixpoint dates_min (v : list cell) : option Timestamp :=
  match v with
  | [] => None
  | CDate t :: v' =>
      match dates_min v' with
      | Some m => Some (earlier t m)
      | None => Some t
      end
  | _ :: v' => dates_min v'
  end.

(** [s.dt.dayofyear] *)
Definition dayofyear (c : cell) : cell :=
  match c with CDate t => CInt (ts_dayofyear t) | _ => NA end.

(** [(s - start_date).dt.days] *)
Definition days_since (start_date : option Timestamp) (c : cell) : cell :=
  match start_date, c with
  | Some s, CDate t => CInt (Dates.toordinal t - Dates.toordinal s)
  | _, _ => NA
  end.

(** [s.dropna().unique()]: the values in order of first appearance. *)
Fixpoint unique_from (seen : list cell) (v : list cell) : list cell :=
  match v with
  | [] => []
  | c :: v' =>
      if isna c || existsb (cell_eqb c) seen then unique_from seen v'
      else c :: unique_from (c :: seen) v'
  end.

Definition dropna_unique (v : list cell) : list cell := unique_from [] v.

(** [dict(zip(keys, values))[c]]; a later pair with the same key wins. *)
Fixpoint dict_get (d : list (cell * cell)) (c : cell) : option cell :=
  match d with
  | [] => None
  | (k, x) :: d' =>
      match dict_get d' c with
      | Some y => Some y
      | None => if cell_eqb k c then Some x else None
      end
  end.

(** [s.fillna(method="ffill")] *)
Fixpoint ffill_from (last : cell) (v : list cell) : list cell :=
  match v with
  | [] => []
  | c :: v' =>
      if isna c then last :: ffill_from last v' else c :: ffill_from c v'
  end.

Definition ffill (v : list cell) : list cell := ffill_from NA v.

(** [range(n)] *)
Definition range (n : nat) : list cell := map (fun i => CInt (Z.of_nat i)) (seq 0 n).

Definition special_variables : list string := ["DAP"; "DOY"; "DAS"]%string.

(** [df[col]] *)
Definition getitem (df : DataFrame) (col : string) : outcome (list cell) :=
  match columns df !! col with
  | Some v => Return v
  | None => Raise KeyError
  end.

Section WithRuntime.
Context {rt : Runtime}.

(** [pd.to_datetime(s, errors="coerce")] for one cell. *)
Definition to_datetime (c : cell) : cell :=
  match c with
  | NA => NA
  | CDate t => CDate t
  | CStr s => match to_datetime_scalar s with Some t => CDate t | None => NA end
  | CInt z => match to_datetime_number (inject_Z z) with Some t => CDate t | None => NA end
  | CFloat q => match to_datetime_number q with Some t => CDate t | None => NA end
  end.

(** [if "DATE" in df.columns: df["DATE"] = pd.to_datetime(df["DATE"], errors="coerce")] *)
Definition coerce_DATE (df : DataFrame) : DataFrame :=
  match columns df !! "DATE"%string with
  | Some v => set_column "DATE" (map to_datetime v) df
  | None => df
  end.

(** The function after its two DATE assignments; [obs_data] is the copy,
    [sim_data] is only read. *)
Definition resolve_xvar (obs_data : DataFrame) (x_var : string)
    (sim_data : option DataFrame) : outcome (option DataFrame) :=
  if has_column x_var obs_data then Return (Some obs_data)
  else if has_column x_var obs_data then
    let* v := getitem obs_data x_var in
    Return (Some (set_column x_var v obs_data))
  else
    let finish (obs_data : DataFrame) : outcome (option DataFrame) :=
      let obs_data :=
        if negb (has_column x_var obs_data)
        then set_column x_var (range (nrows obs_data)) obs_data
        else obs_data in
      let* v := getitem obs_data x_var in
      Return (Some (set_column x_var (ffill v) obs_data)) in
    if bool_decide (upper x_var ∈ special_variables) then
      if has_column "DATE" obs_data then
        let* obs_dates := getitem obs_data "DATE" in
        if String.eqb (upper x_var) "DOY" then
          finish (set_column x_var (map dayofyear obs_dates) obs_data)
        else
          let* start_date :=
            match sim_data with
            | Some sim =>
                let* sim_dates := getitem sim "DATE" in
                Return (dates_min (map to_datetime sim_dates))
            | None => Return (dates_min obs_dates)
            end in
          finish (set_column x_var (map (days_since start_date) obs_dates) obs_data)
      else
        Return (Some obs_data)
    else
      match sim_data with
      | Some sim =>
          if negb (empty sim) then
            if has_column "DATE" sim then
              let* sim_col := getitem sim "DATE" in
              let sim_dates := dropna_unique (map to_datetime sim_col) in
              let* obs_col := getitem obs_data "DATE" in
              let obs_dates := map to_datetime obs_col in
              let* sim_x := getitem sim x_var in
              let date_to_xvar := zip sim_dates (dropna_unique sim_x) in
              finish (set_column x_var
                        (map (fun d => if isna d then NA
                                       else default NA (dict_get date_to_xvar d))
                           obs_dates)
                        obs_data)
            else finish obs_data
          else finish obs_data
      | None => finish obs_data
      end.

(** The result, and the caller's [sim_data] object after the call. *)
Definition handle_missing_xvar (obs_data : option DataFrame) (x_var : string)
    (sim_data : option DataFrame)
  : outcome (option DataFrame) * option DataFrame :=
  match obs_data with
  | None => (Return None, sim_data)
  | Some obs =>
      if empty obs then (Return (Some obs), sim_data)
      else
        let obs_data := coerce_DATE obs in
        let sim_data := coerce_DATE <$> sim_data in
        (resolve_xvar obs_data x_var sim_data, sim_data)
  end.

End WithRuntime.

End XVar.

(** A runtime that reads plain decimal literals and nothing else, on
    Python 3.12 or later; the examples are evaluated with it. *)
Definition literal_runtime : Runtime := {|
  float_of_str := fun _ => None;
  float_repr := fun _ => EmptyString;
  to_numeric_scalar := Standardize.decimal_literal;
  to_numeric_is_int := Standardize.integer_literal;
  int_has_is_integer := true;
  to_datetime_scalar := fun _ => None;
  to_datetime_number := fun _ => None
|}.

(** ** [MetricsCalculator] in float64

    The arrays of the program hold float64 numbers.  Here an entry is a
    binary64 value of the Standard Library's specification of IEEE 754
    arithmetic ([spec_float], precision 53, maximal exponent 1024), NaN
    included, and every operation rounds as the hardware does.

    The one thing left open is the order in which [np.add.reduce] adds the
    entries of an array (NumPy sums pairwise, in blocks whose shape depends
    on the length): it is the field of the class [Summation]. *)

Module Float64.

Definition prec : Z := 53.
Definition emax : Z := 1024.

Definition add : spec_float -> spec_float -> spec_float := SFadd prec emax.
Definition sub : spec_float -> spec_float -> spec_float := SFsub prec emax.
Definition mul : spec_float -> spec_float -> spec_float := SFmul prec emax.
Definition div : spec_float -> spec_float -> spec_float := SFdiv prec emax.
Definition sqrt : spec_float -> spec_float := SFsqrt prec emax.
Definition abs : spec_float -> spec_float := SFabs.

(** [x == y] *)
Definition eqb : spec_float -> spec_float -> bool := SFeqb.

(** [np.isnan(x)] *)
Definition isnan (x : spec_float) : bool :=
  match x with S754_nan => true | _ => false end.

(** A number: a zero or a finite binary64 value, not NaN and not
    infinite. *)
Definition is_finite (x : spec_float) : bool :=
  match x with
  | S754_zero _ => true
  | S754_finite _ m e => bounded prec emax m e
  | _ => false
  end.

(** [float(k)] for a count. *)
Definition of_nat (k : nat) : spec_float :=
  binary_normalize prec emax (Z.of_nat k) 0 false.

Definition zero : spec_float := S754_zero false.
Definition one : spec_float := Eval vm_compute in of_nat 1.
Definition hundred : spec_float := Eval vm_compute in of_nat 100.

(** [x ** 2] *)
Definition square (x : spec_float) : spec_float := mul x x.

(** [np.add.reduce] over a one-dimensional float64 array. *)
Class Summation : Type := {
  add_reduce : list spec_float -> spec_float
}.

(** What the properties use of a summation, and what every order of
    float64 additions gives: zeros add up to zero, and a single number
    adds up to itself. *)
Definition adds_exactly (red : Summation) : Prop :=
  (forall a, a <> [] -> Forall (fun x => x = zero) a -> add_reduce a = zero)
  /\ (forall x, is_finite x = true -> eqb (add_reduce [x]) x = true).

(** The entries added one after the other: the order in which NumPy adds
    an array of fewer than 8 entries (the sign of a sum that is zero
    aside).  The examples are evaluated with it. *)
Definition left_to_right : Summation := {|
  add_reduce := fun a => fold_left add a zero
|}.

End Float64.

Module MetricsFloat64.
Import Float64.

Section WithSummation.
Context {red : Summation}.

Definition np_sum (a : list spec_float) : spec_float := add_reduce a.

(** [np.mean] of a non-empty array: the sum divided by the count. *)
Definition np_mean (a : list spec_float) : spec_float :=
  div (add_reduce a) (of_nat (length a)).

(** An elementwise operation on two one-dimensional arrays: equal shapes, or
    one of them of length one; other shapes do not broadcast. *)
Definition elementwise (f : spec_float -> spec_float -> spec_float)
    (a b : list spec_float) : outcome (list spec_float) :=
  if (length a =? length b)%nat then Return (zip_with f a b)
  else match a, b with
       | [x], _ => Return (map (f x) b)
       | _, [y] => Return (map (fun x => f x y) a)
       | _, _ => Raise ValueError
       end.

Definition d_stat_try (measured simulated : list spec_float)
  : outcome (option spec_float) :=
  let M := measured in
  let S := simulated in
  let M_mean := np_mean M in
  let* sq := elementwise (fun m s => square (sub m s)) M S in
  let numerator := np_sum sq in
  let* spread :=
    elementwise (fun m s => square (add (abs (sub m M_mean)) (abs (sub s M_mean))))
      M S in
  let denominator := np_sum spread in
  Return (if negb (eqb denominator zero)
          then Some (sub one (div numerator denominator))
          else None).

(** Willmott's index of agreement; an exception is logged and gives
    [None]. *)
Definition d_stat (measured simulated : list spec_float) : option spec_float :=
  match d_stat_try measured simulated with
  | Return d => d
  | Raise _ => None
  end.

Definition rmse (obs_values sim_values : list spec_float) : outcome spec_float :=
  let* sq := elementwise (fun o s => square (sub o s)) obs_values sim_values in
  Return (sqrt (np_mean sq)).

Record metrics : Type := mkMetrics {
  TRT : string;
  n : nat;
  RMSE : spec_float;
  NRMSE : option spec_float;
  Willmott_d_stat : option spec_float
}.

(** [a[mask]] *)
Fixpoint select (mask : list bool) (a : list spec_float) : list spec_float :=
  match mask, a with
  | true :: mask', x :: a' => x :: select mask' a'
  | false :: mask', _ :: a' => select mask' a'
  | _, _ => []
  end.

Definition calculate_metrics_try
    (sim_values obs_values : list spec_float) (treatment_number : string)
  : outcome (option metrics) :=
  if (length sim_values =? 0)%nat || (length obs_values =? 0)%nat then
    Return None
  else
    let min_length := Nat.min (length sim_values) (length obs_values) in
    let mask := zip_with (fun s o => negb (isnan s) && negb (isnan o))
                  (take min_length sim_values) (take min_length obs_values) in
    let sim_values := select mask (take min_length sim_values) in
    let obs_values := select mask (take min_length obs_values) in
    if (length sim_values =? 0)%nat then
      Return None
    else
      let mean_obs := np_mean obs_values in
      let n := length sim_values in
      let* rmse_value := rmse obs_values sim_values in
      let nrmse := if negb (eqb mean_obs zero)
                   then Some (mul (div rmse_value mean_obs) hundred)
                   else None in
      let d_stat := d_stat obs_values sim_values in
      Return (Some (mkMetrics treatment_number n rmse_value nrmse d_stat)).

Definition calculate_metrics
    (sim_values obs_values : list spec_float) (treatment_number : string)
  : option metrics :=
  match calculate_metrics_try sim_values obs_values treatment_number with
  | Return r => r
  | Raise _ => None
  end.

End WithSummation.

End MetricsFloat64.

(** ** The length of a typed column *)

Module FrameShape.
Import Frames.

(** [len(s)] *)
Definition series_len (s : Series) : nat :=
  match s with
  | ObjectS v => length v
  | Int64S v => length v
  | Float64S v => length v
  | DatetimeS v => length v
  end.

End FrameShape.

(** ** [read_treatments] *)

Module Treatments.
Import PyStr Frames.

(** [next((i for i, line in enumerate(lines) if p(i, line)), None)],
    counting from [i]. *)
Fixpoint find_indexed (i : nat) (p : nat -> string -> bool) (lines : list string)
  : option nat :=
  match lines with
  | [] => None
  | line :: lines' =>
      if p i line then Some i else find_indexed (S i) p lines'
  end.

(** [file] is [None] when the path does not exist or cannot be read. *)
Definition read_treatments (file : option (list string))
  : option (Frame (list string)) :=
  match file with
  | None => None
  | Some lines =>
      match find_indexed 0 (fun _ line => startswith line "*TREATMENT") lines with
      | None => None
      | Some treatment_begins =>
          let treatment_ends :=
            default (length lines)
              (find_indexed 0
                 (fun i line => startswith line "*" && (treatment_begins <? i)%nat)
                 lines) in
          let treatment_data :=
            DssatIO.slice_lines treatment_begins treatment_ends lines in
          let not_trash_lines :=
            filter (fun line => startswith line " " = true) treatment_data in
          Some (mkFrame (length not_trash_lines)
                  (<["TR"%string :=
                       map (fun line => strip (slice 0 3 line)) not_trash_lines]>
                     {[ "TNAME"%string :=
                          map (fun line => strip (slice 9 36 line)) not_trash_lines ]}))
      end
  end.

End Treatments.

(** ** [get_all_evaluate_variables] *)

Module EvaluateAll.
Import PyStr Frames Evaluate.

Definition pair_compare (a b : string * string) : comparison :=
  match String.compare (fst a) (fst b) with
  | Eq => String.compare (snd a) (snd b)
  | c => c
  end.

Definition pair_le (a b : string * string) : Prop := pair_compare a b <> Gt.

Global Instance pair_le_dec a b : Decision (pair_le a b).
Proof. unfold pair_le. apply _. Defined.

(** The tuple the loop appends for the column [col], if any. *)
Definition variable_for (data_cde : option (list string)) (data : DataFrame)
    (col : string) : option (string * string) :=
  if bool_decide (col ∈ metadata_columns) then None
  else
    match columns data !! col with
    | Some v =>
        if negb (forallb isna v) then
          let display_name :=
            match get_variable_label data_cde col with
            | Some var_label =>
                if is_empty var_label then col else var_label
            | None => col
            end in
          Some (display_name, col)
        else None
    | None => None
    end.

Definition get_all_evaluate_variables (data_cde : option (list string))
    (data : DataFrame) : list (string * string) :=
  merge_sort pair_le
    (omap (variable_for data_cde data) (elements (dom (columns data)))).

End EvaluateAll.

(** ** [improved_smart_scale]

    A column is given by what [pd.to_numeric(..., errors="coerce")] makes of
    it: real numbers, [None] for NaN.  The arithmetic is exact. *)

Module Scale.
Import Frames.
Local Open Scope R_scope.

(** [np.min] and [np.max] of a non-empty array. *)
Definition np_min (values : list R) : R :=
  match values with
  | [] => 0
  | x :: rest => fold_left Rmin rest x
  end.

Definition np_max (values : list R) : R :=
  match values with
  | [] => 0
  | x :: rest => fold_left Rmax rest x
  end.

(** [np.isclose(a, b)] with the default tolerances. *)
Definition isclose (a b : R) : bool :=
  if Rle_dec (Rabs (a - b)) (1 / 100000000 + 1 / 100000 * Rabs b)
  then true else false.

Definition scale_value (scale_factor offset : R) (x : option R) : option R :=
  option_map (fun v => v * scale_factor + offset) x.

(** One turn of the loop over [available_vars]. *)
Definition scale_step (data : Frame (list (option R)))
    (target_min target_max : R) (scaling_factors : option (gmap string (R * R)))
    (scaled_data : gmap string (list (option R))) (var : string)
  : gmap string (list (option R)) :=
  match columns data !! var with
  | None => scaled_data
  | Some numeric_data =>
      let values := Standardize.dropna numeric_data in
      match values with
      | [] => scaled_data
      | _ =>
          match scaling_factors ≫= (fun d => d !! var) with
          | Some (scale_factor, offset) =>
              <[var := map (scale_value scale_factor offset) numeric_data]> scaled_data
          | None =>
              let var_min := np_min values in
              let var_max := np_max values in
              if isclose var_min var_max then
                let midpoint := (target_max + target_min) / 2 in
                <[var := map (fun _ => Some midpoint) numeric_data]> scaled_data
              else
                let scale_factor := (target_max - target_min) / (var_max - var_min) in
                let offset := target_min - var_min * scale_factor in
                <[var := map (scale_value scale_factor offset) numeric_data]> scaled_data
          end
      end
  end.

Definition improved_smart_scale (data : Frame (list (option R)))
    (variables : list string) (target_min target_max : R)
    (scaling_factors : option (gmap string (R * R)))
  : gmap string (list (option R)) :=
  let available_vars :=
    filter (fun var => is_Some (columns data !! var)) variables in
  foldl (scale_step data target_min target_max scaling_factors) ∅ available_vars.

End Scale.

(** * Properties *)

Import PyStr Dates Frames.

(** ** Dates *)

Section DateFacts.
Local Open Scope Z_scope.

Lemma is_decimal_cases (c : ascii) :
  is_decimal c = true -> In c decimal_chars.
Proof.
  destruct c as [b0 b1 b2 b3 b4 b5 b6 b7].
  destruct b0, b1, b2, b3, b4, b5, b6, b7; vm_compute; intros H;
    first [ discriminate H | tauto ].
Qed.

(** A property of a digit that holds on the ten digits holds on every
    character that [is_decimal] accepts. *)
Lemma forall_decimal (P : ascii -> bool) :
  forallb P decimal_chars = true ->
  forall c, is_decimal c = true -> P c = true.
Proof.
  intros HP c Hc. rewrite forallb_forall in HP.
  apply HP, is_decimal_cases, Hc.
Qed.

Lemma digit_value_bounds (c : ascii) :
  is_decimal c = true -> 0 <= digit_value c <= 9.
Proof.
  intros Hc.
  assert (H : ((0 <=? digit_value c) && (digit_value c <=? 9))%bool = true).
  { revert c Hc. apply forall_decimal. vm_compute. reflexivity. }
  apply andb_true_iff in H. destruct H as [H1 H2].
  apply Z.leb_le in H1. apply Z.leb_le in H2. lia.
Qed.

Lemma is_decimal_isdigit (c : ascii) :
  is_decimal c = true -> char_isdigit c = true.
Proof. intros H. unfold char_isdigit. rewrite H. reflexivity. Qed.

Lemma format_two_digits (a b : ascii) :
  is_decimal a = true -> is_decimal b = true ->
  format_0d 2 (10 * digit_value a + digit_value b)
  = String a (String b EmptyString).
Proof.
  intros Ha Hb. apply String.eqb_eq.
  assert (Hall : forallb (fun a => forallb (fun b =>
            String.eqb (format_0d 2 (10 * digit_value a + digit_value b))
              (String a (String b EmptyString))) decimal_chars)
            decimal_chars = true) by (vm_compute; reflexivity).
  pose proof (forall_decimal _ Hall a Ha) as Hrow. cbv beta in Hrow.
  exact (forall_decimal _ Hrow b Hb).
Qed.

Lemma format_three_digits (a b c : ascii) :
  is_decimal a = true -> is_decimal b = true -> is_decimal c = true ->
  format_0d 3 (100 * digit_value a + 10 * digit_value b + digit_value c)
  = String a (String b (String c EmptyString)).
Proof.
  intros Ha Hb Hc. apply String.eqb_eq.
  assert (Hall : forallb (fun a => forallb (fun b => forallb (fun c =>
            String.eqb
              (format_0d 3 (100 * digit_value a + 10 * digit_value b + digit_value c))
              (String a (String b (String c EmptyString))))
            decimal_chars) decimal_chars) decimal_chars = true)
    by (vm_compute; reflexivity).
  pose proof (forall_decimal _ Hall a Ha) as H1. cbv beta in H1.
  pose proof (forall_decimal _ H1 b Hb) as H2. cbv beta in H2.
  exact (forall_decimal _ H2 c Hc).
Qed.

(** The [%j] alternatives read back a day between 1 and 366 written with
    three digits, and leave nothing. *)
Lemma match_j_three_digits (a b c : ascii) :
  is_decimal a = true -> is_decimal b = true -> is_decimal c = true ->
  let j := 100 * digit_value a + 10 * digit_value b + digit_value c in
  1 <= j <= 366 ->
  match_j (String a (String b (String c EmptyString))) = Some (j, EmptyString).
Proof.
  intros Ha Hb Hc j Hj.
  set (ok := fun a b c : ascii =>
     let j := 100 * digit_value a + 10 * digit_value b + digit_value c in
     implb ((1 <=? j) && (j <=? 366))
       match match_j (String a (String b (String c EmptyString))) with
       | Some (j', r) => (j' =? j) && is_empty r
       | None => false
       end).
  assert (Hall : forallb (fun a => forallb (fun b => forallb (ok a b)
            decimal_chars) decimal_chars) decimal_chars = true)
    by (vm_compute; reflexivity).
  pose proof (forall_decimal _ Hall a Ha) as H1. cbv beta in H1.
  pose proof (forall_decimal _ H1 b Hb) as H2. cbv beta in H2.
  pose proof (forall_decimal _ H2 c Hc) as H3. unfold ok in H3.
  fold j in H3.
  replace ((1 <=? j) && (j <=? 366))%bool with true in H3
    by (symmetry; apply andb_true_iff; split; apply Z.leb_le; lia).
  simpl implb in H3.
  destruct (match_j _) as [[j' r]|]; [|discriminate].
  apply andb_true_iff in H3. destruct H3 as [Hj' Hr].
  apply Z.eqb_eq in Hj'. destruct r; [|discriminate]. congruence.
Qed.

Lemma in_ns_bounds_year (y j : Z) :
  in_ns_bounds (mkTimestamp y j) = true -> 1677 <= y <= 2262.
Proof. unfold in_ns_bounds. simpl. lia. Qed.

Lemma days_in_year_range (y : Z) : 365 <= days_in_year y <= 366.
Proof. unfold days_in_year. destruct (is_leap y); lia. Qed.

(** Four year digits followed by three day digits parse to their values. *)
Lemma to_datetime_Yj_digits (y1 y2 y3 y4 d1 d2 d3 : ascii) :
  is_decimal y1 = true -> is_decimal y2 = true ->
  is_decimal y3 = true -> is_decimal y4 = true ->
  is_decimal d1 = true -> is_decimal d2 = true -> is_decimal d3 = true ->
  let year := 1000 * digit_value y1 + 100 * digit_value y2
              + 10 * digit_value y3 + digit_value y4 in
  let j := 100 * digit_value d1 + 10 * digit_value d2 + digit_value d3 in
  1 <= j <= days_in_year year ->
  in_ns_bounds (mkTimestamp year j) = true ->
  to_datetime_Yj
    (String y1 (String y2 (String y3 (String y4
       (String d1 (String d2 (String d3 EmptyString)))))))
  = Return (Some (mkTimestamp year j)).
Proof.
  intros H1 H2 H3 H4 H5 H6 H7 year j Hj Hb.
  pose proof (days_in_year_range year) as Hd.
  pose proof (in_ns_bounds_year _ _ Hb) as Hy.
  unfold to_datetime_Yj, strptime_Yj.
  rewrite H1, H2, H3, H4. cbn [andb].
  rewrite (match_j_three_digits d1 d2 d3 H5 H6 H7) by (fold j; lia).
  cbn [is_empty bind fst snd]. fold year j.
  unfold date_of_julian.
  replace ((year <? 1) || (9999 <? year))%bool with false by lia.
  replace (j <=? days_in_year year) with true by lia.
  cbn [bind]. rewrite Hb. reflexivity.
Qed.

End DateFacts.

Section CompactCode.
Context {rt : Runtime}.
Local Open Scope Z_scope.

(** ** C1.  A date code that strips to five decimal digits, whose last three
    digits are a day of the resolved year, resolves to the year 2000 plus
    the two leading digits when these are at most 30 and 1900 plus them
    otherwise, and to the day of the year the last three digits spell. *)
Theorem compact_code_resolves (year doy date_str : PyVal) (a b c d e : ascii) :
  date_str <> PyNone ->
  strip (py_str date_str)
  = String a (String b (String c (String d (String e EmptyString)))) ->
  is_decimal a = true -> is_decimal b = true -> is_decimal c = true ->
  is_decimal d = true -> is_decimal e = true ->
  let year_part := 10 * digit_value a + digit_value b in
  let doy_part := 100 * digit_value c + 10 * digit_value d + digit_value e in
  let full_year := if year_part <=? 30 then 2000 + year_part
                   else 1900 + year_part in
  1 <= doy_part <= days_in_year full_year ->
  unified_date_convert year doy date_str
  = Return (Some (mkTimestamp full_year doy_part)).
Proof.
  intros Hnone Hs Ha Hb Hc Hd He year_part doy_part full_year Hdoy.
  pose proof (digit_value_bounds a Ha). pose proof (digit_value_bounds b Hb).
  unfold unified_date_convert, unified_date_convert_try.
  replace (is_None date_str) with false by (destruct date_str; simpl; congruence).
  cbn [negb]. rewrite Hs.
  unfold isdigit. cbn [String.length Nat.eqb is_empty negb all_isdigit andb].
  rewrite !is_decimal_isdigit by assumption. cbn [andb].
  unfold slice, int_of_digits.
  cbn [Nat.sub substring from_index is_empty negb all_decimal andb].
  rewrite Ha, Hb, Hc, Hd, He. cbn [andb bind decimal_value].
  replace (10 * (10 * 0 + digit_value a) + digit_value b) with year_part
    by (unfold year_part; ring).
  replace (10 * (10 * (10 * 0 + digit_value c) + digit_value d) + digit_value e)
    with doy_part by (unfold doy_part; ring).
  unfold year_part at 2, doy_part at 1.
  rewrite format_two_digits, format_three_digits by assumption.
  subst full_year. fold year_part in Hdoy |- *.
  assert (Hyp : 0 <= year_part <= 99) by (unfold year_part; lia).
  pose proof (days_in_year_range (2000 + year_part)).
  pose proof (days_in_year_range (1900 + year_part)).
  destruct (year_part <=? 30) eqn:Hcent.
  - change (("20" +:+ String a (String b "")) +:+ String c (String d (String e "")))%string
      with (String "2" (String "0" (String a (String b
              (String c (String d (String e EmptyString))))))).
    rewrite to_datetime_Yj_digits; try assumption; try reflexivity;
      change (digit_value "2") with 2; change (digit_value "0") with 0;
      fold doy_part;
      replace (1000 * 2 + 100 * 0 + 10 * digit_value a + digit_value b)
        with (2000 + year_part) by (unfold year_part; ring);
      first [ reflexivity | assumption | unfold in_ns_bounds; simpl; lia ].
  - change (("19" +:+ String a (String b "")) +:+ String c (String d (String e "")))%string
      with (String "1" (String "9" (String a (String b
              (String c (String d (String e EmptyString))))))).
    rewrite to_datetime_Yj_digits; try assumption; try reflexivity;
      change (digit_value "1") with 1; change (digit_value "9") with 9;
      fold doy_part;
      replace (1000 * 1 + 100 * 9 + 10 * digit_value a + digit_value b)
        with (1900 + year_part) by (unfold year_part; ring);
      first [ reflexivity | assumption | unfold in_ns_bounds; simpl; lia ].
Qed.

End CompactCode.

Lemma compact_code_examples :
  unified_date_convert (rt := literal_runtime) PyNone PyNone (PyStr "91060")
  = Return (Some (mkTimestamp 1991 60))
  /\ unified_date_convert (rt := literal_runtime) PyNone PyNone (PyStr "25005")
     = Return (Some (mkTimestamp 2025 5)).
Proof.
  split.
  - apply (compact_code_resolves (rt := literal_runtime) PyNone PyNone
             (PyStr "91060") "9" "1" "0" "6" "0");
      try reflexivity; try discriminate.
    vm_compute. split; discriminate.
  - apply (compact_code_resolves (rt := literal_runtime) PyNone PyNone
             (PyStr "25005") "2" "5" "0" "0" "5");
      try reflexivity; try discriminate.
    vm_compute. split; discriminate.
Defined.

Section YearDoy.
Local Open Scope Z_scope.

(** A property checked on each integer of a range holds on the range. *)
Lemma forall_Z_range (P : Z -> bool) (lo n : Z) :
  forallb P (map (fun i => lo + Z.of_nat i) (seq 0 (Z.to_nat n))) = true ->
  forall z, lo <= z < lo + n -> P z = true.
Proof.
  intros H z Hz. rewrite forallb_forall in H. apply H.
  apply in_map_iff. exists (Z.to_nat (z - lo)). split; [lia|].
  apply in_seq. lia.
Qed.

Lemma round_to_53_small (a : Z) : 0 <= a < 2 ^ 53 -> round_to_53 a = a.
Proof.
  intros Ha. unfold round_to_53.
  assert (Z.log2 a < 53).
  { destruct (Z.eq_dec a 0) as [->|]; [reflexivity|].
    apply Z.log2_lt_pow2; lia. }
  replace (Z.log2 a + 1 <=? 53) with true by lia. reflexivity.
Qed.

Lemma round_to_53_nonneg (a : Z) : 0 <= a -> 0 <= round_to_53 a.
Proof.
  intros Ha. unfold round_to_53.
  destruct (Z.log2 a + 1 <=? 53); [assumption|].
  apply Z.shiftl_nonneg.
  assert (0 <= Z.shiftr a (Z.log2 a + 1 - 53)) by (apply Z.shiftr_nonneg; lia).
  destruct (_ || _)%bool; lia.
Qed.

(** Rounding an integer above 366 to a float leaves it above 366. *)
Lemma round_to_53_large (a : Z) : 366 < a -> 366 < round_to_53 a.
Proof.
  intros Ha. unfold round_to_53.
  destruct (Z.log2 a + 1 <=? 53) eqn:Hk; [assumption|].
  apply Z.leb_gt in Hk.
  set (sh := Z.log2 a + 1 - 53) in *.
  assert (Hsh : 0 < sh) by (unfold sh; lia).
  assert (Hq : 2 ^ 52 <= Z.shiftr a sh).
  { rewrite Z.shiftr_div_pow2 by lia.
    assert (Hlog : 2 ^ Z.log2 a <= a) by (apply Z.log2_spec; lia).
    replace (Z.log2 a) with (52 + sh) in Hlog by (unfold sh; lia).
    rewrite Z.pow_add_r in Hlog by lia.
    apply Z.div_le_lower_bound; [apply Z.pow_pos_nonneg; lia | lia]. }
  rewrite Z.shiftl_mul_pow2 by lia.
  assert (H2 : 2 <= 2 ^ sh).
  { change 2 with (2 ^ 1) at 1. apply Z.pow_le_mono_r; lia. }
  assert (Hq' : 2 ^ 52 <= (if ((Z.shiftl 1 (sh - 1) <? Z.land a (Z.ones sh))
                         || ((Z.land a (Z.ones sh) =? Z.shiftl 1 (sh - 1))
                             && Z.odd (Z.shiftr a sh)))%bool
                     then Z.shiftr a sh + 1 else Z.shiftr a sh)).
  { destruct (_ || _)%bool; lia. }
  assert (0 < 2 ^ 52) by (apply Z.pow_pos_nonneg; lia).
  assert (366 < 2 ^ 52 * 2) by (vm_compute; reflexivity).
  nia.
Qed.

Lemma float_of_int_small (n : Z) :
  Z.abs n < 2 ^ 53 -> float_of_int n = Return (FFinite n 0).
Proof.
  intros Hn. unfold float_of_int.
  rewrite round_to_53_small by lia.
  assert (2 ^ 53 < 2 ^ 1024) by (apply Z.pow_lt_mono_r; lia).
  replace (2 ^ 1024 <=? Z.abs n) with false by lia.
  rewrite Z.mul_comm, Z.abs_sgn. reflexivity.
Qed.

Context {rt : Runtime}.

Lemma int_float_small (n : Z) :
  Z.abs n < 2 ^ 53 -> int_float (PyInt n) = Return n.
Proof.
  intros Hn. unfold int_float, py_float. rewrite float_of_int_small by assumption.
  cbn. f_equal. lia.
Qed.

(** An integer outside 1..366 is outside 1..366 after [int(float(n))]. *)
Lemma int_float_outside (n : Z) :
  n < 1 \/ 366 < n ->
  match int_float (PyInt n) with
  | Return d => d < 1 \/ 366 < d
  | Raise _ => True
  end.
Proof.
  intros Hn. unfold int_float, py_float, float_of_int.
  destruct (2 ^ 1024 <=? round_to_53 (Z.abs n)); [exact I|].
  cbn. rewrite Z.mul_1_r.
  destruct Hn as [Hn|Hn].
  - left. pose proof (round_to_53_nonneg (Z.abs n) (Z.abs_nonneg n)).
    assert (Z.sgn n <= 0) by lia. nia.
  - right. rewrite Z.sgn_pos, Z.abs_eq by lia.
    pose proof (round_to_53_large n Hn). lia.
Qed.

(** A year of four digits prints as its four digits. *)
Lemma str_of_int_year (y : Z) :
  1000 <= y <= 9999 ->
  exists y1 y2 y3 y4,
    str_of_int y = String y1 (String y2 (String y3 (String y4 EmptyString)))
    /\ is_decimal y1 = true /\ is_decimal y2 = true
    /\ is_decimal y3 = true /\ is_decimal y4 = true
    /\ 1000 * digit_value y1 + 100 * digit_value y2
       + 10 * digit_value y3 + digit_value y4 = y.
Proof.
  intros Hy.
  set (ok := fun y =>
     match str_of_int y with
     | String y1 (String y2 (String y3 (String y4 EmptyString))) =>
         is_decimal y1 && is_decimal y2 && is_decimal y3 && is_decimal y4
         && (1000 * digit_value y1 + 100 * digit_value y2
             + 10 * digit_value y3 + digit_value y4 =? y)
     | _ => false
     end).
  assert (Hall : forallb ok (map (fun i => 1000 + Z.of_nat i) (seq 0 (Z.to_nat 9000))) = true)
    by (vm_compute; reflexivity).
  pose proof (forall_Z_range ok 1000 9000 Hall y ltac:(lia)) as H. clear Hall.
  unfold ok in H.
  destruct (str_of_int y) as [|y1 [|y2 [|y3 [|y4 [|? ?]]]]]; try discriminate.
  do 4 (apply andb_true_iff in H; destruct H as [H ?]).
  match goal with E : (_ =? _) = true |- _ => apply Z.eqb_eq in E end.
  exists y1, y2, y3, y4. repeat split; assumption.
Qed.

(** A day of the year prints, zero padded, as three digits. *)
Lemma format_doy (d : Z) :
  1 <= d <= 366 ->
  exists d1 d2 d3,
    format_0d 3 d = String d1 (String d2 (String d3 EmptyString))
    /\ is_decimal d1 = true /\ is_decimal d2 = true /\ is_decimal d3 = true
    /\ 100 * digit_value d1 + 10 * digit_value d2 + digit_value d3 = d.
Proof.
  intros Hd.
  set (ok := fun d =>
     match format_0d 3 d with
     | String d1 (String d2 (String d3 EmptyString)) =>
         is_decimal d1 && is_decimal d2 && is_decimal d3
         && (100 * digit_value d1 + 10 * digit_value d2 + digit_value d3 =? d)
     | _ => false
     end).
  assert (Hall : forallb ok (map (fun i => 1 + Z.of_nat i) (seq 0 (Z.to_nat 366))) = true)
    by (vm_compute; reflexivity).
  pose proof (forall_Z_range ok 1 366 Hall d ltac:(lia)) as H. clear Hall.
  unfold ok in H.
  destruct (format_0d 3 d) as [|d1 [|d2 [|d3 [|? ?]]]]; try discriminate.
  do 3 (apply andb_true_iff in H; destruct H as [H ?]).
  match goal with E : (_ =? _) = true |- _ => apply Z.eqb_eq in E end.
  exists d1, d2, d3. repeat split; assumption.
Qed.

(** ** C4 (amended).  For an integer year and an integer day of the year
    between 1 and the number of days of that year (365, or 366 in a leap
    year), at a date that a nanosecond timestamp holds, the (year, doy) path
    gives the date with that year and that day of the year. *)
Theorem year_doy_resolves (year doy : Z) :
  1 <= doy <= days_in_year year ->
  in_ns_bounds (mkTimestamp year doy) = true ->
  unified_date_convert (PyInt year) (PyInt doy) PyNone
  = Return (Some (mkTimestamp year doy)).
Proof.
  intros Hdoy Hb.
  pose proof (in_ns_bounds_year _ _ Hb) as Hy.
  pose proof (days_in_year_range year) as Hdays.
  assert (H53 : 2263 < 2 ^ 53) by (vm_compute; reflexivity).
  unfold unified_date_convert, unified_date_convert_try.
  cbn [is_None negb andb].
  rewrite !int_float_small by lia. cbn [bind].
  replace ((1 <=? doy) && (doy <=? 366))%bool with true by lia.
  destruct (str_of_int_year year ltac:(lia))
    as (y1 & y2 & y3 & y4 & Hys & Hy1 & Hy2 & Hy3 & Hy4 & Hyv).
  destruct (format_doy doy ltac:(lia))
    as (d1 & d2 & d3 & Hds & Hd1 & Hd2 & Hd3 & Hdv).
  rewrite Hys, Hds. cbv [String.append].
  rewrite to_datetime_Yj_digits by (rewrite ?Hyv, ?Hdv; assumption).
  rewrite Hyv, Hdv. reflexivity.
Qed.

(** ** C5.  On the (year, doy) path a day of the year outside 1..366, as the
    function reads it with [int(float(doy))], gives NaT, and so does an
    integer outside 1..366; on every input the function returns a value:
    no exception reaches the caller. *)
Theorem invalid_doy_is_NaT_never_raises (year doy date_str : PyVal) :
  (forall d, int_float doy = Return d -> d < 1 \/ 366 < d ->
     unified_date_convert year doy PyNone = Return NaT)
  /\ (forall n, doy = PyInt n -> n < 1 \/ 366 < n ->
        unified_date_convert year doy PyNone = Return NaT)
  /\ exists v, unified_date_convert year doy date_str = Return v.
Proof.
  assert (Hcoerced : forall d, int_float doy = Return d -> d < 1 \/ 366 < d ->
            unified_date_convert year doy PyNone = Return NaT).
  { intros d Hd Hout.
    unfold unified_date_convert, unified_date_convert_try. cbn [is_None negb].
    destruct (negb (is_None year) && negb (is_None doy))%bool; [|reflexivity].
    destruct (int_float year) as [y|]; [|reflexivity]. cbn [bind].
    rewrite Hd. cbn [bind].
    replace ((1 <=? d) && (d <=? 366))%bool with false by lia. reflexivity. }
  split; [exact Hcoerced|]. split.
  - intros n -> Hout.
    pose proof (int_float_outside n Hout) as H.
    destruct (int_float (PyInt n)) as [d|] eqn:Hd.
    + exact (Hcoerced d eq_refl H).
    + unfold unified_date_convert, unified_date_convert_try.
      cbn [is_None negb].
      destruct (negb (is_None year) && true)%bool; [|reflexivity].
      destruct (int_float year) as [y|]; [|reflexivity]. cbn [bind].
      rewrite Hd. reflexivity.
  - unfold unified_date_convert.
    destruct (unified_date_convert_try year doy date_str) as [v|x]; eauto.
Qed.

(** ** C10.  When [date_str] is not [None] the result is a function of
    [date_str] alone, and a code that does not strip to five digits gives
    NaT whatever year and day of the year come with it. *)
Theorem date_str_takes_precedence (year doy year' doy' date_str : PyVal) :
  date_str <> PyNone ->
  unified_date_convert year doy date_str
  = unified_date_convert year' doy' date_str
  /\ (((String.length (strip (py_str date_str)) =? 5)%nat
       && isdigit (strip (py_str date_str)))%bool = false ->
      unified_date_convert year doy date_str = Return NaT).
Proof.
  intros Hnone.
  assert (Hn : is_None date_str = false) by (destruct date_str; simpl; congruence).
  unfold unified_date_convert, unified_date_convert_try.
  rewrite Hn. cbn [negb]. split; [reflexivity|].
  intros ->. reflexivity.
Qed.

End YearDoy.

Lemma year_doy_example :
  unified_date_convert (rt := literal_runtime) (PyInt 1991) (PyInt 60) PyNone
  = Return (Some (mkTimestamp 1991 60)).
Proof.
  apply (year_doy_resolves (rt := literal_runtime) 1991 60).
  - vm_compute. split; discriminate.
  - reflexivity.
Defined.

(** Day 366 of the common year 1991 is accepted by the guard and read as the
    first day of 1992: the year and the day of the year of the result are
    not those of the input. *)
Lemma year_doy_366_common_year :
  ~ (forall (rt : Runtime) (year doy : Z),
       (1 <= doy <= 366)%Z ->
       exists t, unified_date_convert (PyInt year) (PyInt doy) PyNone
                 = Return (Some t)
                 /\ ts_year t = year /\ ts_dayofyear t = doy).
Proof.
  intros H.
  destruct (H literal_runtime 1991%Z 366%Z ltac:(lia)) as (t & Ht & Hy & _).
  vm_compute in Ht. injection Ht as <-. discriminate Hy.
Qed.

Lemma invalid_doy_example :
  unified_date_convert (rt := literal_runtime) (PyInt 1991) (PyInt 367) PyNone
  = Return NaT
  /\ unified_date_convert (rt := literal_runtime) (PyInt 1991) (PyInt 0) PyNone
     = Return NaT.
Proof.
  split.
  - apply (proj1 (invalid_doy_is_NaT_never_raises (rt := literal_runtime)
                    (PyInt 1991) (PyInt 367) PyNone) 367%Z).
    + reflexivity.
    + right. reflexivity.
  - apply (proj1 (proj2 (invalid_doy_is_NaT_never_raises (rt := literal_runtime)
                           (PyInt 1991) (PyInt 0) PyNone)) 0%Z).
    + reflexivity.
    + left. reflexivity.
Defined.

Lemma date_str_precedence_example :
  unified_date_convert (rt := literal_runtime) (PyInt 1991) (PyInt 60) (PyStr "1991")
  = Return NaT.
Proof.
  apply (proj2 (date_str_takes_precedence (rt := literal_runtime)
                  (PyInt 1991) (PyInt 60) PyNone PyNone (PyStr "1991")
                  ltac:(discriminate))).
  reflexivity.
Defined.

(** ** Metrics *)

Section MetricsFacts.
Import Metrics.
Local Open Scope R_scope.

Lemma take_min_length {A} (l : list A) :
  take (Nat.min (length l) (length l)) l = l.
Proof. rewrite Nat.min_id. apply firstn_all. Qed.

Lemma elementwise_same_length (f : R -> R -> R) (a b : list R) :
  length a = length b -> elementwise f a b = Return (zip_with f a b).
Proof.
  intros H. unfold elementwise. rewrite H, Nat.eqb_refl. reflexivity.
Qed.


End MetricsFacts.

(** ** Metrics in float64 *)

Section Float64Facts.
Import Float64.
Local Open Scope Z_scope.

(** A number minus itself is +0.0. *)
Lemma sub_self (x : spec_float) : is_finite x = true -> sub x x = zero.
Proof.
  destruct x as [s| | |s m e]; try discriminate; intros _.
  - destruct s; reflexivity.
  - unfold sub, SFsub. cbv zeta. rewrite Z.sub_diag. reflexivity.
Qed.

Lemma digits2_pos_iter (m d : positive) :
  Zpos (digits2_pos (Pos.iter xO m d)) = Zpos (digits2_pos m) + Zpos d.
Proof.
  induction d as [|d IH] using Pos.peano_ind.
  - cbn [Pos.iter digits2_pos]. lia.
  - rewrite Pos.iter_succ. cbn [digits2_pos]. lia.
Qed.

Lemma digits2_pos_bound (m : positive) (k : Z) :
  0 <= k -> Zpos m < 2 ^ k -> Zpos (digits2_pos m) <= k.
Proof.
  revert k. induction m as [m IH|m IH|]; intros k Hk Hm; cbn [digits2_pos].
  - assert (0 < k) by (destruct (Z.eq_dec k 0) as [->|]; [cbn in Hm; lia | lia]).
    replace k with (Z.succ (k - 1)) in Hm by lia.
    rewrite Z.pow_succ_r in Hm by lia.
    specialize (IH (k - 1) ltac:(lia) ltac:(lia)). lia.
  - assert (0 < k) by (destruct (Z.eq_dec k 0) as [->|]; [cbn in Hm; lia | lia]).
    replace k with (Z.succ (k - 1)) in Hm by lia.
    rewrite Z.pow_succ_r in Hm by lia.
    specialize (IH (k - 1) ltac:(lia) ltac:(lia)). lia.
  - destruct (Z.eq_dec k 0) as [->|]; [cbn in Hm; lia | lia].
Qed.

(** Rounding leaves a mantissa that is already in place as it is. *)
Lemma binary_round_aux_canonical (s : bool) (m : positive) (e : Z) :
  bounded prec emax m e = true ->
  binary_round_aux prec emax s (Zpos m) e loc_Exact = S754_finite s m e.
Proof.
  unfold bounded, canonical_mantissa. intros H.
  apply andb_true_iff in H. destruct H as [Hc He]. apply Z.eqb_eq in Hc.
  unfold binary_round_aux, shr_fexp. cbn [Zdigits2 shr_record_of_loc].
  rewrite Hc, Z.sub_diag. cbn [shr shr_m loc_of_shr_record round_nearest_even].
  cbn [Zdigits2 shr_record_of_loc]. rewrite Hc, Z.sub_diag. cbn [shr shr_m].
  rewrite He. reflexivity.
Qed.

(** The float of a count below 2^53 is a positive number. *)
Lemma of_nat_positive (k : nat) :
  (0 < k)%nat -> Z.of_nat k < 2 ^ 53 ->
  exists m e, of_nat k = S754_finite false m e.
Proof.
  intros Hk Hlt. unfold of_nat.
  destruct (Z.of_nat k) as [|p|p] eqn:Ep; [lia | | lia].
  cbn [binary_normalize]. unfold binary_round.
  pose proof (digits2_pos_bound p 53 ltac:(lia) Hlt) as Hd.
  assert (Hpos : 0 < Zpos (digits2_pos p)) by lia.
  set (dg := Zpos (digits2_pos p)) in *.
  assert (Hf : fexp prec emax (dg + 0) = dg - 53)
    by (unfold fexp, emin, prec, emax; lia).
  rewrite Hf. unfold shl_align.
  destruct (dg - 53 - 0) as [|d|d] eqn:Ed; [| lia |].
  - rewrite binary_round_aux_canonical; [eauto|].
    unfold bounded, canonical_mantissa. fold dg.
    apply andb_true_iff. split; [apply Z.eqb_eq | apply Z.leb_le];
      unfold fexp, emin, prec, emax; lia.
  - rewrite binary_round_aux_canonical; [eauto|].
    unfold bounded, canonical_mantissa. rewrite digits2_pos_iter. fold dg.
    apply andb_true_iff. split; [apply Z.eqb_eq | apply Z.leb_le];
      unfold fexp, emin, prec, emax; lia.
Qed.

Lemma div_eucl_mul (a b : Z) : 0 < b -> Z.div_eucl (a * b) b = (a, 0).
Proof.
  intros Hb. destruct (Z.div_eucl (a * b) b) as [q r] eqn:E.
  assert (Hq : (a * b) / b = q) by (unfold Z.div; now rewrite E).
  assert (Hr : (a * b) mod b = r) by (unfold Z.modulo; now rewrite E).
  rewrite Z.div_mul in Hq by lia. rewrite Z.mod_mul in Hr by lia. congruence.
Qed.

(** Rounding a mantissa of 54 bits whose last bit is 0 drops that bit. *)
Lemma binary_round_aux_double (s : bool) (m : positive) (e : Z) :
  bounded prec emax m e = true ->
  emin prec emax < e ->
  binary_round_aux prec emax s (Zpos m~0) (e - 1) loc_Exact = S754_finite s m e.
Proof.
  unfold bounded, canonical_mantissa. intros H Hmin.
  apply andb_true_iff in H. destruct H as [Hc He]. apply Z.eqb_eq in Hc.
  unfold binary_round_aux, shr_fexp. cbn [Zdigits2 shr_record_of_loc digits2_pos].
  replace (fexp prec emax (Zpos (Pos.succ (digits2_pos m)) + (e - 1)) - (e - 1))
    with 1 by (revert Hc Hmin; unfold fexp, emin, prec, emax; lia).
  cbn [shr SpecFloat.iter_pos shr_1 orb shr_m loc_of_shr_record round_nearest_even].
  replace (e - 1 + 1) with e by lia.
  cbn [Zdigits2 shr_record_of_loc]. rewrite Hc, Z.sub_diag. cbn [shr shr_m].
  rewrite He. reflexivity.
Qed.

(** A number divided by 1.0 is that number. *)
Lemma div_one (x : spec_float) : is_finite x = true -> div x one = x.
Proof.
  destruct x as [s| | |s m e]; try discriminate.
  - intros _. destruct s; reflexivity.
  - cbn [is_finite]. intros Hb.
    assert (Hb' := Hb). unfold bounded, canonical_mantissa in Hb'.
    apply andb_true_iff in Hb'. destruct Hb' as [Hc _]. apply Z.eqb_eq in Hc.
    assert (Hdg : 0 < Zpos (digits2_pos m)) by lia.
    unfold div, SFdiv, one, SFdiv_core_binary. cbn [Zdigits2].
    change (Zpos (digits2_pos 4503599627370496)) with 53.
    rewrite xorb_false_r.
    destruct (Z_lt_le_dec (emin prec emax) e) as [Hmin|Hmin].
    + replace (Z.min (fexp prec emax (Zpos (digits2_pos m) + e - (53 + -52)))
                 (e - -52))
        with (e - 1) by (revert Hc Hmin; unfold fexp, emin, prec, emax; lia).
      replace (e - -52 - (e - 1)) with 53 by lia. cbv iota.
      replace (Z.shiftl (Zpos m) 53) with (Zpos m~0 * 4503599627370496)
        by (rewrite Z.shiftl_mul_pow2 by lia; change (2 ^ 53) with 9007199254740992; lia).
      rewrite div_eucl_mul by lia. cbv iota beta.
      change (new_location 4503599627370496 0) with loc_Exact.
      apply binary_round_aux_double; assumption.
    + replace (Z.min (fexp prec emax (Zpos (digits2_pos m) + e - (53 + -52)))
                 (e - -52))
        with e by (revert Hc Hmin; unfold fexp, emin, prec, emax; lia).
      replace (e - -52 - e) with 52 by lia. cbv iota.
      replace (Z.shiftl (Zpos m) 52) with (Zpos m * 4503599627370496)
        by (rewrite Z.shiftl_mul_pow2 by lia; change (2 ^ 52) with 4503599627370496; lia).
      rewrite div_eucl_mul by lia. cbv iota beta.
      change (new_location 4503599627370496 0) with loc_Exact.
      apply binary_round_aux_canonical. exact Hb.
Qed.

(** [==] on numbers: equal to a finite value means being that value, and
    equal to a zero means being a zero. *)
Lemma eqb_finite (a : spec_float) (s : bool) (m : positive) (e : Z) :
  eqb a (S754_finite s m e) = true -> a = S754_finite s m e.
Proof.
  unfold eqb, SFeqb, SFcompare.
  destruct a as [sa|sa| |sa ma ea]; try discriminate.
  - destruct s; discriminate.
  - destruct sa; discriminate.
  - destruct sa, s; try discriminate;
      destruct (Z.compare ea e) eqn:Ee; try discriminate;
      apply Z.compare_eq in Ee; subst ea;
      destruct (Pos.compare_cont Eq ma m) eqn:Em; try discriminate;
      apply Pos.compare_eq in Em; subst ma; reflexivity.
Qed.

Lemma eqb_zero (a : spec_float) (s : bool) :
  eqb a (S754_zero s) = true -> exists s', a = S754_zero s'.
Proof.
  unfold eqb, SFeqb, SFcompare.
  destruct a as [sa|sa| |sa ma ea]; try discriminate.
  - intros _. now exists sa.
  - destruct sa; discriminate.
  - destruct sa; discriminate.
Qed.

Lemma eqb_refl_finite (x : spec_float) : is_finite x = true -> eqb x x = true.
Proof.
  destruct x as [s| | |s m e]; try discriminate; intros _; [reflexivity|].
  unfold eqb, SFeqb, SFcompare. rewrite Z.compare_refl, Pos.compare_cont_refl.
  destruct s; reflexivity.
Qed.

(** The left-to-right sum adds exactly in the two cases the properties
    use. *)
Lemma left_to_right_adds_exactly : adds_exactly left_to_right.
Proof.
  split.
  - intros a _ Ha. cbn [add_reduce left_to_right].
    induction Ha as [|x a Hx _ IH]; [reflexivity|].
    cbn [fold_left]. rewrite Hx. exact IH.
  - intros x Hx. cbn [add_reduce left_to_right fold_left].
    destruct x as [s| | |s m e]; try discriminate.
    + destruct s; reflexivity.
    + change (add zero (S754_finite s m e)) with (S754_finite s m e).
      apply eqb_refl_finite, Hx.
Qed.

End Float64Facts.

Section MetricsFloat64Facts.
Import Float64 MetricsFloat64.
Context {red : Summation}.

Lemma select_all_finite (xs : list spec_float) :
  Forall (fun x => is_finite x = true) xs ->
  select (zip_with (fun s o => negb (isnan s) && negb (isnan o)) xs xs) xs = xs.
Proof.
  induction 1 as [|x xs Hx _ IH]; [reflexivity|].
  cbn [zip_with select]. destruct x; try discriminate Hx; cbn; now rewrite IH.
Qed.

Lemma elementwise_equal_shapes (f : spec_float -> spec_float -> spec_float)
    (a b : list spec_float) :
  length a = length b -> elementwise f a b = Return (zip_with f a b).
Proof.
  intros H. unfold elementwise. rewrite H, Nat.eqb_refl. reflexivity.
Qed.

Lemma squared_differences_zeros (xs : list spec_float) :
  Forall (fun x => is_finite x = true) xs ->
  Forall (fun x => x = zero) (zip_with (fun o s => square (sub o s)) xs xs).
Proof.
  induction 1 as [|x xs Hx _ IH]; cbn [zip_with]; constructor; [|exact IH].
  rewrite sub_self by exact Hx. reflexivity.
Qed.

Lemma zip_with_nonempty {A B C} (f : A -> B -> C) (a : list A) (b : list B) :
  a <> [] -> b <> [] -> zip_with f a b <> [].
Proof. destruct a, b; cbn; congruence. Qed.

(** The mean of an array of +0.0 is +0.0. *)
Lemma np_mean_zeros (a : list spec_float) :
  adds_exactly red -> a <> [] -> (Z.of_nat (length a) < 2 ^ 53)%Z ->
  Forall (fun x => x = zero) a -> np_mean a = zero.
Proof.
  intros [Hzeros _] Hne Hlen Ha. unfold np_mean. rewrite (Hzeros a Hne Ha).
  destruct (of_nat_positive (length a)) as (m & e & ->);
    [destruct a; [congruence | cbn; lia] | exact Hlen | reflexivity].
Qed.

Lemma rmse_identical_numbers (xs : list spec_float) :
  adds_exactly red -> xs <> [] -> (Z.of_nat (length xs) < 2 ^ 53)%Z ->
  Forall (fun x => is_finite x = true) xs ->
  rmse xs xs = Return zero.
Proof.
  intros Hred Hne Hlen Hfin. unfold rmse.
  rewrite elementwise_equal_shapes by reflexivity. cbn [bind].
  rewrite np_mean_zeros; [reflexivity | exact Hred | | | ].
  - apply zip_with_nonempty; exact Hne.
  - rewrite length_zip_with, Nat.min_id. exact Hlen.
  - apply squared_differences_zeros, Hfin.
Qed.

(** With a numerator of +0.0 the index is decided by the denominator. *)
Lemma index_of_zero_numerator (denominator : spec_float) :
  (if negb (eqb denominator zero)
   then Some (sub one (div zero denominator))
   else None)
  = if eqb denominator zero then None
    else if isnan denominator then Some S754_nan
    else Some one.
Proof.
  destruct denominator as [s|s| |s m e]; try reflexivity.
  - destruct s; reflexivity.
  - destruct s; reflexivity.
Qed.

Lemma d_stat_identical_numbers (xs : list spec_float) :
  adds_exactly red -> xs <> [] ->
  Forall (fun x => is_finite x = true) xs ->
  let M_mean := np_mean xs in
  let denominator :=
    np_sum (zip_with
              (fun m s => square (add (abs (sub m M_mean)) (abs (sub s M_mean))))
              xs xs) in
  d_stat xs xs
  = if eqb denominator zero then None
    else if isnan denominator then Some S754_nan
    else Some one.
Proof.
  intros Hred Hne Hfin M_mean denominator. unfold d_stat, d_stat_try.
  rewrite !elementwise_equal_shapes by reflexivity. cbn [bind].
  subst denominator M_mean. cbv zeta. unfold np_sum.
  rewrite (proj1 Hred _ (zip_with_nonempty _ xs xs Hne Hne)
             (squared_differences_zeros xs Hfin)).
  apply index_of_zero_numerator.
Qed.

(** For an array of one number the mean is that number, every term of the
    denominator is +0.0, and so is the denominator. *)
Lemma single_value_denominator (x : spec_float) :
  adds_exactly red -> is_finite x = true ->
  let M_mean := np_mean [x] in
  np_sum (zip_with
            (fun m s => square (add (abs (sub m M_mean)) (abs (sub s M_mean))))
            [x] [x])
  = zero.
Proof.
  intros Hred Hx M_mean. cbn [zip_with]. unfold np_sum.
  apply (proj1 Hred); [discriminate|]. constructor; [|constructor].
  assert (Hdiff : abs (sub x M_mean) = zero).
  { unfold M_mean, np_mean. cbn [length]. change (of_nat 1) with one.
    pose proof (proj2 Hred x Hx) as Hsum.
    destruct x as [s| | |s m e]; try discriminate Hx.
    - apply eqb_zero in Hsum. destruct Hsum as [s' ->].
      destruct s, s'; reflexivity.
    - apply eqb_finite in Hsum. rewrite Hsum, div_one by exact Hx.
      rewrite sub_self by exact Hx. reflexivity. }
  rewrite Hdiff. reflexivity.
Qed.

Lemma calculate_metrics_identical_numbers (xs : list spec_float) (trt : string) :
  adds_exactly red -> xs <> [] -> (Z.of_nat (length xs) < 2 ^ 53)%Z ->
  Forall (fun x => is_finite x = true) xs ->
  calculate_metrics xs xs trt
  = Some (mkMetrics trt (length xs) zero
            (if negb (eqb (np_mean xs) zero)
             then Some (mul (div zero (np_mean xs)) hundred)
             else None)
            (d_stat xs xs)).
Proof.
  intros Hred Hne Hlen Hfin. unfold calculate_metrics, calculate_metrics_try.
  rewrite !take_min_length, select_all_finite by exact Hfin.
  assert (Hlen0 : (length xs =? 0)%nat = false)
    by (destruct xs; [congruence | reflexivity]).
  rewrite Hlen0. cbn [orb].
  rewrite rmse_identical_numbers by assumption. reflexivity.
Qed.

(** ** C3 (amended).  On two identical arrays of finite float64 numbers,
    of length at least one, the RMSE is 0.0.  Willmott's d-stat is null
    when the denominator that [d_stat] computes is zero, as it is for every
    array of length one; it is 1.0 when that denominator is a number other
    than zero, and NaN when it is NaN. *)
Theorem identical_series_metrics (xs : list spec_float) (trt : string) :
  adds_exactly red ->
  xs <> [] ->
  Forall (fun x => is_finite x = true) xs ->
  (Z.of_nat (length xs) < 2 ^ 53)%Z ->
  let M_mean := np_mean xs in
  let denominator :=
    np_sum (zip_with
              (fun m s => square (add (abs (sub m M_mean)) (abs (sub s M_mean))))
              xs xs) in
  exists m,
    calculate_metrics xs xs trt = Some m
    /\ n m = length xs
    /\ RMSE m = zero
    /\ Willmott_d_stat m
       = (if eqb denominator zero then None
          else if isnan denominator then Some S754_nan
          else Some one)
    /\ (length xs = 1%nat -> Willmott_d_stat m = None).
Proof.
  intros Hred Hne Hfin Hlen M_mean denominator.
  eexists. split; [apply calculate_metrics_identical_numbers; assumption|].
  cbn [n RMSE Willmott_d_stat].
  split; [reflexivity|]. split; [reflexivity|].
  rewrite d_stat_identical_numbers by assumption. split; [reflexivity|].
  intros Hone. destruct xs as [|x [|y xs]]; try discriminate Hone.
  apply Forall_inv in Hfin. cbv zeta.
  rewrite (single_value_denominator x Hred Hfin). reflexivity.
Qed.

End MetricsFloat64Facts.

(** The array [0.1, 0.1, 0.1] against itself: the float64 mean is
    0.10000000000000002, the denominator is not zero, and the d-stat is
    1.0. *)
Lemma identical_series_example :
  let tenth := S754_finite false 7205759403792794 (-56) in
  exists m,
    MetricsFloat64.calculate_metrics (red := Float64.left_to_right)
      [tenth; tenth; tenth] [tenth; tenth; tenth] "1" = Some m
    /\ MetricsFloat64.RMSE m = Float64.zero
    /\ MetricsFloat64.Willmott_d_stat m = Some Float64.one.
Proof.
  intros tenth.
  destruct (identical_series_metrics (red := Float64.left_to_right)
              [tenth; tenth; tenth] "1" left_to_right_adds_exactly
              ltac:(discriminate) ltac:(repeat constructor) ltac:(reflexivity))
    as (m & Hm & _ & Hr & Hd & _).
  exists m. split; [exact Hm|]. split; [exact Hr|].
  rewrite Hd. vm_compute. reflexivity.
Defined.

(** The array [5.0] against itself: the mean is 5.0, the denominator of
    the index is zero and the d-stat is null, not 1. *)
Lemma single_value_has_no_d_stat :
  ~ (forall (red : Float64.Summation) (xs : list spec_float) (trt : string),
       Float64.adds_exactly red ->
       xs <> [] ->
       Forall (fun x => Float64.is_finite x = true) xs ->
       exists m,
         MetricsFloat64.calculate_metrics xs xs trt = Some m
         /\ MetricsFloat64.RMSE m = Float64.zero
         /\ MetricsFloat64.Willmott_d_stat m = Some Float64.one).
Proof.
  intros H.
  destruct (H Float64.left_to_right [Float64.of_nat 5] "1"%string
              left_to_right_adds_exactly ltac:(discriminate)
              ltac:(repeat constructor))
    as (m & Hm & _ & Hd).
  vm_compute in Hm. injection Hm as <-. discriminate Hd.
Qed.

(** ** Type standardisation *)

Section StandardizeFacts.
Import Standardize.
Context {rt : Runtime}.

(** The share of missing entries is below one tenth exactly when ten times
    their number is below the number of rows. *)
Lemma below_tenth_count (v : list (option Q)) :
  below_tenth (isna_mean v)
  = (10 * length (filter (fun x => x = None) v) <? length v)%nat.
Proof.
  unfold isna_mean. destruct v as [|x v].
  - reflexivity.
  - set (l := x :: v). set (k := length (filter (fun x => x = None) l)).
    assert (Hl : length l = S (length v)) by reflexivity.
    rewrite Hl at 1. cbv iota beta. unfold below_tenth.
    assert (Hpos : Z.pos (Pos.of_nat (length l)) = Z.of_nat (length l)).
    { rewrite Hl. lia. }
    destruct (Qlt_le_dec _ _) as [H|H]; unfold Qlt, Qle in H;
      cbn [Qnum Qden] in H; rewrite Hpos in H; symmetry.
    + apply Nat.ltb_lt. lia.
    + apply Nat.ltb_ge. lia.
Qed.

Lemma astype_Int64_spec (v : list (option Q)) :
  forallb is_integer (dropna v) = true ->
  astype_Int64 v
  = if forallb fits_int64 (map int_value (dropna v))
    then Return (map (option_map int_value) v)
    else Raise TypeError.
Proof.
  intros Hint. unfold astype_Int64.
  assert (E : forallb (fun x => match x with
                                | Some q => is_integer q && fits_int64 (int_value q)
                                | None => true
                                end) v
              = forallb fits_int64 (map int_value (dropna v))).
  { induction v as [|[q|] v IH]; cbn in *; [reflexivity | |].
    - apply andb_true_iff in Hint. destruct Hint as [Hq Hv].
      rewrite Hq, (IH Hv). reflexivity.
    - apply IH, Hint. }
  rewrite E. reflexivity.
Qed.

Lemma length_to_numeric (s : list text_cell) :
  length (to_numeric s) = length s.
Proof. unfold to_numeric. apply length_map. Qed.

(** What the loop makes of a column whose label is not reserved. *)
Lemma standardize_column_free (name : string) (col : list text_cell) :
  reserved name = false ->
  standardize_column name col
  = let numeric := to_numeric col in
    let failed := length (filter (fun x => x = None) numeric) in
    if (10 * failed <? length col)%nat then
      if integer_dtype col && negb int_has_is_integer then ObjectS col
      else if forallb is_integer (dropna numeric) then
        if forallb fits_int64 (map int_value (dropna numeric))
        then Int64S (map (option_map int_value) numeric)
        else ObjectS col
      else Float64S numeric
    else ObjectS col.
Proof.
  intros Hres. unfold standardize_column, numeric_conversion, all_is_integer.
  rewrite Hres, below_tenth_count, length_to_numeric. cbv zeta.
  destruct (_ <? _)%nat; [|reflexivity].
  destruct (integer_dtype col && negb int_has_is_integer); [reflexivity|].
  cbn [bind].
  destruct (forallb is_integer _) eqn:Hint; [|reflexivity].
  rewrite astype_Int64_spec by exact Hint.
  destruct (forallb fits_int64 _); reflexivity.
Qed.

(** ** C6 (amended).  In a frame that is not empty, a column whose label
    is not reserved is dropped when it is entirely missing.  Otherwise,
    when strictly fewer than 10% of its entries are missing after numeric
    coercion, it becomes Int64 when every parsed value is a whole number
    that fits 64 bits, float64 when some parsed value is not whole, and is
    left as text when the values are whole and one does not fit 64 bits;
    where [int] has no method [is_integer] (Python before 3.12) a column
    parsed to an integer dtype is left as text as well.  When 10% or more
    are missing the column is left as text. *)
Theorem standardize_dtypes_column (df : TextFrame) (name : string)
    (col : list text_cell) :
  empty df = false ->
  columns df !! name = Some col ->
  reserved name = false ->
  let numeric := to_numeric col in
  let failed := length (filter (fun x => x = None) numeric) in
  columns (standardize_dtypes df) !! name
  = if forallb text_isna col then None
    else Some
      (if (10 * failed <? length col)%nat then
         if integer_dtype col && negb int_has_is_integer then ObjectS col
         else if forallb is_integer (dropna numeric) then
           if forallb fits_int64 (map int_value (dropna numeric))
           then Int64S (map (option_map int_value) numeric)
           else ObjectS col
         else Float64S numeric
       else ObjectS col).
Proof.
  intros Hne Hcol Hres numeric failed.
  unfold standardize_dtypes. rewrite Hne. cbn [columns].
  rewrite map_lookup_imap. unfold drop_all_nan. cbn [columns].
  destruct (forallb text_isna col) eqn:Hna.
  - replace (filter _ (columns df) !! name) with (@None (list text_cell));
      [reflexivity|].
    symmetry. apply map_lookup_filter_None. right.
    intros x Hx. rewrite Hcol in Hx. injection Hx as <-. cbn [snd]. congruence.
  - replace (filter _ (columns df) !! name) with (Some col).
    + cbn. rewrite standardize_column_free by exact Hres. reflexivity.
    + symmetry. apply map_lookup_filter_Some. split; [exact Hcol | exact Hna].
Qed.

End StandardizeFacts.

Lemma standardize_dtypes_examples :
  let column (v : list string) : TextFrame :=
    mkFrame (length v) {[ "A"%string := map TStr v ]} in
  columns (Standardize.standardize_dtypes (rt := literal_runtime)
             (column ["1"; "2"; "3"]%string)) !! "A"%string
  = Some (Int64S [Some 1; Some 2; Some 3]%Z)
  /\ columns (Standardize.standardize_dtypes (rt := literal_runtime)
                (column ["1.5"; "2.5"]%string)) !! "A"%string
     = Some (Float64S [Some (15 # 10); Some (25 # 10)])
  /\ columns (Standardize.standardize_dtypes (rt := literal_runtime)
                (column ["1"; "2"; "abc"; "def"; "ghi"; "jkl"; "mno"]%string))
       !! "A"%string
     = Some (ObjectS (map TStr ["1"; "2"; "abc"; "def"; "ghi"; "jkl"; "mno"]%string)).
Proof.
  intros column. split; [|split].
  - rewrite (standardize_dtypes_column (rt := literal_runtime)
               (column ["1"; "2"; "3"]%string) "A"
               (map TStr ["1"; "2"; "3"]%string));
      reflexivity.
  - rewrite (standardize_dtypes_column (rt := literal_runtime)
               (column ["1.5"; "2.5"]%string) "A"
               (map TStr ["1.5"; "2.5"]%string));
      reflexivity.
  - rewrite (standardize_dtypes_column (rt := literal_runtime)
               (column ["1"; "2"; "abc"; "def"; "ghi"; "jkl"; "mno"]%string) "A"
               (map TStr ["1"; "2"; "abc"; "def"; "ghi"; "jkl"; "mno"]%string));
      reflexivity.
Defined.

(** The one-row frame with the column A = ["100000000000000000000.0"]: the
    value parses, as a float, to the whole number 10^20, so no entry fails
    numeric coercion and every parsed value is whole; the cast to Int64 is
    refused, the failure is swallowed, and the column is neither
    integer-typed nor floating-point: it is left as text. *)
Lemma whole_value_beyond_int64_stays_text :
  ~ (forall (rt : Runtime) (df : TextFrame) (name : string)
       (col : list text_cell),
       Frames.empty df = false ->
       columns df !! name = Some col ->
       Standardize.reserved name = false ->
       forallb text_isna col = false ->
       (10 * length (filter (fun x => x = None) (Standardize.to_numeric col))
        < length col)%nat ->
       exists s,
         columns (Standardize.standardize_dtypes df) !! name = Some s
         /\ match s with
            | Int64S _ =>
                forallb Standardize.is_integer
                  (Standardize.dropna (Standardize.to_numeric col)) = true
            | Float64S _ =>
                forallb Standardize.is_integer
                  (Standardize.dropna (Standardize.to_numeric col)) = false
            | _ => False
            end).
Proof.
  intros H.
  specialize (H literal_runtime
                (mkFrame 1 {[ "A"%string := [TStr "100000000000000000000.0"] ]})
                "A"%string [TStr "100000000000000000000.0"]).
  destruct H as (s & Hs & Hkind);
    [reflexivity | reflexivity | reflexivity | reflexivity
    | vm_compute; lia |].
  vm_compute in Hs. injection Hs as <-. exact Hkind.
Qed.

(** ** Treatment blocks *)

Section DssatIOFacts.
Import Standardize DssatIO.

Lemma indices_from_none (i : nat) (p : string -> bool) (lines : list string) :
  Forall (fun l => p l = false) lines -> indices_from i p lines = [].
Proof.
  intros H. revert i. induction H as [|l lines Hl _ IH]; intros i; cbn;
    [reflexivity|]. rewrite Hl. apply IH.
Qed.

Lemma indices_from_app (i : nat) (p : string -> bool) (l1 l2 : list string) :
  indices_from i p (l1 ++ l2)
  = indices_from i p l1 ++ indices_from (i + length l1) p l2.
Proof.
  revert i. induction l1 as [|l l1 IH]; intros i; cbn.
  - now rewrite Nat.add_0_r.
  - rewrite IH. replace (S i + length l1) with (i + S (length l1)) by lia.
    destruct (p l); reflexivity.
Qed.

(** A file with two marker lines has two marker indices. *)
Lemma two_treatment_indices (pre b1 b2 : list string) (t1 t2 : string) :
  Forall (fun l => is_treatment_line l = false) pre ->
  Forall (fun l => is_treatment_line l = false) b1 ->
  Forall (fun l => is_treatment_line l = false) b2 ->
  is_treatment_line t1 = true -> is_treatment_line t2 = true ->
  indices_from 0 is_treatment_line (pre ++ t1 :: b1 ++ t2 :: b2)
  = [length pre; length pre + S (length b1)].
Proof.
  intros Hpre Hb1 Hb2 Ht1 Ht2.
  rewrite indices_from_app, (indices_from_none _ _ pre Hpre). cbn.
  rewrite Ht1, indices_from_app, (indices_from_none _ _ b1 Hb1). cbn.
  rewrite Ht2, (indices_from_none _ _ b2 Hb2). f_equal. f_equal. lia.
Qed.

(** The slices between the marker indices are the two blocks. *)
Lemma two_treatment_blocks (pre b1 b2 : list string) (t1 t2 : string) :
  treatment_blocks (pre ++ t1 :: b1 ++ t2 :: b2)
    [length pre; length pre + S (length b1)]
  = [t1 :: b1; t2 :: b2].
Proof.
  cbn [treatment_blocks]. unfold slice_lines. f_equal; [|f_equal].
  - rewrite drop_app_length.
    replace (length pre + S (length b1) - length pre) with (length (t1 :: b1))
      by (cbn; lia).
    change (t1 :: b1 ++ t2 :: b2) with ((t1 :: b1) ++ t2 :: b2).
    apply take_app_length.
  - replace (pre ++ t1 :: b1 ++ t2 :: b2) with ((pre ++ t1 :: b1) ++ t2 :: b2)
      by (rewrite <- app_assoc; reflexivity).
    rewrite drop_app_length' by (rewrite length_app; cbn; lia).
    apply take_ge. rewrite !length_app. cbn. lia.
Qed.

(** A block that starts with its marker line and is well formed parses to
    the frame of its own header and rows, tagged with its own number. *)
Lemma process_well_formed_block (t : string) (b : list string) (h : nat)
    (trt_num : string) :
  is_treatment_line t = true ->
  find_index (fun l => startswith l "@") (t :: b) = Some h ->
  let headers := header_tokens (nth h (t :: b) EmptyString) in
  let rows := data_rows (drop (h + 1) (t :: b)) in
  rows <> [] ->
  foldr Nat.max O (map length rows) = length headers ->
  split t !! 1%nat = Some trt_num ->
  exists df,
    DataFrame_of_rows rows headers = Return df
    /\ nrows df = length rows
    /\ process_treatment_block (t :: b)
       = Some (set_column "TRT" (replicate (length rows) (TStr trt_num)) df).
Proof.
  intros Ht Hh headers rows Hrows Hwidth Htok.
  unfold process_treatment_block, process_treatment_block_try.
  rewrite Hh. fold headers rows.
  unfold DataFrame_of_rows at 1. rewrite Hwidth, Nat.eqb_refl.
  eexists. split; [reflexivity|]. split; [reflexivity|].
  destruct rows as [|r rows']; [congruence|].
  unfold DataFrame_of_rows. rewrite Hwidth, Nat.eqb_refl. cbn [bind find].
  rewrite Ht. cbn [nrows]. rewrite Htok. reflexivity.
Qed.

Lemma concat_two (a b : TextFrame) (col : string) :
  nrows (concat [a; b]) = nrows a + nrows b
  /\ (forall x y, columns a !! col = Some x -> columns b !! col = Some y ->
                  columns (concat [a; b]) !! col = Some (x ++ y)).
Proof.
  unfold concat. cbn [foldl]. unfold concat2 at 1 3. cbn [nrows columns].
  split; [reflexivity|]. intros x y Hx Hy.
  rewrite lookup_merge. unfold concat2. cbn [nrows columns].
  rewrite lookup_merge, lookup_empty, Hx, Hy. reflexivity.
Qed.

Lemma keep_notna_any_lookup (df : TextFrame) (col : string) (v : list text_cell) :
  columns df !! col = Some v ->
  existsb (fun c => negb (text_isna c)) v = true ->
  columns (keep_notna_any df) !! col = Some v.
Proof.
  intros Hv Hex. unfold keep_notna_any. cbn [columns].
  apply map_lookup_filter_Some. split; [exact Hv | exact Hex].
Qed.

Lemma not_empty_with_column {Col} (df : Frame Col) (col : string) (v : Col) :
  nrows df <> 0%nat -> columns df !! col = Some v -> empty df = false.
Proof.
  intros Hrows Hcol. unfold empty. apply orb_false_iff. split.
  - apply Nat.eqb_neq, Hrows.
  - apply Nat.eqb_neq, map_size_non_empty_iff. intros E.
    rewrite E, lookup_empty in Hcol. discriminate.
Qed.

Context {rt : Runtime}.

(** A reserved column keeps its text. *)
Lemma standardize_dtypes_reserved (df : TextFrame) (col : string)
    (v : list text_cell) :
  empty df = false ->
  columns df !! col = Some v ->
  reserved col = true ->
  forallb text_isna v = false ->
  columns (standardize_dtypes df) !! col = Some (ObjectS (map astype_str v))
  /\ nrows (standardize_dtypes df) = nrows df.
Proof.
  intros Hne Hv Hres Hna. unfold standardize_dtypes. rewrite Hne.
  cbn [columns nrows drop_all_nan]. split; [|reflexivity].
  rewrite map_lookup_imap.
  replace (filter _ (columns df) !! col) with (Some v)
    by (symmetry; apply map_lookup_filter_Some; split; [exact Hv | exact Hna]).
  cbn. unfold standardize_column. rewrite Hres. reflexivity.
Qed.

Lemma create_DATE_other (df : TypedFrame) (col : string) :
  col <> "DATE"%string ->
  columns (create_DATE df) !! col = columns df !! col
  /\ nrows (create_DATE df) = nrows df.
Proof.
  intros Hcol. unfold create_DATE.
  destruct (columns df !! "YEAR"%string) as [[y| | |]|];
    destruct (columns df !! "DOY"%string) as [[d| | |]|];
    try (split; reflexivity).
  cbn [set_column columns nrows]. split; [|reflexivity].
  apply lookup_insert_ne. congruence.
Qed.

Lemma tag_has_value (k1 k2 : nat) (x y : string) :
  k1 <> 0%nat ->
  existsb (fun c => negb (text_isna c))
    (replicate k1 (TStr x) ++ replicate k2 (TStr y)) = true
  /\ forallb text_isna (replicate k1 (TStr x) ++ replicate k2 (TStr y)) = false
  /\ map astype_str (replicate k1 (TStr x) ++ replicate k2 (TStr y))
     = replicate k1 (TStr x) ++ replicate k2 (TStr y).
Proof.
  intros Hk. destruct k1 as [|k1]; [congruence|]. split; [reflexivity|].
  split; [reflexivity|].
  rewrite map_app. f_equal; apply (fmap_replicate astype_str).
Qed.

(** ** C2 (amended).  In a file with exactly two marker lines, where each
    block (a marker line up to the next marker line or the end of the file)
    has its own header line starting with '@' with distinct labels and at
    least one data row after it, the widest data row of a block has as
    many tokens as the block's header, and each marker line has a second
    whitespace-separated token (the treatment number), [read_file] parses
    each block on its own, with the header of that block, and the TRT
    column of the result holds the number of the first block on the rows
    of the first block and the number of the second block on the rows of
    the second. *)
Theorem two_blocks_tagged (pre b1 b2 : list string) (t1 t2 id1 id2 : string)
    (h1 h2 : nat) :
  Forall (fun l => is_treatment_line l = false) pre ->
  Forall (fun l => is_treatment_line l = false) b1 ->
  Forall (fun l => is_treatment_line l = false) b2 ->
  is_treatment_line t1 = true -> is_treatment_line t2 = true ->
  split t1 !! 1%nat = Some id1 -> split t2 !! 1%nat = Some id2 ->
  find_index (fun l => startswith l "@") (t1 :: b1) = Some h1 ->
  find_index (fun l => startswith l "@") (t2 :: b2) = Some h2 ->
  let headers1 := header_tokens (nth h1 (t1 :: b1) EmptyString) in
  let headers2 := header_tokens (nth h2 (t2 :: b2) EmptyString) in
  let rows1 := data_rows (drop (h1 + 1) (t1 :: b1)) in
  let rows2 := data_rows (drop (h2 + 1) (t2 :: b2)) in
  rows1 <> [] -> rows2 <> [] ->
  NoDup headers1 -> NoDup headers2 ->
  foldr Nat.max O (map length rows1) = length headers1 ->
  foldr Nat.max O (map length rows2) = length headers2 ->
  exists df1 df2 df,
    DataFrame_of_rows rows1 headers1 = Return df1
    /\ DataFrame_of_rows rows2 headers2 = Return df2
    /\ read_file (Some (pre ++ t1 :: b1 ++ t2 :: b2)) = Some df
    /\ df = create_DATE (standardize_dtypes (keep_notna_any (concat
              [ set_column "TRT" (replicate (length rows1) (TStr id1)) df1;
                set_column "TRT" (replicate (length rows2) (TStr id2)) df2 ])))
    /\ nrows df = (length rows1 + length rows2)%nat
    /\ columns df !! "TRT"%string
       = Some (ObjectS (replicate (length rows1) (TStr id1)
                        ++ replicate (length rows2) (TStr id2))).
Proof.
  intros Hpre Hb1 Hb2 Ht1 Ht2 Hid1 Hid2 Hh1 Hh2 headers1 headers2 rows1 rows2
    Hr1 Hr2 _ _ Hw1 Hw2.
  destruct (process_well_formed_block t1 b1 h1 id1 Ht1 Hh1 Hr1 Hw1 Hid1)
    as (df1 & Hdf1 & Hn1 & Hp1).
  destruct (process_well_formed_block t2 b2 h2 id2 Ht2 Hh2 Hr2 Hw2 Hid2)
    as (df2 & Hdf2 & Hn2 & Hp2).
  fold headers1 rows1 in Hdf1, Hn1, Hp1. fold headers2 rows2 in Hdf2, Hn2, Hp2.
  set (f1 := set_column "TRT" (replicate (length rows1) (TStr id1)) df1) in *.
  set (f2 := set_column "TRT" (replicate (length rows2) (TStr id2)) df2) in *.
  set (tags := replicate (length rows1) (TStr id1)
               ++ replicate (length rows2) (TStr id2)).
  assert (Hlen1 : length rows1 <> 0%nat) by (destruct rows1; [congruence | discriminate]).
  destruct (tag_has_value (length rows1) (length rows2) id1 id2 Hlen1)
    as (Hex & Hna & Hstr). fold tags in Hex, Hna, Hstr.
  (* the combined frame *)
  destruct (concat_two f1 f2 "TRT") as [Hrows Htrt].
  specialize (Htrt _ _ (lookup_insert_eq _ _ _) (lookup_insert_eq _ _ _)).
  fold tags in Htrt.
  assert (Hrows' : nrows (concat [f1; f2]) = (length rows1 + length rows2)%nat).
  { rewrite Hrows. unfold f1, f2. cbn [set_column nrows]. lia. }
  pose proof (keep_notna_any_lookup _ _ _ Htrt Hex) as Hkeep.
  assert (Hne : empty (keep_notna_any (concat [f1; f2])) = false).
  { apply (not_empty_with_column _ "TRT" tags); [|exact Hkeep].
    cbn [keep_notna_any nrows]. lia. }
  destruct (standardize_dtypes_reserved _ _ _ Hne Hkeep eq_refl Hna)
    as [Hstd Hstd_rows].
  rewrite Hstr in Hstd.
  destruct (create_DATE_other
              (standardize_dtypes (keep_notna_any (concat [f1; f2]))) "TRT"
              ltac:(discriminate)) as [Hdate Hdate_rows].
  exists df1, df2,
    (create_DATE (standardize_dtypes (keep_notna_any (concat [f1; f2])))).
  split; [exact Hdf1|]. split; [exact Hdf2|].
  split; [|split; [reflexivity|split]].
  - unfold read_file.
    destruct (pre ++ t1 :: b1 ++ t2 :: b2) as [|l0 ls] eqn:Hlines;
      [destruct pre; discriminate|].
    rewrite <- Hlines.
    rewrite (two_treatment_indices pre b1 b2 t1 t2 Hpre Hb1 Hb2 Ht1 Ht2).
    rewrite two_treatment_blocks. cbn [omap list_omap]. rewrite Hp1, Hp2.
    reflexivity.
  - rewrite Hdate_rows, Hstd_rows. cbn [keep_notna_any nrows]. exact Hrows'.
  - rewrite Hdate, Hstd. reflexivity.
Qed.

End DssatIOFacts.

Lemma two_blocks_example :
  let file := map DssatIO.text_line
    [ "*GROWTH"; " TREATMENT  1 : rainfed"; "@YEAR DOY  CWAD";
      " 1991 060   100"; " 1991 061   200"; "";
      " TREATMENT  2 : irrigated"; "@YEAR DOY   LAI"; " 1992 366   1.5" ]%string in
  exists df,
    DssatIO.read_file (rt := literal_runtime) (Some file) = Some df
    /\ columns df !! "TRT"%string
       = Some (ObjectS [TStr "1"; TStr "1"; TStr "2"]).
Proof.
  intros file.
  pose proof (two_blocks_tagged (rt := literal_runtime)
                (map DssatIO.text_line ["*GROWTH"]%string)
                (map DssatIO.text_line
                   ["@YEAR DOY  CWAD"; " 1991 060   100"; " 1991 061   200"; ""]%string)
                (map DssatIO.text_line ["@YEAR DOY   LAI"; " 1992 366   1.5"]%string)
                (DssatIO.text_line " TREATMENT  1 : rainfed")
                (DssatIO.text_line " TREATMENT  2 : irrigated")
                "1" "2" 1 1) as H.
  specialize (H ltac:(repeat (constructor; [reflexivity|]); constructor)).
  specialize (H ltac:(repeat (constructor; [reflexivity|]); constructor)).
  specialize (H ltac:(repeat (constructor; [reflexivity|]); constructor)).
  specialize (H ltac:(reflexivity) ltac:(reflexivity)).
  specialize (H ltac:(reflexivity) ltac:(reflexivity)).
  specialize (H ltac:(reflexivity) ltac:(reflexivity)).
  cbv zeta in H.
  specialize (H ltac:(vm_compute; discriminate) ltac:(vm_compute; discriminate)).
  specialize (H ltac:(apply (bool_decide_unpack _); vm_compute; reflexivity)).
  specialize (H ltac:(apply (bool_decide_unpack _); vm_compute; reflexivity)).
  specialize (H ltac:(vm_compute; reflexivity) ltac:(vm_compute; reflexivity)).
  destruct H as (df1 & df2 & df & _ & _ & Hread & _ & _ & Htrt).
  exists df. split; [exact Hread | exact Htrt].
Defined.

(** Two marker lines, the second block without a header line: the second
    block gives no frame, its row is in no column and its number is not in
    the TRT column. *)
Lemma block_without_header_is_dropped :
  ~ (forall (rt : Runtime) (pre b1 b2 : list string) (t1 t2 id1 id2 : string),
       Forall (fun l => DssatIO.is_treatment_line l = false) pre ->
       Forall (fun l => DssatIO.is_treatment_line l = false) b1 ->
       Forall (fun l => DssatIO.is_treatment_line l = false) b2 ->
       DssatIO.is_treatment_line t1 = true ->
       DssatIO.is_treatment_line t2 = true ->
       split t1 !! 1%nat = Some id1 -> split t2 !! 1%nat = Some id2 ->
       exists df tags,
         DssatIO.read_file (Some (pre ++ t1 :: b1 ++ t2 :: b2)) = Some df
         /\ columns df !! "TRT"%string = Some (ObjectS tags)
         /\ In (TStr id1) tags /\ In (TStr id2) tags).
Proof.
  intros H.
  specialize (H literal_runtime []
                (map DssatIO.text_line ["@A"; "5"]%string)
                (map DssatIO.text_line ["7"]%string)
                (DssatIO.text_line "TREATMENT 1") (DssatIO.text_line "TREATMENT 2")
                "1"%string "2"%string).
  specialize (H ltac:(constructor)).
  specialize (H ltac:(repeat (constructor; [reflexivity|]); constructor)).
  specialize (H ltac:(repeat (constructor; [reflexivity|]); constructor)).
  specialize (H ltac:(reflexivity) ltac:(reflexivity)).
  specialize (H ltac:(reflexivity) ltac:(reflexivity)).
  destruct H as (df & tags & Hread & Htags & _ & Hin).
  vm_compute in Hread. injection Hread as <-.
  vm_compute in Htags. injection Htags as <-.
  destruct Hin as [E|[]]. discriminate E.
Qed.

(** ** Pairing of simulated and measured variables *)

Section EvaluateFacts.
Import Evaluate.

(** The tuple appended for a column names that column, its measured
    sibling, and only pairs whose aligned values are not all equal. *)
Lemma pair_for_Some (data_cde : option (list string)) (data : DataFrame)
    (col display sim_var meas_var : string) :
  pair_for data_cde data col = Some (display, sim_var, meas_var) ->
  sim_var = col
  /\ exists sim meas,
       columns data !! sim_var = Some sim
       /\ columns data !! meas_var = Some meas
       /\ forallb (fun p => cell_eqb (fst p) (snd p)) (valid_rows sim meas) = false.
Proof.
  unfold pair_for. intros H.
  destruct (bool_decide _); [discriminate|].
  destruct (endswith_char col "S"); [|discriminate].
  destruct (columns data !! col) as [sim|] eqn:Hsim; [|discriminate].
  destruct (columns data !! _) as [meas|] eqn:Hmeas in H; [|discriminate].
  destruct (_ || _)%bool; [discriminate|].
  destruct (valid_rows sim meas) as [|p rows] eqn:Hrows; [discriminate|].
  destruct (forallb _ (p :: rows)) eqn:Hall; [discriminate|].
  injection H as _ <- <-. split; [reflexivity|].
  exists sim, meas. rewrite Hrows. auto.
Qed.

(** ** C7.  A pair of columns name+'S' and name+'M' whose aligned values,
    after the rows with a missing side are dropped, are all equal is not in
    the returned list, under any display label. *)
Theorem identical_pair_excluded (data_cde : option (list string))
    (data : DataFrame) (base display : string) :
  (forall sim meas,
     columns data !! (base ++ "S")%string = Some sim ->
     columns data !! (base ++ "M")%string = Some meas ->
     forall x y, In (x, y) (valid_rows sim meas) -> cell_eqb x y = true) ->
  ~ In (display, (base ++ "S")%string, (base ++ "M")%string)
       (get_evaluate_variable_pairs data_cde data).
Proof.
  intros Heq Hin. unfold get_evaluate_variable_pairs in Hin.
  apply list_elem_of_In in Hin.
  rewrite merge_sort_Permutation in Hin.
  apply list_elem_of_omap in Hin. destruct Hin as (col & _ & Hcol).
  apply pair_for_Some in Hcol.
  destruct Hcol as (_ & sim & meas & Hsim & Hmeas & Hall).
  assert (Htrue : forallb (fun p => cell_eqb (fst p) (snd p)) (valid_rows sim meas)
                  = true).
  { apply forallb_forall. intros [x y] Hxy. apply (Heq sim meas Hsim Hmeas x y Hxy). }
  congruence.
Qed.

End EvaluateFacts.

Lemma identical_CWAD_excluded :
  ~ In ("CWAD", "CWADS", "CWADM")%string
       (Evaluate.get_evaluate_variable_pairs None
          (mkFrame 3 (<["CWADS"%string := [CInt 100; CInt 200; CInt 300]]>
                        {[ "CWADM"%string := [CInt 100; CInt 200; CInt 300] ]}))).
Proof.
  apply (identical_pair_excluded None _ "CWAD" "CWAD").
  intros sim meas Hsim Hmeas x y Hxy.
  vm_compute in Hsim. vm_compute in Hmeas.
  injection Hsim as <-. injection Hmeas as <-.
  simpl in Hxy.
  destruct Hxy as [E|[E|[E|[]]]]; injection E as <- <-; reflexivity.
Defined.

(** ** The x variable of the observed data *)

Section XVarFacts.
Import XVar.
Context {rt : Runtime}.

Lemma coerce_DATE_nrows (df : DataFrame) : nrows (coerce_DATE df) = nrows df.
Proof. unfold coerce_DATE. destruct (columns df !! _); reflexivity. Qed.

Lemma coerce_DATE_other (df : DataFrame) (col : string) :
  col <> "DATE"%string ->
  columns (coerce_DATE df) !! col = columns df !! col.
Proof.
  intros Hcol. unfold coerce_DATE.
  destruct (columns df !! "DATE"%string); [|reflexivity].
  cbn [set_column columns]. apply lookup_insert_ne. congruence.
Qed.

Lemma coerce_DATE_DATE (df : DataFrame) :
  columns (coerce_DATE df) !! "DATE"%string
  = map to_datetime <$> (columns df !! "DATE"%string).
Proof.
  unfold coerce_DATE.
  destruct (columns df !! "DATE"%string) as [v|] eqn:E.
  - cbn [set_column columns]. rewrite lookup_insert_eq. reflexivity.
  - rewrite E. reflexivity.
Qed.

(** The coercion keeps the set of labels. *)
Lemma coerce_DATE_has_column (df : DataFrame) (col : string) :
  has_column col (coerce_DATE df) = has_column col df.
Proof.
  unfold has_column.
  destruct (decide (col = "DATE"%string)) as [->|Hne].
  - rewrite coerce_DATE_DATE. destruct (columns df !! _); reflexivity.
  - rewrite coerce_DATE_other by exact Hne. reflexivity.
Qed.

Lemma map_fixed {A} (f : A -> A) (v : list A) :
  Forall (fun c => f c = c) v -> map f v = v.
Proof. induction 1 as [|c v Hc _ IH]; cbn; congruence. Qed.

Lemma coerce_DATE_fixed (df : DataFrame) :
  (forall v, columns df !! "DATE"%string = Some v ->
             Forall (fun c => to_datetime c = c) v) ->
  coerce_DATE df = df.
Proof.
  intros H. unfold coerce_DATE.
  destruct (columns df !! "DATE"%string) as [v|] eqn:E; [|reflexivity].
  destruct df as [k cols]. unfold set_column. cbn [nrows columns] in *.
  f_equal. rewrite (map_fixed _ _ (H v eq_refl)). apply insert_id, E.
Qed.

Lemma ffill_from_no_missing (last : cell) (v : list cell) :
  forallb (fun c => negb (isna c)) v = true -> ffill_from last v = v.
Proof.
  revert last. induction v as [|c v IH]; intros last H; [reflexivity|].
  cbn in *. apply andb_true_iff in H. destruct H as [Hc Hv].
  destruct (isna c); [discriminate|]. now rewrite IH.
Qed.

Lemma ffill_range (k : nat) : ffill (range k) = range k.
Proof.
  apply ffill_from_no_missing. unfold range.
  apply forallb_forall. intros c Hc. apply in_map_iff in Hc.
  destruct Hc as (i & <- & _). reflexivity.
Qed.

(** ** C9 (amended).  The call leaves every column of the simulated
    dataset other than DATE, and its row count, as they were.  When the
    observed dataset is present and not empty, the DATE column of the
    simulated dataset is overwritten in place with its coercion to
    timestamps; the dataset is unchanged when that column is absent or
    holds only timestamps and missing dates. *)
Theorem sim_data_only_DATE_coerced (obs : option DataFrame) (x_var : string)
    (sim : DataFrame) :
  exists sim',
    snd (handle_missing_xvar obs x_var (Some sim)) = Some sim'
    /\ nrows sim' = nrows sim
    /\ (forall col, col <> "DATE"%string ->
          columns sim' !! col = columns sim !! col)
    /\ (forall o, obs = Some o -> empty o = false ->
          columns sim' !! "DATE"%string
          = map to_datetime <$> (columns sim !! "DATE"%string))
    /\ ((forall v, columns sim !! "DATE"%string = Some v ->
                   Forall (fun c => to_datetime c = c) v) ->
        sim' = sim).
Proof.
  unfold handle_missing_xvar.
  destruct obs as [o|]; [destruct (empty o) eqn:He|].
  - exists sim. cbn. repeat split; try reflexivity. intros o' [= <-]. congruence.
  - exists (coerce_DATE sim). cbn. split; [reflexivity|].
    split; [apply coerce_DATE_nrows|].
    split; [intros col Hcol; apply coerce_DATE_other, Hcol|].
    split; [intros _ _ _; apply coerce_DATE_DATE|].
    apply coerce_DATE_fixed.
  - exists sim. cbn. repeat split; try reflexivity. intros o' [=].
Qed.

(** ** C8 (amended).  A column whose label matches the requested name only
    case-insensitively is not consulted.  When a column carries exactly the
    requested name, the observed dataset is returned with no other change
    than the coercion of its DATE column.  When none does, the name is not
    one of DAP, DOY, DAS in any letter case, and the simulated dataset is
    absent, empty or without a DATE column, the new column is the 0-based
    row-index sequence. *)
Theorem xvar_resolved_by_exact_name_only (obs : DataFrame) (x_var : string)
    (sim : option DataFrame) :
  empty obs = false ->
  (has_column x_var obs = true ->
   fst (handle_missing_xvar (Some obs) x_var sim)
   = Return (Some (coerce_DATE obs)))
  /\ (has_column x_var obs = false ->
      upper x_var ∉ special_variables ->
      (forall s, sim = Some s ->
                 empty s = true \/ has_column "DATE" s = false) ->
      fst (handle_missing_xvar (Some obs) x_var sim)
      = Return (Some (set_column x_var (range (nrows obs)) (coerce_DATE obs)))).
Proof.
  intros Hne. unfold handle_missing_xvar. rewrite Hne. cbn [fst]. split.
  - intros Hx. unfold resolve_xvar.
    rewrite coerce_DATE_has_column, Hx. reflexivity.
  - intros Hx Hspecial Hsim. unfold resolve_xvar.
    rewrite !coerce_DATE_has_column, Hx.
    rewrite bool_decide_eq_false_2 by exact Hspecial.
    assert (Hfinish :
      (let* v := getitem
                   (if negb false
                    then set_column x_var (range (nrows (coerce_DATE obs)))
                           (coerce_DATE obs)
                    else coerce_DATE obs) x_var in
       Return (Some (set_column x_var (ffill v)
                       (if negb false
                        then set_column x_var (range (nrows (coerce_DATE obs)))
                               (coerce_DATE obs)
                        else coerce_DATE obs))))
      = Return (Some (set_column x_var (range (nrows obs)) (coerce_DATE obs)))).
    { cbn [negb]. unfold getitem, set_column. cbn [columns nrows].
      rewrite lookup_insert_eq. cbn [bind].
      rewrite ffill_range, insert_insert_eq, coerce_DATE_nrows. reflexivity. }
    destruct sim as [s|]; cbn [fmap option_fmap option_map]; [|exact Hfinish].
    assert (He : empty (coerce_DATE s) = empty s).
    { unfold empty. rewrite coerce_DATE_nrows. f_equal.
      unfold coerce_DATE. destruct (columns s !! "DATE"%string) eqn:E; [|reflexivity].
      cbn [set_column columns]. f_equal.
      rewrite map_size_insert_Some; [reflexivity | rewrite E; eauto]. }
    rewrite He, coerce_DATE_has_column.
    destruct (Hsim s eq_refl) as [-> | Hd].
    + exact Hfinish.
    + rewrite Hd. destruct (negb (empty s)); exact Hfinish.
Qed.

End XVarFacts.

Lemma sim_data_with_timestamps_unchanged :
  let sim := mkFrame 1 {[ "DATE"%string := [CDate (mkTimestamp 1991 60)] ]} in
  exists sim',
    snd (XVar.handle_missing_xvar (rt := literal_runtime)
           (Some (mkFrame 1 {[ "CWAD"%string := [CInt 10] ]})) "DAP" (Some sim))
    = Some sim'
    /\ sim' = sim.
Proof.
  intros sim.
  destruct (sim_data_only_DATE_coerced (rt := literal_runtime)
              (Some (mkFrame 1 {[ "CWAD"%string := [CInt 10] ]})) "DAP" sim)
    as (sim' & Hs & _ & _ & _ & Hfix).
  exists sim'. split; [exact Hs|]. apply Hfix.
  intros v Hv. vm_compute in Hv. injection Hv as <-.
  repeat constructor.
Defined.

(** An observed dataset with one row and a simulated dataset whose DATE
    column holds the text "1991-03-01": whatever the date parser makes of
    the text, the simulated dataset is not the same after the call. *)
Lemma sim_data_DATE_is_overwritten :
  let sim := mkFrame 1 {[ "DATE"%string := [CStr "1991-03-01"] ]} in
  ~ (exists rt : Runtime,
       snd (XVar.handle_missing_xvar
              (Some (mkFrame 1 {[ "CWAD"%string := [CInt 10] ]})) "DAP" (Some sim))
       = Some sim).
Proof.
  intros sim [rt H].
  assert (Hs : snd (XVar.handle_missing_xvar
                      (Some (mkFrame 1 {[ "CWAD"%string := [CInt 10] ]}))
                      "DAP" (Some sim))
               = Some (XVar.coerce_DATE sim)) by reflexivity.
  rewrite Hs in H. clear Hs.
  assert (Hd : columns (XVar.coerce_DATE sim) !! "DATE"%string
               = columns sim !! "DATE"%string) by congruence.
  clear H.
  rewrite coerce_DATE_DATE in Hd.
  change (columns sim !! "DATE"%string) with (Some [CStr "1991-03-01"]) in Hd.
  cbn in Hd. destruct (to_datetime_scalar "1991-03-01"); discriminate Hd.
Qed.

(** The observed dataset has the column CWAD = [10, 20] and the requested
    name is cwad: the result has no column cwad = [10, 20]. *)
Lemma case_variant_is_not_copied :
  ~ (exists (rt : Runtime) (df : DataFrame),
       fst (XVar.handle_missing_xvar
              (Some (mkFrame 2 {[ "CWAD"%string := [CInt 10; CInt 20] ]}))
              "cwad" None)
       = Return (Some df)
       /\ columns df !! "cwad"%string = Some [CInt 10; CInt 20]).
Proof.
  intros (rt & df & Hdf & Hcol).
  vm_compute in Hdf. injection Hdf as <-.
  vm_compute in Hcol. discriminate Hcol.
Qed.

Lemma xvar_case_variant_example :
  fst (XVar.handle_missing_xvar (rt := literal_runtime)
         (Some (mkFrame 2 {[ "CWAD"%string := [CInt 10; CInt 20] ]})) "cwad" None)
  = Return (Some (mkFrame 2 (<["cwad"%string := [CInt 0; CInt 1]]>
                               {[ "CWAD"%string := [CInt 10; CInt 20] ]}))).
Proof.
  destruct (xvar_resolved_by_exact_name_only (rt := literal_runtime)
              (mkFrame 2 {[ "CWAD"%string := [CInt 10; CInt 20] ]})
              "cwad" None) as [_ H]; [reflexivity|].
  etransitivity; [apply H | reflexivity].
  - reflexivity.
  - intros Hin. apply list_elem_of_In in Hin. vm_compute in Hin.
    destruct Hin as [E|[E|[E|[]]]]; discriminate E.
  - intros s Hs. discriminate Hs.
Defined.

(** * Further properties *)

(** ** Dates: the edges of the day of the year and of the digits *)

Section DateEdges.
Context {rt : Runtime}.
Local Open Scope Z_scope.

(** Three digits that spell 000 or a number above 366 are not a day for
    the format: either no alternative matches or text is left over. *)
Lemma match_j_rejects (a b c : ascii) :
  is_decimal a = true -> is_decimal b = true -> is_decimal c = true ->
  let j := 100 * digit_value a + 10 * digit_value b + digit_value c in
  j = 0 \/ 366 < j ->
  match match_j (String a (String b (String c EmptyString))) with
  | Some (_, rest) => is_empty rest = false
  | None => True
  end.
Proof.
  intros Ha Hb Hc j Hj.
  set (ok := fun a b c : ascii =>
     let j := 100 * digit_value a + 10 * digit_value b + digit_value c in
     implb ((j =? 0) || (366 <? j))
       match match_j (String a (String b (String c EmptyString))) with
       | Some (_, r) => negb (is_empty r)
       | None => true
       end).
  assert (Hall : forallb (fun a => forallb (fun b => forallb (ok a b)
            decimal_chars) decimal_chars) decimal_chars = true)
    by (vm_compute; reflexivity).
  pose proof (forall_decimal _ Hall a Ha) as H1. cbv beta in H1.
  pose proof (forall_decimal _ H1 b Hb) as H2. cbv beta in H2.
  pose proof (forall_decimal _ H2 c Hc) as H3. clear Hall H1 H2.
  unfold ok in H3. fold j in H3.
  replace ((j =? 0) || (366 <? j))%bool with true in H3 by lia.
  cbn [implb] in H3.
  destruct (match_j _) as [[j' r]|]; [|exact I].
  destruct (is_empty r); [discriminate | reflexivity].
Qed.

Lemma to_datetime_Yj_bad_day (y1 y2 y3 y4 d1 d2 d3 : ascii) :
  is_decimal d1 = true -> is_decimal d2 = true -> is_decimal d3 = true ->
  let j := 100 * digit_value d1 + 10 * digit_value d2 + digit_value d3 in
  j = 0 \/ 366 < j ->
  exists e,
    to_datetime_Yj
      (String y1 (String y2 (String y3 (String y4
         (String d1 (String d2 (String d3 EmptyString)))))))
    = Raise e.
Proof.
  intros H1 H2 H3 j Hj.
  pose proof (match_j_rejects d1 d2 d3 H1 H2 H3 Hj) as Hm.
  unfold to_datetime_Yj, strptime_Yj.
  destruct (is_decimal y1 && is_decimal y2 && is_decimal y3 && is_decimal y4)%bool;
    [|eexists; reflexivity].
  destruct (match_j _) as [[j' r]|]; [|eexists; reflexivity].
  rewrite Hm. eexists. reflexivity.
Qed.

(** Day 366 of a common year inside the timestamp range is the first day
    of the next year. *)
Lemma to_datetime_Yj_rollover (y1 y2 y3 y4 : ascii) :
  is_decimal y1 = true -> is_decimal y2 = true ->
  is_decimal y3 = true -> is_decimal y4 = true ->
  let year := 1000 * digit_value y1 + 100 * digit_value y2
              + 10 * digit_value y3 + digit_value y4 in
  is_leap year = false ->
  1677 <= year < 2262 ->
  to_datetime_Yj
    (String y1 (String y2 (String y3 (String y4 "366"))))
  = Return (Some (mkTimestamp (year + 1) 1)).
Proof.
  intros H1 H2 H3 H4 year Hleap Hy.
  unfold to_datetime_Yj, strptime_Yj.
  rewrite H1, H2, H3, H4. cbn [andb].
  change (match_j "366") with (Some (366, EmptyString)).
  cbn [is_empty bind fst snd]. fold year.
  unfold date_of_julian, days_in_year. rewrite Hleap.
  replace ((year <? 1) || (9999 <? year))%bool with false by lia.
  change (366 <=? 365) with false. cbv iota.
  replace (year =? 9999) with false by lia.
  cbn [bind]. unfold in_ns_bounds. cbn [ts_year ts_dayofyear].
  replace (366 - 365) with 1 by lia.
  replace (1677 <? year + 1) with true by lia.
  replace (year + 1 <? 2262) with (negb (year + 1 =? 2262)) by lia.
  destruct (year + 1 =? 2262); reflexivity.
Qed.

(** ** X1.  A date code of five decimal digits whose last three digits are
    000 or above 366 gives NaT; when they are 366 and the resolved year is
    a common year, the result is the first day of the following year. *)
Theorem compact_code_day_edges (year doy date_str : PyVal) (a b c d e : ascii) :
  date_str <> PyNone ->
  strip (py_str date_str)
  = String a (String b (String c (String d (String e EmptyString)))) ->
  is_decimal a = true -> is_decimal b = true -> is_decimal c = true ->
  is_decimal d = true -> is_decimal e = true ->
  let year_part := 10 * digit_value a + digit_value b in
  let doy_part := 100 * digit_value c + 10 * digit_value d + digit_value e in
  let full_year := if year_part <=? 30 then 2000 + year_part
                   else 1900 + year_part in
  (doy_part = 0 \/ 366 < doy_part ->
   unified_date_convert year doy date_str = Return NaT)
  /\ (doy_part = 366 -> is_leap full_year = false ->
      unified_date_convert year doy date_str
      = Return (Some (mkTimestamp (full_year + 1) 1))).
Proof.
  intros Hnone Hs Ha Hb Hc Hd He year_part doy_part full_year.
  pose proof (digit_value_bounds a Ha). pose proof (digit_value_bounds b Hb).
  assert (Hstep :
    unified_date_convert year doy date_str
    = match to_datetime_Yj
              (((if year_part <=? 30 then "20" else "19")
                +:+ String a (String b ""))
               +:+ String c (String d (String e ""))) with
      | Return r => Return r
      | Raise _ => Return NaT
      end).
  { unfold unified_date_convert, unified_date_convert_try.
    replace (is_None date_str) with false by (destruct date_str; simpl; congruence).
    cbn [negb]. rewrite Hs.
    unfold isdigit. cbn [String.length Nat.eqb is_empty negb all_isdigit andb].
    rewrite !is_decimal_isdigit by assumption. cbn [andb].
    unfold slice, int_of_digits.
    cbn [Nat.sub substring from_index is_empty negb all_decimal andb].
    rewrite Ha, Hb, Hc, Hd, He. cbn [andb bind decimal_value].
    replace (10 * (10 * 0 + digit_value a) + digit_value b) with year_part
      by (unfold year_part; ring).
    replace (10 * (10 * (10 * 0 + digit_value c) + digit_value d) + digit_value e)
      with doy_part by (unfold doy_part; ring).
    unfold year_part at 2, doy_part at 1.
    rewrite format_two_digits, format_three_digits by assumption.
    reflexivity. }
  rewrite Hstep. clear Hstep. split.
  - intros Hbad.
    destruct (year_part <=? 30); cbv [String.append].
    + destruct (to_datetime_Yj_bad_day "2" "0" a b c d e Hc Hd He Hbad) as [x ->].
      reflexivity.
    + destruct (to_datetime_Yj_bad_day "1" "9" a b c d e Hc Hd He Hbad) as [x ->].
      reflexivity.
  - intros H366 Hleap.
    assert (Hcde : String c (String d (String e "")) = "366"%string).
    { rewrite <- (format_three_digits c d e Hc Hd He). fold doy_part.
      rewrite H366. reflexivity. }
    rewrite Hcde. subst full_year.
    destruct (year_part <=? 30) eqn:Hcent; cbv [String.append].
    + rewrite (to_datetime_Yj_rollover "2" "0" a b) by
        (first [ reflexivity | assumption
               | change (digit_value "2") with 2; change (digit_value "0") with 0;
                 first [ replace (1000 * 2 + 100 * 0 + 10 * digit_value a + digit_value b)
                           with (2000 + year_part) by (unfold year_part; ring);
                         exact Hleap
                       | unfold year_part in *; lia ] ]).
      change (digit_value "2") with 2. change (digit_value "0") with 0.
      do 3 f_equal. unfold year_part. ring.
    + rewrite (to_datetime_Yj_rollover "1" "9" a b) by
        (first [ reflexivity | assumption
               | change (digit_value "1") with 1; change (digit_value "9") with 9;
                 first [ replace (1000 * 1 + 100 * 9 + 10 * digit_value a + digit_value b)
                           with (1900 + year_part) by (unfold year_part; ring);
                         exact Hleap
                       | unfold year_part in *; lia ] ]).
      change (digit_value "1") with 1. change (digit_value "9") with 9.
      do 3 f_equal. unfold year_part. ring.
Qed.

(** ** X2.  A code that strips to five characters that [isdigit] accepts,
    one of which is not a decimal digit (a superscript digit), gives NaT:
    [int] raises and the exception is caught. *)
Theorem compact_code_non_decimal_digit (year doy date_str : PyVal) :
  date_str <> PyNone ->
  String.length (strip (py_str date_str)) = 5%nat ->
  isdigit (strip (py_str date_str)) = true ->
  all_decimal (strip (py_str date_str)) = false ->
  unified_date_convert year doy date_str = Return NaT.
Proof.
  intros Hnone Hlen Hdig Hdec.
  unfold unified_date_convert, unified_date_convert_try.
  replace (is_None date_str) with false by (destruct date_str; simpl; congruence).
  cbn [negb]. rewrite Hlen, Hdig. cbn [Nat.eqb andb].
  destruct (strip (py_str date_str)) as [|a [|b [|c [|d [|e [|? ?]]]]]];
    try discriminate Hlen.
  unfold slice, int_of_digits.
  cbn [Nat.sub substring from_index is_empty negb all_decimal andb] in *.
  destruct (is_decimal a); [|reflexivity].
  destruct (is_decimal b); [|reflexivity].
  cbn [andb bind] in *. rewrite Hdec. reflexivity.
Qed.

(** ** X3.  The (year, doy) path reads its two arguments through
    [int(float(.))] only: arguments of any type (floats are truncated
    towards zero) give what the integers they coerce to give. *)
Theorem year_doy_read_as_integers (year doy : PyVal) (y d : Z) :
  int_float year = Return y -> int_float doy = Return d ->
  Z.abs y < 2 ^ 53 -> Z.abs d < 2 ^ 53 ->
  unified_date_convert year doy PyNone
  = unified_date_convert (PyInt y) (PyInt d) PyNone.
Proof.
  intros Hy Hd Hy53 Hd53.
  unfold unified_date_convert, unified_date_convert_try. cbn [is_None negb andb].
  replace (is_None year) with false by (destruct year; [discriminate Hy|..]; reflexivity).
  replace (is_None doy) with false by (destruct doy; [discriminate Hd|..]; reflexivity).
  cbn [negb andb]. rewrite Hy, Hd, !int_float_small by assumption. reflexivity.
Qed.

End DateEdges.

Lemma compact_code_day_edges_example :
  unified_date_convert (rt := literal_runtime) PyNone PyNone (PyStr "91000")
  = Return NaT
  /\ unified_date_convert (rt := literal_runtime) PyNone PyNone (PyStr "91366")
     = Return (Some (mkTimestamp 1992 1)).
Proof.
  split.
  - apply (proj1 (compact_code_day_edges (rt := literal_runtime) PyNone PyNone
                    (PyStr "91000") "9" "1" "0" "0" "0"
                    ltac:(discriminate) eq_refl eq_refl eq_refl eq_refl eq_refl eq_refl)).
    left. reflexivity.
  - apply (proj2 (compact_code_day_edges (rt := literal_runtime) PyNone PyNone
                    (PyStr "91366") "9" "1" "3" "6" "6"
                    ltac:(discriminate) eq_refl eq_refl eq_refl eq_refl eq_refl eq_refl));
      reflexivity.
Defined.

Lemma superscript_digit_example :
  unified_date_convert (rt := literal_runtime) PyNone PyNone
    (PyStr (String "9" (String "1" (String "0" (String "6" (String "178" ""))))))
  = Return NaT.
Proof.
  apply (compact_code_non_decimal_digit (rt := literal_runtime));
    first [ discriminate | reflexivity ].
Defined.

Lemma float_year_doy_example :
  unified_date_convert (rt := literal_runtime)
    (PyFloatV (FFinite 1991 0)) (PyFloatV (FFinite 121 (-1))) PyNone
  = unified_date_convert (rt := literal_runtime) (PyInt 1991) (PyInt 60) PyNone.
Proof.
  apply (year_doy_read_as_integers (rt := literal_runtime)
           (PyFloatV (FFinite 1991 0)) (PyFloatV (FFinite 121 (-1))) 1991 60);
    reflexivity.
Defined.

(** ** Metrics: the sample, the bounds of the statistics *)

Section MetricsBounds.
Import Metrics.
Local Open Scope R_scope.

(** The aligned pairs of which neither side is NaN. *)
Local Abbreviation both :=
  (fun p : option R * option R =>
     match p with
     | (Some s, Some o) => Some (s, o)
     | _ => None
     end).
Local Abbreviation valid_pairs sim obs := (omap both (zip sim obs)).

Lemma select_valid_pairs (sim obs : list (option R)) :
  let k := Nat.min (length sim) (length obs) in
  let mask := zip_with (fun s o => notnan s && notnan o) (take k sim) (take k obs) in
  select mask (take k sim) = (valid_pairs sim obs).*1
  /\ select mask (take k obs) = (valid_pairs sim obs).*2.
Proof.
  revert obs. induction sim as [|s sim IH]; intros [|o obs]; cbn; try (split; reflexivity).
  destruct (IH obs) as [IH1 IH2]. cbn in IH1, IH2.
  destruct s as [s|], o as [o|]; cbn; rewrite ?IH1, ?IH2; split; reflexivity.
Qed.

(** The statistics as functions of the valid pairs. *)
Lemma calculate_metrics_valid_pairs (sim obs : list (option R)) (trt : string) :
  calculate_metrics sim obs trt
  = match valid_pairs sim obs with
    | [] => None
    | ps =>
        let mean_obs := np_mean ps.*2 in
        let rmse_value :=
          sqrt (np_mean (zip_with (fun o s => (o - s) ^ 2) ps.*2 ps.*1)) in
        Some (mkMetrics trt (length ps) rmse_value
                (if Req_dec_T mean_obs 0 then None
                 else Some (rmse_value / mean_obs * 100))
                (d_stat ps.*2 ps.*1))
    end.
Proof.
  unfold calculate_metrics, calculate_metrics_try.
  destruct sim as [|s sim]; [reflexivity|].
  destruct obs as [|o obs]; [reflexivity|].
  change ((length (s :: sim) =? 0)%nat) with false.
  change ((length (o :: obs) =? 0)%nat) with false. cbn [orb].
  destruct (select_valid_pairs (s :: sim) (o :: obs)) as [-> ->].
  generalize (valid_pairs (s :: sim) (o :: obs)). intros ps.
  rewrite !length_fmap.
  destruct ps as [|p ps]; [reflexivity|].
  rewrite length_cons. cbn [Nat.eqb].
  unfold rmse. rewrite elementwise_same_length by (rewrite !length_fmap; reflexivity).
  reflexivity.
Qed.

Lemma length_valid_pairs (sim obs : list (option R)) :
  length (valid_pairs sim obs)
  = length (filter (fun p => notnan (fst p) && notnan (snd p) = true) (zip sim obs)).
Proof.
  induction (zip sim obs) as [|[s o] l IH]; [reflexivity|].
  rewrite filter_cons.
  destruct s as [s|], o as [o|]; cbn [fst snd notnan andb];
    destruct (decide _) as [H|H];
    try discriminate H; try (exfalso; apply H; reflexivity);
    cbn [omap list_omap]; rewrite ?length_cons, IH; reflexivity.
Qed.

(** ** X4.  [calculate_metrics] reports as [n] the number of positions,
    within the length of the shorter array, where neither the simulated nor
    the observed value is NaN, and returns no record exactly when there is
    no such position. *)
Theorem metrics_sample_count (sim obs : list (option R)) (trt : string) :
  let valid :=
    filter (fun p => notnan (fst p) && notnan (snd p) = true) (zip sim obs) in
  match calculate_metrics sim obs trt with
  | Some m => n m = length valid /\ valid <> [] /\ TRT m = trt
  | None => valid = []
  end.
Proof.
  intros valid. rewrite calculate_metrics_valid_pairs.
  pose proof (length_valid_pairs sim obs) as Hlen. fold valid in Hlen.
  destruct (valid_pairs sim obs) as [|p ps].
  - destruct valid; [reflexivity | discriminate Hlen].
  - cbn [n TRT]. split; [exact Hlen|]. split; [|reflexivity].
    intros E. rewrite E in Hlen. discriminate Hlen.
Qed.




Lemma spread_terms_nonneg (c : R) (a b : list R) :
  Forall (fun x => 0 <= x)
    (zip_with (fun m s => (Rabs (m - c) + Rabs (s - c)) ^ 2) a b).
Proof.
  revert b. induction a as [|x a IH]; intros [|y b]; cbn; constructor;
    [apply pow2_ge_0 | apply IH].
Qed.









(** ** X7.  The entries of the longer array beyond the length of the
    shorter one play no part: the result is that of the two arrays cut to
    the shorter length. *)
Theorem metrics_ignore_surplus (sim obs : list (option R)) (trt : string) :
  let k := Nat.min (length sim) (length obs) in
  calculate_metrics sim obs trt
  = calculate_metrics (take k sim) (take k obs) trt.
Proof.
  intros k. rewrite !calculate_metrics_valid_pairs.
  replace (zip (take k sim) (take k obs)) with (zip sim obs); [reflexivity|].
  subst k. revert obs. induction sim as [|s sim IH]; intros [|o obs]; cbn;
    try reflexivity.
  f_equal. apply IH.
Qed.

End MetricsBounds.



(** ** Type standardisation: the shape and the reserved columns *)

Section StandardizeShape.
Import Standardize FrameShape.
Context {rt : Runtime}.

Lemma standardize_column_length (name : string) (col : list text_cell) :
  series_len (standardize_column name col) = length col.
Proof.
  unfold standardize_column, numeric_conversion, all_is_integer.
  destruct (reserved name); [apply length_map|].
  destruct (below_tenth _); [|reflexivity].
  destruct (integer_dtype col && negb int_has_is_integer); [reflexivity|].
  cbn [bind].
  destruct (forallb is_integer _); [|cbn; apply length_to_numeric].
  unfold astype_Int64. destruct (forallb _ (to_numeric col)); [|reflexivity].
  cbn. rewrite length_map. apply length_to_numeric.
Qed.

Lemma standardize_dtypes_nrows (df : TextFrame) :
  nrows (standardize_dtypes df) = nrows df.
Proof. unfold standardize_dtypes. destruct (empty df); reflexivity. Qed.

(** ** X8.  [standardize_dtypes] keeps the shape: the row count is
    unchanged, every column of the result carries the label of a column of
    the input (no column is invented or renamed), and it has as many
    entries as that column. *)
Theorem standardize_dtypes_shape (df : TextFrame) :
  nrows (standardize_dtypes df) = nrows df
  /\ forall name s,
       columns (standardize_dtypes df) !! name = Some s ->
       exists col, columns df !! name = Some col /\ series_len s = length col.
Proof.
  split; [apply standardize_dtypes_nrows|].
  intros name s. unfold standardize_dtypes.
  destruct (empty df); cbn [columns].
  - rewrite lookup_fmap. destruct (columns df !! name) as [col|]; [|discriminate].
    intros [= <-]. exists col. split; reflexivity.
  - rewrite map_lookup_imap. unfold drop_all_nan. cbn [columns].
    destruct (filter _ (columns df) !! name) as [col|] eqn:Hf; [|discriminate].
    apply map_lookup_filter_Some in Hf. destruct Hf as [Hcol _].
    cbn. intros [= <-]. exists col. split; [exact Hcol|].
    apply standardize_column_length.
Qed.

(** ** X9.  A column named YEAR, DOY, DATE or TRT that holds a string in
    every row is returned as text with exactly the same strings (leading
    zeros included), whatever the strings look like. *)
Theorem reserved_column_keeps_strings (df : TextFrame) (name : string)
    (tokens : list string) :
  columns df !! name = Some (map TStr tokens) ->
  length tokens = nrows df ->
  reserved name = true ->
  columns (standardize_dtypes df) !! name = Some (ObjectS (map TStr tokens)).
Proof.
  intros Hcol Hlen Hres.
  destruct (empty df) eqn:He.
  - unfold standardize_dtypes. rewrite He. cbn [columns].
    rewrite lookup_fmap, Hcol. reflexivity.
  - assert (Hne : tokens <> []).
    { intros ->. unfold empty in He. cbn in Hlen. rewrite <- Hlen in He.
      discriminate He. }
    destruct (standardize_dtypes_reserved df name (map TStr tokens) He Hcol Hres)
      as [H _].
    + destruct tokens; [congruence | reflexivity].
    + rewrite H. do 2 f_equal. rewrite map_map. reflexivity.
Qed.

End StandardizeShape.

Lemma reserved_column_example :
  columns (Standardize.standardize_dtypes (rt := literal_runtime)
             (mkFrame 2 (<["DOY"%string := map TStr ["060"; "061"]%string]>
                           {[ "CWAD"%string := map TStr ["100"; "200"]%string ]})))
    !! "DOY"%string
  = Some (ObjectS (map TStr ["060"; "061"]%string)).
Proof.
  apply (reserved_column_keeps_strings (rt := literal_runtime) _ "DOY"
           ["060"; "061"]%string); reflexivity.
Defined.

(** ** Output files: absent results and ignored lines *)

Section DssatIOEdges.
Import Standardize DssatIO.

Lemma find_index_none (p : string -> bool) (lines : list string) :
  Forall (fun l => p l = false) lines -> find_index p lines = None.
Proof.
  induction 1 as [|l lines Hl _ IH]; cbn; [reflexivity|].
  rewrite Hl, IH. reflexivity.
Qed.

Lemma process_block_without_header (lines : list string) :
  Forall (fun l => startswith l "@" = false) lines ->
  process_treatment_block lines = None.
Proof.
  intros H. unfold process_treatment_block, process_treatment_block_try.
  rewrite (find_index_none _ lines H). reflexivity.
Qed.

Lemma treatment_blocks_Forall (P : string -> Prop) (lines : list string)
    (indices : list nat) :
  Forall P lines -> Forall (Forall P) (treatment_blocks lines indices).
Proof.
  intros H. induction indices as [|i rest IH]; cbn; constructor; [|exact IH].
  unfold slice_lines. apply Forall_take, Forall_drop, H.
Qed.

Lemma omap_all_None {A B} (f : A -> option B) (l : list A) :
  Forall (fun x => f x = None) l -> omap f l = [].
Proof.
  induction 1 as [|x l Hx _ IH]; cbn; [reflexivity|]. rewrite Hx. exact IH.
Qed.

Lemma process_block_nrows (lines : list string) (df : TextFrame) :
  process_treatment_block lines = Some df -> (0 < nrows df)%nat.
Proof.
  unfold process_treatment_block, process_treatment_block_try.
  destruct (find_index _ lines) as [h|]; [|discriminate].
  destruct (data_rows _) as [|row rows] eqn:Hrows; [discriminate|].
  unfold DataFrame_of_rows.
  destruct (_ =? _)%nat; [|discriminate]. cbn [bind].
  destruct (find is_treatment_line lines) as [t|];
    [destruct (split t !! 1%nat)|];
    intros [= <-]; cbn; lia.
Qed.

Lemma concat_nrows (acc : TextFrame) (frames : list TextFrame) :
  nrows (foldl concat2 acc frames)
  = (nrows acc + foldr Nat.add 0 (map nrows frames))%nat.
Proof.
  revert acc. induction frames as [|f frames IH]; intros acc; cbn.
  - lia.
  - rewrite IH. cbn. lia.
Qed.

Context {rt : Runtime}.

(** The last three steps of [read_file] keep the row count. *)
Lemma finish_nrows (df : TextFrame) :
  nrows (create_DATE (standardize_dtypes (keep_notna_any df))) = nrows df.
Proof.
  destruct (create_DATE_other (standardize_dtypes (keep_notna_any df)) "TRT"
              ltac:(discriminate)) as [_ ->].
  rewrite standardize_dtypes_nrows. reflexivity.
Qed.

(** ** X10.  A file in which no line starts with '@' gives no dataset,
    with or without treatment marker lines. *)
Theorem read_file_without_header (lines : list string) :
  Forall (fun l => startswith l "@" = false) lines ->
  read_file (Some lines) = None.
Proof.
  intros H. unfold read_file. destruct lines as [|l ls] eqn:E; [reflexivity|].
  rewrite <- E in *. clear E l ls.
  destruct (indices_from 0 is_treatment_line lines) as [|i rest].
  - rewrite (process_block_without_header lines H). destruct lines; reflexivity.
  - rewrite omap_all_None; [destruct lines; reflexivity|].
    eapply Forall_impl; [apply (treatment_blocks_Forall _ lines (i :: rest) H)|].
    intros block. apply process_block_without_header.
Qed.

(** ** X11.  A dataset that [read_file] returns has at least one row:
    the function returns no dataset rather than an empty one. *)
Theorem read_file_result_has_rows (file : option (list string)) (df : TypedFrame) :
  read_file file = Some df -> (0 < nrows df)%nat.
Proof.
  unfold read_file. destruct file as [[|l ls]|]; try discriminate.
  set (lines := l :: ls).
  set (data_frames :=
         match indices_from 0 is_treatment_line lines with
         | [] => match process_treatment_block lines with
                 | Some df0 => [df0]
                 | None => []
                 end
         | _ :: _ => omap process_treatment_block
                       (treatment_blocks lines (indices_from 0 is_treatment_line lines))
         end).
  assert (Hpos : Forall (fun f : TextFrame => (0 < nrows f)%nat) data_frames).
  { unfold data_frames.
    destruct (indices_from 0 is_treatment_line lines) as [|i rest].
    - destruct (process_treatment_block lines) as [df0|] eqn:Hp; constructor;
        [eapply process_block_nrows, Hp | constructor].
    - apply Forall_forall. intros f Hf.
      apply list_elem_of_omap in Hf. destruct Hf as (block & _ & Hp).
      eapply process_block_nrows, Hp. }
  change (match data_frames with
          | [] => None
          | _ :: _ => Some (create_DATE (standardize_dtypes
                                           (keep_notna_any (concat data_frames))))
          end = Some df -> (0 < nrows df)%nat).
  destruct data_frames as [|f fs]; [discriminate|].
  intros [= <-]. rewrite finish_nrows. unfold concat. rewrite concat_nrows.
  inversion Hpos; subst. cbn. lia.
Qed.

(** ** X12.  A file without treatment marker lines whose header line is
    followed only by blank lines and lines starting with '*' gives no
    dataset. *)
Theorem read_file_without_data_rows (lines : list string) (h : nat) :
  Forall (fun l => is_treatment_line l = false) lines ->
  find_index (fun l => startswith l "@") lines = Some h ->
  Forall (fun l => is_empty (strip l) = true \/ startswith l "*" = true)
    (drop (h + 1) lines) ->
  read_file (Some lines) = None.
Proof.
  intros Htrt Hh Hrest. unfold read_file.
  destruct lines as [|l ls] eqn:E; [reflexivity|]. rewrite <- E in *. clear E l ls.
  rewrite (indices_from_none _ _ lines Htrt).
  assert (Hp : process_treatment_block lines = None).
  { unfold process_treatment_block, process_treatment_block_try. rewrite Hh.
    replace (data_rows (drop (h + 1) lines)) with (@nil (list string));
      [reflexivity|].
    unfold data_rows. induction Hrest as [|x rest Hx _ IH]; [reflexivity|].
    rewrite filter_cons. destruct (decide _) as [Hd|_]; [|exact IH].
    apply andb_true_iff in Hd. destruct Hd as [H1 H2].
    destruct Hx as [Hx|Hx]; rewrite Hx in *; discriminate. }
  rewrite Hp. destruct lines; reflexivity.
Qed.

(** A blank line and a line starting with '*' is neither a header line nor
    a treatment marker line. *)
Lemma comment_line_kind (c : string) :
  is_empty (strip c) = true \/ startswith c "*" = true ->
  startswith c "@" = false /\ is_treatment_line c = false.
Proof.
  unfold is_treatment_line, startswith, strip.
  intros [Hblank|Hstar].
  - split.
    + destruct c as [|a r]; [reflexivity|]. cbn [String.prefix].
      destruct (ascii_dec "@" a) as [<-|]; [|reflexivity].
      cbn [lstrip rstrip] in Hblank.
      change (char_isspace "@") with false in Hblank. cbv iota in Hblank.
      cbn [rstrip] in Hblank. rewrite andb_false_r in Hblank.
      discriminate Hblank.
    + destruct (rstrip (lstrip c)); [reflexivity | discriminate Hblank].
  - destruct c as [|a r]; [discriminate Hstar|]. cbn [String.prefix] in Hstar.
    destruct (ascii_dec "*" a) as [<-|]; [|discriminate Hstar].
    split; [reflexivity|].
    cbn [lstrip rstrip]. change (char_isspace "*") with false. cbv iota.
    cbn [rstrip]. rewrite andb_false_r. reflexivity.
Qed.

Lemma find_index_app (p : string -> bool) (l1 l2 : list string) :
  find_index p (l1 ++ l2)
  = match find_index p l1 with
    | Some i => Some i
    | None => option_map (fun k => (length l1 + k)%nat) (find_index p l2)
    end.
Proof.
  induction l1 as [|x l1 IH]; cbn.
  - destruct (find_index p l2); reflexivity.
  - destruct (p x); [reflexivity|]. rewrite IH.
    destruct (find_index p l1); [reflexivity|].
    destruct (find_index p l2); reflexivity.
Qed.

Lemma find_index_lt (p : string -> bool) (l : list string) (i : nat) :
  find_index p l = Some i -> (i < length l)%nat.
Proof.
  revert i. induction l as [|x l IH]; cbn; intros i; [discriminate|].
  destruct (p x); [intros [= <-]; lia|].
  destruct (find_index p l) as [k|]; [|discriminate].
  intros [= <-]. specialize (IH k eq_refl). lia.
Qed.

Lemma find_app_skip (p : string -> bool) (l1 l2 : list string) (c : string) :
  p c = false -> find p (l1 ++ c :: l2) = find p (l1 ++ l2).
Proof.
  intros Hc. induction l1 as [|x l1 IH]; cbn; [now rewrite Hc|].
  destruct (p x); [reflexivity | exact IH].
Qed.

Lemma data_rows_app_skip (l1 l2 : list string) (c : string) :
  is_empty (strip c) = true \/ startswith c "*" = true ->
  data_rows (l1 ++ c :: l2) = data_rows (l1 ++ l2).
Proof.
  intros Hc. unfold data_rows. rewrite !filter_app, filter_cons.
  destruct (decide _) as [Hd|_]; [|reflexivity].
  apply andb_true_iff in Hd. destruct Hd as [H1 H2].
  destruct Hc as [Hc|Hc]; rewrite Hc in *; discriminate.
Qed.

(** ** X13.  A blank line, or a line starting with '*', anywhere in a block
    has no effect on what the block parses to. *)
Theorem comment_line_is_ignored (l1 l2 : list string) (c : string) :
  is_empty (strip c) = true \/ startswith c "*" = true ->
  process_treatment_block (l1 ++ c :: l2) = process_treatment_block (l1 ++ l2).
Proof.
  intros Hc. destruct (comment_line_kind c Hc) as [Hhead Htrt].
  unfold process_treatment_block, process_treatment_block_try.
  rewrite (find_app_skip is_treatment_line l1 l2 c Htrt).
  rewrite !find_index_app. cbn [find_index]. rewrite Hhead.
  destruct (find_index _ l1) as [i|] eqn:Hi.
  - pose proof (find_index_lt _ _ _ Hi) as Hlt.
    rewrite !app_nth1 by exact Hlt.
    rewrite !drop_app_le by lia.
    rewrite data_rows_app_skip by exact Hc. reflexivity.
  - destruct (find_index _ l2) as [k|] eqn:Hk; cbn [option_map]; [|reflexivity].
    replace (nth (length l1 + S k) (l1 ++ c :: l2) EmptyString)
      with (nth (length l1 + k) (l1 ++ l2) EmptyString).
    2:{ rewrite !app_nth2 by lia.
        replace (length l1 + S k - length l1)%nat with (S k) by lia.
        replace (length l1 + k - length l1)%nat with k by lia. reflexivity. }
    replace (drop (length l1 + S k + 1) (l1 ++ c :: l2))
      with (drop (length l1 + k + 1) (l1 ++ l2)); [reflexivity|].
    rewrite !drop_app_ge by lia.
    replace (length l1 + S k + 1 - length l1)%nat with (S (k + 1)) by lia.
    replace (length l1 + k + 1 - length l1)%nat with (k + 1)%nat by lia.
    reflexivity.
Qed.

End DssatIOEdges.

Lemma read_file_result_has_rows_example :
  exists df,
    DssatIO.read_file (rt := literal_runtime)
      (Some (map DssatIO.text_line ["@A B"; "1 2"]%string)) = Some df
    /\ (0 < nrows df)%nat.
Proof.
  assert (H : exists df, DssatIO.read_file (rt := literal_runtime)
                (Some (map DssatIO.text_line ["@A B"; "1 2"]%string)) = Some df)
    by (vm_compute; eexists; reflexivity).
  destruct H as [df Hdf]. exists df. split; [exact Hdf|].
  apply (read_file_result_has_rows (rt := literal_runtime) _ df Hdf).
Defined.

Lemma read_file_without_header_example :
  DssatIO.read_file (rt := literal_runtime)
    (Some (map DssatIO.text_line ["TREATMENT 1"; "A B"; "1 2"]%string)) = None.
Proof.
  apply (read_file_without_header (rt := literal_runtime)).
  repeat (constructor; [reflexivity|]). constructor.
Defined.

Lemma read_file_without_data_rows_example :
  DssatIO.read_file (rt := literal_runtime)
    (Some (map DssatIO.text_line ["*GROWTH"; "@A B"; ""; "*END"]%string)) = None.
Proof.
  apply (read_file_without_data_rows (rt := literal_runtime) _ 1).
  - repeat (constructor; [reflexivity|]). constructor.
  - reflexivity.
  - vm_compute. constructor; [left; reflexivity|].
    constructor; [right; reflexivity|]. constructor.
Defined.

Lemma comment_line_example :
  DssatIO.process_treatment_block (map DssatIO.text_line ["@A"; "*note"; "5"]%string)
  = DssatIO.process_treatment_block (map DssatIO.text_line ["@A"; "5"]%string).
Proof.
  apply (comment_line_is_ignored [DssatIO.text_line "@A"] [DssatIO.text_line "5"]
           (DssatIO.text_line "*note")).
  right. reflexivity.
Defined.

(** ** Fixed-width records: treatment files and the code dictionary *)

Section StripFacts.

Lemma lstrip_length (s : string) : (String.length (lstrip s) <= String.length s)%nat.
Proof.
  induction s as [|c s IH]; cbn; [lia|]. destruct (char_isspace c); cbn; lia.
Qed.

Lemma rstrip_length (s : string) : (String.length (rstrip s) <= String.length s)%nat.
Proof.
  induction s as [|c s IH]; cbn; [lia|].
  destruct (is_empty (rstrip s) && char_isspace c)%bool; cbn; lia.
Qed.

Lemma strip_length (s : string) : (String.length (strip s) <= String.length s)%nat.
Proof.
  unfold strip. pose proof (rstrip_length (lstrip s)). pose proof (lstrip_length s). lia.
Qed.

Lemma substring_length_le (i k : nat) (s : string) :
  (String.length (substring i k s) <= k)%nat.
Proof.
  revert i k. induction s as [|c s IH]; intros [|i] [|k]; cbn; try lia.
  - specialize (IH 0%nat k). lia.
  - apply IH.
  - apply IH.
Qed.

Lemma rstrip_idempotent (s : string) : rstrip (rstrip s) = rstrip s.
Proof.
  induction s as [|c s IH]; cbn; [reflexivity|].
  destruct (is_empty (rstrip s) && char_isspace c)%bool eqn:E; [reflexivity|].
  cbn. rewrite IH, E. reflexivity.
Qed.

(** What [lstrip] returns does not start with a space. *)
Lemma lstrip_head (s : string) :
  match lstrip s with
  | EmptyString => True
  | String c _ => char_isspace c = false
  end.
Proof.
  induction s as [|c s IH]; cbn; [exact I|].
  destruct (char_isspace c) eqn:E; [exact IH | exact E].
Qed.

(** Stripping twice is stripping once: a stripped string has no space at
    either end. *)
Lemma strip_idempotent (s : string) : strip (strip s) = strip s.
Proof.
  unfold strip. pose proof (lstrip_head s) as H.
  destruct (lstrip s) as [|c r]; [reflexivity|].
  cbn [rstrip]. rewrite H, andb_false_r.
  cbn [lstrip]. rewrite H. cbn [rstrip].
  rewrite rstrip_idempotent, H, andb_false_r. reflexivity.
Qed.

Lemma strip_slice_length (i j : nat) (s : string) :
  (String.length (strip (slice i j s)) <= j - i)%nat.
Proof.
  pose proof (strip_length (slice i j s)).
  pose proof (substring_length_le i (j - i) s). unfold slice in *. lia.
Qed.

End StripFacts.

Section TreatmentFacts.
Import Treatments.

Lemma find_indexed_none (i : nat) (p : nat -> string -> bool) (lines : list string) :
  (forall k x, lines !! k = Some x -> p (i + k)%nat x = false) ->
  find_indexed i p lines = None.
Proof.
  revert i. induction lines as [|l lines IH]; intros i H; cbn; [reflexivity|].
  pose proof (H 0%nat l eq_refl) as H0. rewrite Nat.add_0_r in H0. rewrite H0.
  apply IH. intros k x Hk. specialize (H (S k) x Hk).
  replace (S i + k)%nat with (i + S k)%nat by lia. exact H.
Qed.

Lemma find_indexed_app (i : nat) (p : nat -> string -> bool) (l1 l2 : list string) :
  find_indexed i p (l1 ++ l2)
  = match find_indexed i p l1 with
    | Some k => Some k
    | None => find_indexed (i + length l1) p l2
    end.
Proof.
  revert i. induction l1 as [|x l1 IH]; intros i; cbn.
  - now rewrite Nat.add_0_r.
  - destruct (p i x); [reflexivity|]. rewrite IH.
    replace (S i + length l1)%nat with (i + S (length l1))%nat by lia. reflexivity.
Qed.

(** ** X14.  A treatment file that cannot be read, or in which no line
    starts with "*TREATMENT", gives no table. *)
Theorem read_treatments_without_section (lines : list string) :
  Forall (fun l => startswith l "*TREATMENT" = false) lines ->
  read_treatments (Some lines) = None /\ read_treatments None = None.
Proof.
  intros H. split; [|reflexivity]. unfold read_treatments.
  rewrite find_indexed_none; [reflexivity|].
  intros k x Hk. rewrite Forall_forall in H. apply H.
  eapply list_elem_of_lookup_2, Hk.
Qed.

(** ** X15.  The table holds one row for each line that starts with a
    space between the first line starting with "*TREATMENT" and the next
    line starting with '*' (or the end of the file): TR is columns 0-2 and
    TNAME columns 9-35 of the line, stripped.  Lines before the section and
    from the next '*' line on contribute nothing. *)
Theorem read_treatments_section (pre sec rest : list string) (hdr : string) :
  Forall (fun l => startswith l "*TREATMENT" = false) pre ->
  startswith hdr "*TREATMENT" = true ->
  Forall (fun l => startswith l "*" = false) sec ->
  match rest with
  | [] => True
  | next :: _ => startswith next "*" = true
  end ->
  let records := filter (fun l => startswith l " " = true) sec in
  read_treatments (Some (pre ++ hdr :: sec ++ rest))
  = Some (mkFrame (length records)
            (<["TR"%string := map (fun l => strip (slice 0 3 l)) records]>
               {[ "TNAME"%string := map (fun l => strip (slice 9 36 l)) records ]})).
Proof.
  intros Hpre Hhdr Hsec Hrest records.
  assert (Hstar : startswith hdr "*" = true).
  { destruct hdr as [|a r]; [discriminate Hhdr|]. unfold startswith in Hhdr |- *.
    cbn [String.prefix] in Hhdr |- *.
    destruct (ascii_dec "*" a); [now destruct r | discriminate]. }
  assert (Hspace : startswith hdr " " = false).
  { destruct hdr as [|a r]; [reflexivity|]. unfold startswith in Hhdr |- *.
    cbn [String.prefix] in Hhdr |- *.
    destruct (ascii_dec "*" a) as [<-|]; [reflexivity|discriminate]. }
  unfold read_treatments.
  (* where the section begins *)
  rewrite find_indexed_app, find_indexed_none.
  2:{ intros k x Hk. rewrite Forall_forall in Hpre. apply Hpre.
      eapply list_elem_of_lookup_2, Hk. }
  cbn [find_indexed]. rewrite Hhdr. cbn [Nat.add].
  (* where it ends *)
  assert (Hend : find_indexed 0
                   (fun i line => startswith line "*" && (length pre <? i)%nat)
                   (pre ++ hdr :: sec ++ rest)
                 = match rest with
                   | [] => None
                   | _ :: _ => Some (length pre + S (length sec))%nat
                   end).
  { rewrite find_indexed_app, find_indexed_none.
    2:{ intros k x Hk. apply lookup_lt_Some in Hk.
        replace (length pre <? 0 + k)%nat with false by (symmetry; apply Nat.ltb_ge; lia). apply andb_false_r. }
    cbn [find_indexed Nat.add].
    replace (length pre <? length pre)%nat with false by (symmetry; apply Nat.ltb_ge; lia). rewrite andb_false_r.
    rewrite find_indexed_app, find_indexed_none.
    2:{ intros k x Hk. rewrite Forall_forall in Hsec. rewrite Hsec; [reflexivity|].
        eapply list_elem_of_lookup_2, Hk. }
    destruct rest as [|next rest']; [reflexivity|]. cbn [find_indexed].
    rewrite Hrest. replace (length pre <? S (length pre) + length sec)%nat with true by (symmetry; apply Nat.ltb_lt; lia).
    cbn [andb]. f_equal. lia. }
  rewrite Hend. clear Hend.
  assert (Hslice : DssatIO.slice_lines (length pre)
                     (default (length (pre ++ hdr :: sec ++ rest))
                        match rest with
                        | [] => None
                        | _ :: _ => Some (length pre + S (length sec))%nat
                        end)
                     (pre ++ hdr :: sec ++ rest)
                   = hdr :: sec).
  { unfold DssatIO.slice_lines. rewrite drop_app_length.
    replace (default _ _ - length pre)%nat with (length (hdr :: sec)).
    - change (hdr :: sec ++ rest) with ((hdr :: sec) ++ rest). apply take_app_length.
    - destruct rest; cbn; rewrite ?length_app; cbn; rewrite ?length_app; cbn; lia. }
  rewrite Hslice. rewrite filter_cons.
  destruct (decide (startswith hdr " " = true)) as [E|_]; [congruence|].
  reflexivity.
Qed.

(** ** X16.  In every table [read_treatments] returns, the TR and TNAME
    columns have as many entries as the table has rows, a treatment number
    has at most 3 characters, a treatment name at most 27, and neither has
    a space at either end. *)
Theorem read_treatments_fields (file : option (list string))
    (df : Frame (list string)) :
  read_treatments file = Some df ->
  exists tr tname,
    columns df !! "TR"%string = Some tr
    /\ columns df !! "TNAME"%string = Some tname
    /\ length tr = nrows df /\ length tname = nrows df
    /\ Forall (fun v => (String.length v <= 3)%nat /\ strip v = v) tr
    /\ Forall (fun v => (String.length v <= 27)%nat /\ strip v = v) tname.
Proof.
  unfold read_treatments. destruct file as [lines|]; [|discriminate].
  destruct (find_indexed 0 _ lines) as [b|]; [|discriminate].
  intros [= <-]. cbn [columns nrows].
  eexists _, _. split; [apply lookup_insert_eq|].
  split; [rewrite lookup_insert_ne by discriminate; apply lookup_singleton_eq|].
  split; [apply length_map|]. split; [apply length_map|].
  split; apply Forall_forall; intros v Hv; apply list_elem_of_fmap in Hv;
    destruct Hv as (l & -> & _); split;
    first [ apply strip_idempotent | apply (strip_slice_length 0 3)
          | apply (strip_slice_length 9 36) ].
Qed.

End TreatmentFacts.

Lemma read_treatments_example :
  Treatments.read_treatments
    (Some (map DssatIO.text_line
             [ "*EXP.DETAILS: UFGA8201MZ"; "*TREATMENTS"; "@N R O C TNAME";
               " 1 1 0 0 RAINFED LOW NITROGEN"; " 2 1 0 0 IRRIGATED";
               "*CULTIVARS"; " 1 MZ IB0035" ]%string))
  = Some (mkFrame 2
            (<["TR"%string := ["1"; "2"]%string]>
               {[ "TNAME"%string := ["RAINFED LOW NITROGEN"; "IRRIGATED"]%string ]})).
Proof.
  apply (read_treatments_section
           [DssatIO.text_line "*EXP.DETAILS: UFGA8201MZ"]
           (map DssatIO.text_line
              ["@N R O C TNAME"; " 1 1 0 0 RAINFED LOW NITROGEN";
               " 2 1 0 0 IRRIGATED"]%string)
           (map DssatIO.text_line ["*CULTIVARS"; " 1 MZ IB0035"]%string)
           (DssatIO.text_line "*TREATMENTS")).
  - repeat (constructor; [reflexivity|]). constructor.
  - reflexivity.
  - repeat (constructor; [reflexivity|]). constructor.
  - reflexivity.
Defined.

Lemma read_treatments_without_section_example :
  Treatments.read_treatments
    (Some (map DssatIO.text_line ["*EXP.DETAILS: X"; " 1 1 0 0 A"]%string)) = None.
Proof.
  apply (proj1 (read_treatments_without_section _
                  ltac:(repeat (constructor; [reflexivity|]); constructor))).
Defined.

Lemma read_treatments_fields_example :
  exists tr,
    columns (mkFrame 1 (<["TR"%string := ["1"]%string]>
                          {[ "TNAME"%string := ["A"]%string ]})) !! "TR"%string
    = Some tr
    /\ Forall (fun v => (String.length v <= 3)%nat /\ strip v = v) tr.
Proof.
  destruct (read_treatments_fields
              (Some (map DssatIO.text_line ["*TREATMENTS"; " 1 1 0 0 A"]%string))
              (mkFrame 1 (<["TR"%string := ["1"]%string]>
                            {[ "TNAME"%string := ["A"]%string ]})))
    as (tr & tname & Htr & _ & _ & _ & Hf & _).
  - vm_compute. reflexivity.
  - exists tr. split; [exact Htr | exact Hf].
Defined.

(** ** The code dictionary: [parse_data_cde], [get_variable_info] *)

Section CodeDictionary.
Import Evaluate.

Lemma startswith_char (s : string) (a : ascii) :
  startswith s (String a EmptyString) = true <-> exists r, s = String a r.
Proof.
  unfold startswith. destruct s as [|c r]; cbn [String.prefix].
  - split; [discriminate | intros [r' H]; discriminate H].
  - destruct (ascii_dec a c) as [->|Hne].
    + split; [intros _; now exists r | intros _; now destruct r].
    + split; [discriminate | intros [r' [= E _]]; congruence].
Qed.

Lemma startswith_other_char (s : string) (a b : ascii) :
  a <> b ->
  startswith s (String a EmptyString) = true ->
  startswith s (String b EmptyString) = false.
Proof.
  intros Hne Ha. apply startswith_char in Ha. destruct Ha as [r ->].
  destruct (startswith (String a r) (String b "")) eqn:E; [|reflexivity].
  apply startswith_char in E. destruct E as [r' [= E _]]. congruence.
Qed.

Lemma strip_empty_lstrip (s : string) : strip s = EmptyString <-> lstrip s = EmptyString.
Proof.
  unfold strip. pose proof (lstrip_head s) as H.
  destruct (lstrip s) as [|c r]; [tauto|].
  cbn [rstrip]. rewrite H, andb_false_r. split; discriminate.
Qed.

Lemma lstrip_substring_empty (s : string) (i k : nat) :
  lstrip s = EmptyString -> lstrip (substring i k s) = EmptyString.
Proof.
  revert i k. induction s as [|c s IH]; intros i k H.
  - destruct i, k; reflexivity.
  - cbn [lstrip] in H. destruct (char_isspace c) eqn:E; [|discriminate].
    destruct i as [|i]; destruct k as [|k]; cbn [substring lstrip];
      rewrite ?E; auto.
Qed.

(** A line with a code in its first six columns is not blank. *)
Lemma code_line_not_blank (line : string) (i j : nat) :
  strip (slice i j line) <> EmptyString ->
  (String.length (strip line) =? 0)%nat = false.
Proof.
  intros H. apply Nat.eqb_neq. intros Hlen. apply H.
  apply strip_empty_lstrip. apply lstrip_substring_empty.
  apply strip_empty_lstrip. destruct (strip line); [reflexivity | discriminate].
Qed.

(** The lines the parser looks at, and what it does with one of them. *)
Local Abbreviation data_line :=
  (fun line : string => negb (startswith line "!" || startswith line "*") = true).

Local Abbreviation record_line :=
  (fun (variable_info : gmap string VariableInfo) (line : string) =>
     if (String.length (strip line) =? 0)%nat then variable_info
     else
       let cde := strip (slice 0 6 line) in
       let label := strip (slice 7 20 line) in
       let description :=
         if (21 <? String.length line)%nat
         then strip (slice 21 70 line) else EmptyString in
       if negb (is_empty cde)
       then <[cde := mkInfo label description]> variable_info
       else variable_info).

Lemma record_lines_invariant (P : string -> VariableInfo -> Prop)
    (lines : list string) (d : gmap string VariableInfo) :
  (forall line,
     strip (slice 0 6 line) <> EmptyString ->
     P (strip (slice 0 6 line))
       (mkInfo (strip (slice 7 20 line))
          (if (21 <? String.length line)%nat
           then strip (slice 21 70 line) else EmptyString))) ->
  (forall cde info, d !! cde = Some info -> P cde info) ->
  forall cde info, foldl record_line d lines !! cde = Some info -> P cde info.
Proof.
  intros Hline. revert d. induction lines as [|l lines IH]; intros d Hd; [exact Hd|].
  cbn [foldl]. apply IH. clear IH.
  destruct (String.length (strip l) =? 0)%nat; [exact Hd|].
  cbv zeta. destruct (strip (slice 0 6 l)) as [|c r] eqn:E; [exact Hd|].
  cbn [is_empty negb]. intros cde info.
  destruct (decide (cde = String c r)) as [->|Hne].
  - rewrite lookup_insert_eq. intros [= <-]. rewrite <- E. apply Hline.
    rewrite E. discriminate.
  - rewrite lookup_insert_ne by congruence. apply Hd.
Qed.

(** ** X17.  Every code of the dictionary is non-empty, has at most 6
    characters and no space at either end; its label has at most 13
    characters and its description at most 49, both stripped. *)
Theorem data_cde_entries_bounded (file : option (list string))
    (cde : string) (info : VariableInfo) :
  parse_data_cde file !! cde = Some info ->
  cde <> EmptyString
  /\ (String.length cde <= 6)%nat /\ strip cde = cde
  /\ (String.length (label info) <= 13)%nat /\ strip (label info) = label info
  /\ (String.length (description info) <= 49)%nat
  /\ strip (description info) = description info.
Proof.
  unfold parse_data_cde. destruct file as [lines|]; [|now rewrite lookup_empty].
  destruct (DssatIO.find_index _ _) as [header_index|]; [|now rewrite lookup_empty].
  revert cde info. apply record_lines_invariant.
  - intros line Hcde. cbn [label description].
    split; [exact Hcde|].
    split; [apply (strip_slice_length 0 6)|].
    split; [apply strip_idempotent|].
    split; [apply (strip_slice_length 7 20)|].
    split; [apply strip_idempotent|].
    destruct (21 <? String.length line)%nat.
    + split; [apply (strip_slice_length 21 70) | apply strip_idempotent].
    + split; [cbn; lia | reflexivity].
  - intros cde info H. now rewrite lookup_empty in H.
Qed.

(** ** X18.  A DATA.CDE file that cannot be read, or that has no line
    starting with '@', gives the empty dictionary, so no variable has a
    label. *)
Theorem data_cde_without_header (lines : list string) (variable_name : string) :
  Forall (fun l => startswith l "@" = false) lines ->
  parse_data_cde (Some lines) = ∅
  /\ parse_data_cde None = ∅
  /\ get_variable_label (Some lines) variable_name = None
  /\ get_variable_label None variable_name = None.
Proof.
  intros H.
  assert (E : parse_data_cde (Some lines) = ∅).
  { unfold parse_data_cde. rewrite find_index_none; [reflexivity|].
    apply Forall_forall. intros l Hl. apply list_elem_of_filter in Hl.
    rewrite Forall_forall in H. apply H, Hl. }
  unfold get_variable_label. rewrite E. cbn [parse_data_cde].
  rewrite lookup_empty. repeat split.
Qed.

Lemma record_lines_other_codes (cde : string) (lines : list string)
    (d : gmap string VariableInfo) :
  Forall (fun l => strip (slice 0 6 l) <> cde) lines ->
  foldl record_line d lines !! cde = d !! cde.
Proof.
  intros H. revert d. induction H as [|l lines Hl _ IH]; intros d; [reflexivity|].
  cbn [foldl]. rewrite IH.
  destruct (String.length (strip l) =? 0)%nat; [reflexivity|].
  cbv zeta. destruct (negb (is_empty (strip (slice 0 6 l)))); [|reflexivity].
  apply lookup_insert_ne. exact Hl.
Qed.

(** ** X19.  The dictionary gives a code the fields of the last line after
    the header that carries it: the label is columns 7-19 and the
    description columns 21-69 of that line, stripped; the description is
    empty when the line has at most 21 characters. *)
Theorem data_cde_last_entry_wins (pre body post : list string) (hdr x : string) :
  Forall (fun l => startswith l "@" = false) pre ->
  startswith hdr "@" = true ->
  startswith x "!" = false -> startswith x "*" = false ->
  strip (slice 0 6 x) <> EmptyString ->
  Forall (fun l => strip (slice 0 6 l) <> strip (slice 0 6 x)) post ->
  parse_data_cde (Some (pre ++ hdr :: body ++ x :: post)) !! strip (slice 0 6 x)
  = Some (mkInfo (strip (slice 7 20 x))
            (if (21 <? String.length x)%nat
             then strip (slice 21 70 x) else EmptyString)).
Proof.
  intros Hpre Hhdr Hx1 Hx2 Hcde Hpost. unfold parse_data_cde.
  rewrite filter_app, filter_cons_True.
  2:{ rewrite (startswith_other_char hdr "@" "!") by (discriminate || exact Hhdr).
      rewrite (startswith_other_char hdr "@" "*") by (discriminate || exact Hhdr).
      reflexivity. }
  rewrite filter_app, (filter_cons_True _ x) by (rewrite Hx1, Hx2; reflexivity).
  rewrite find_index_app, find_index_none.
  2:{ apply Forall_forall. intros l Hl. apply list_elem_of_filter in Hl.
      rewrite Forall_forall in Hpre. apply Hpre, Hl. }
  cbn [DssatIO.find_index]. rewrite Hhdr. cbn [option_map].
  rewrite Nat.add_0_r.
  replace (length (filter data_line pre) + 1)%nat
    with (length (filter data_line pre ++ [hdr])) by (rewrite length_app; reflexivity).
  assert (Hdrop : forall (l1 l2 : list string) (h : string),
             drop (length (l1 ++ [h])) (l1 ++ h :: l2) = l2).
  { intros l1 l2 h. rewrite (cons_middle h l1 l2), app_assoc. apply drop_app_length. }
  rewrite Hdrop. clear Hdrop.
  rewrite foldl_app. cbn [foldl].
  rewrite record_lines_other_codes.
  2:{ apply Forall_forall. intros l Hl. apply list_elem_of_filter in Hl.
      rewrite Forall_forall in Hpost. apply Hpost, Hl. }
  rewrite (code_line_not_blank x 0 6 Hcde). cbv zeta.
  destruct (strip (slice 0 6 x)) as [|c r] eqn:E; [congruence|].
  cbn [is_empty negb]. apply lookup_insert_eq.
Qed.

End CodeDictionary.

Lemma data_cde_entries_example :
  let file :=
    Some (map DssatIO.text_line
            ["@CDE    LABEL         DESCRIPTION";
             "CWAD   Tops wt kg/ha Tops weight (kg [dm]/ha)"]%string) in
  let info := Evaluate.mkInfo "Tops wt kg/ha" "Tops weight (kg [dm]/ha)" in
  Evaluate.parse_data_cde file !! "CWAD"%string = Some info
  /\ (String.length "CWAD" <= 6)%nat
  /\ (String.length (Evaluate.label info) <= 13)%nat
  /\ (String.length (Evaluate.description info) <= 49)%nat.
Proof.
  intros file info.
  assert (H : Evaluate.parse_data_cde file !! "CWAD"%string = Some info)
    by (vm_compute; reflexivity).
  split; [exact H|].
  destruct (data_cde_entries_bounded file "CWAD" info H)
    as (_ & H1 & _ & H2 & _ & H3 & _).
  split; [exact H1 | split; [exact H2 | exact H3]].
Defined.

Lemma data_cde_without_header_example :
  Evaluate.get_variable_label
    (Some (map DssatIO.text_line
             ["*DATA CODES"; "CWAD   Tops wt kg/ha Tops weight"]%string)) "CWAD"
  = None.
Proof.
  apply (data_cde_without_header
           (map DssatIO.text_line
              ["*DATA CODES"; "CWAD   Tops wt kg/ha Tops weight"]%string) "CWAD").
  repeat (constructor; [reflexivity|]). constructor.
Defined.

Lemma data_cde_last_entry_example :
  Evaluate.parse_data_cde
    (Some (map DssatIO.text_line
             ["*DATA CODES"; "@CDE    LABEL         DESCRIPTION";
              "CWAD   Old label     Old description";
              "CWAD   Tops wt kg/ha Tops weight";
              "LAID   LAI           Leaf area index"]%string))
    !! "CWAD"%string
  = Some (Evaluate.mkInfo "Tops wt kg/ha" "Tops weight").
Proof.
  apply (data_cde_last_entry_wins
           [DssatIO.text_line "*DATA CODES"]
           [DssatIO.text_line "CWAD   Old label     Old description"]
           [DssatIO.text_line "LAID   LAI           Leaf area index"]
           (DssatIO.text_line "@CDE    LABEL         DESCRIPTION")
           (DssatIO.text_line "CWAD   Tops wt kg/ha Tops weight")).
  - repeat (constructor; [reflexivity|]). constructor.
  - reflexivity.
  - reflexivity.
  - reflexivity.
  - vm_compute. discriminate.
  - repeat (constructor; [vm_compute; discriminate|]). constructor.
Defined.

(** ** EVALUATE.OUT variables: [get_evaluate_variable_pairs],
    [get_all_evaluate_variables] *)

Section TupleOrder.

Lemma ascii_compare_lt_trans (a b c : ascii) :
  Ascii.compare a b = Lt -> Ascii.compare b c = Lt -> Ascii.compare a c = Lt.
Proof.
  unfold Ascii.compare. rewrite !N.compare_lt_iff. lia.
Qed.

Lemma ascii_compare_refl (a : ascii) : Ascii.compare a a = Eq.
Proof. unfold Ascii.compare. apply N.compare_refl. Qed.

Lemma string_compare_refl (a : string) : String.compare a a = Eq.
Proof.
  pose proof (String.compare_antisym a a) as H.
  destruct (String.compare a a); [reflexivity | discriminate H | discriminate H].
Qed.

Lemma string_compare_lt_trans (a b c : string) :
  String.compare a b = Lt -> String.compare b c = Lt -> String.compare a c = Lt.
Proof.
  revert b c. induction a as [|x a IH]; intros [|y b] [|z c]; cbn;
    try discriminate; try reflexivity.
  destruct (Ascii.compare x y) eqn:Exy; try discriminate;
    destruct (Ascii.compare y z) eqn:Eyz; try discriminate.
  - apply Ascii.compare_eq_iff in Exy, Eyz. subst.
    rewrite ascii_compare_refl. apply IH.
  - apply Ascii.compare_eq_iff in Exy. subst. now rewrite Eyz.
  - apply Ascii.compare_eq_iff in Eyz. subst. now rewrite Exy.
  - now rewrite (ascii_compare_lt_trans x y z Exy Eyz).
Qed.

(** Lexicographic comparison, one component after the other. *)
Lemma lex_trans (x y z : string) (k1 k2 k3 : comparison) :
  (k1 <> Gt -> k2 <> Gt -> k3 <> Gt) ->
  match String.compare x y with Eq => k1 | c => c end <> Gt ->
  match String.compare y z with Eq => k2 | c => c end <> Gt ->
  match String.compare x z with Eq => k3 | c => c end <> Gt.
Proof.
  intros Hk.
  destruct (String.compare x y) eqn:Exy; [| |congruence];
    destruct (String.compare y z) eqn:Eyz; try congruence.
  - apply String.compare_eq_iff in Exy, Eyz. subst.
    rewrite string_compare_refl. exact Hk.
  - apply String.compare_eq_iff in Exy. subst. rewrite Eyz. congruence.
  - apply String.compare_eq_iff in Eyz. subst. rewrite Exy. congruence.
  - rewrite (string_compare_lt_trans x y z Exy Eyz). congruence.
Qed.

Lemma lex_total (x y : string) (k1 k2 : comparison) :
  (k1 <> Gt \/ k2 <> Gt) ->
  match String.compare x y with Eq => k1 | c => c end <> Gt
  \/ match String.compare y x with Eq => k2 | c => c end <> Gt.
Proof.
  intros Hk. rewrite (String.compare_antisym x y).
  destruct (String.compare y x); cbn [CompOpp];
    [exact Hk | right; discriminate | left; discriminate].
Qed.

Lemma string_le_trans (x y z : string) :
  String.compare x y <> Gt -> String.compare y z <> Gt -> String.compare x z <> Gt.
Proof.
  intros Hxy Hyz.
  destruct (String.compare x y) eqn:Exy; [| |congruence];
    destruct (String.compare y z) eqn:Eyz; try congruence.
  - apply String.compare_eq_iff in Exy, Eyz. subst.
    rewrite string_compare_refl. discriminate.
  - apply String.compare_eq_iff in Exy. subst. rewrite Eyz. discriminate.
  - apply String.compare_eq_iff in Eyz. subst. rewrite Exy. discriminate.
  - rewrite (string_compare_lt_trans x y z Exy Eyz). discriminate.
Qed.

Lemma string_le_total (x y : string) :
  String.compare x y <> Gt \/ String.compare y x <> Gt.
Proof.
  rewrite (String.compare_antisym x y).
  destruct (String.compare y x); cbn [CompOpp];
    [left; discriminate | right; discriminate | left; discriminate].
Qed.

Lemma triple_le_trans : Transitive Evaluate.triple_le.
Proof.
  intros a b c. unfold Evaluate.triple_le, Evaluate.triple_compare.
  apply lex_trans. apply lex_trans. apply string_le_trans.
Qed.

Lemma triple_le_total : Total Evaluate.triple_le.
Proof.
  intros a b. unfold Evaluate.triple_le, Evaluate.triple_compare.
  apply lex_total, lex_total, string_le_total.
Qed.

Lemma pair_le_trans : Transitive EvaluateAll.pair_le.
Proof.
  intros a b c. unfold EvaluateAll.pair_le, EvaluateAll.pair_compare.
  apply lex_trans. apply string_le_trans.
Qed.

Lemma pair_le_total : Total EvaluateAll.pair_le.
Proof.
  intros a b. unfold EvaluateAll.pair_le, EvaluateAll.pair_compare.
  apply lex_total, string_le_total.
Qed.

End TupleOrder.

Section EvaluateVariables.
Import Evaluate EvaluateAll.

Lemma forallb_false_elem {A} (f : A -> bool) (l : list A) :
  forallb f l = false <-> exists x, x ∈ l /\ f x = false.
Proof.
  induction l as [|y l IH]; cbn.
  - split; [discriminate | intros (x & Hx & _); inversion Hx].
  - destruct (f y) eqn:E; cbn.
    + rewrite IH. split; intros (x & Hx & Hf).
      * exists x. split; [now right | exact Hf].
      * inversion Hx; subst; [congruence | now exists x].
    + split; [intros _; exists y; split; [left | exact E] | reflexivity].
Qed.

Lemma valid_rows_elem (sim meas : list cell) (a b : cell) :
  (a, b) ∈ valid_rows sim meas
  <-> exists i, sim !! i = Some a /\ meas !! i = Some b
                /\ isna a = false /\ isna b = false.
Proof.
  unfold valid_rows. rewrite list_elem_of_filter.
  rewrite elem_of_lookup_zip_with. cbn [fst snd]. split.
  - intros (Hna & i & x & y & [= -> ->] & Hx & Hy).
    apply andb_true_iff in Hna. destruct Hna as [Ha Hb].
    exists i. destruct (isna x), (isna y); try discriminate. auto.
  - intros (i & Ha & Hb & Hna & Hnb). rewrite Hna, Hnb. split; [reflexivity|].
    now exists i, a, b.
Qed.

(** When the loop appends a tuple for a column, and which one. *)
Lemma pair_for_spec (data_cde : option (list string)) (data : DataFrame)
    (col name s m : string) :
  pair_for data_cde data col = Some (name, s, m)
  <-> s = col
      /\ (s ∉ metadata_columns)
      /\ endswith_char s "S" = true
      /\ m = (drop_last s ++ "M")%string
      /\ name = match get_variable_label data_cde (drop_last s) with
                | Some var_label =>
                    if is_empty var_label then drop_last s else var_label
                | None => drop_last s
                end
      /\ exists sim meas,
           columns data !! s = Some sim /\ columns data !! m = Some meas
           /\ exists i a b,
                sim !! i = Some a /\ meas !! i = Some b
                /\ isna a = false /\ isna b = false /\ cell_eqb a b = false.
Proof.
  unfold pair_for. split.
  - case_bool_decide as Hmeta; [discriminate|].
    destruct (endswith_char col "S") eqn:Hends; [|discriminate].
    cbv zeta.
    destruct (columns data !! col) as [sim|] eqn:Hsim; [|discriminate].
    destruct (columns data !! (drop_last col ++ "M")%string) as [meas|] eqn:Hmeas;
      [|discriminate].
    destruct (forallb isna sim || forallb isna meas)%bool; [discriminate|].
    destruct (valid_rows sim meas) as [|p rest] eqn:Hvalid; [discriminate|].
    destruct (forallb _ (p :: rest)) eqn:Hall; [discriminate|].
    intros [= <- <- <-].
    split; [reflexivity|]. split; [exact Hmeta|]. split; [exact Hends|].
    split; [reflexivity|]. split; [reflexivity|].
    exists sim, meas. split; [exact Hsim|]. split; [exact Hmeas|].
    apply forallb_false_elem in Hall. destruct Hall as ([a b] & Hin & Hne).
    rewrite <- Hvalid in Hin. apply valid_rows_elem in Hin.
    destruct Hin as (i & Ha & Hb & Hna & Hnb).
    exists i, a, b. auto.
  - intros (-> & Hmeta & Hends & -> & -> & sim & meas & Hsim & Hmeas
            & i & a & b & Ha & Hb & Hna & Hnb & Hne).
    rewrite bool_decide_eq_false_2 by exact Hmeta. rewrite Hends. cbv zeta.
    rewrite Hsim, Hmeas.
    assert (Hs : forallb isna sim = false).
    { apply forallb_false_elem. exists a. split; [|exact Hna].
      eapply list_elem_of_lookup_2, Ha. }
    assert (Hm : forallb isna meas = false).
    { apply forallb_false_elem. exists b. split; [|exact Hnb].
      eapply list_elem_of_lookup_2, Hb. }
    rewrite Hs, Hm. cbn [orb].
    assert (Hin : (a, b) ∈ valid_rows sim meas)
      by (apply valid_rows_elem; exists i; auto).
    assert (Hall : forallb (fun p => cell_eqb (fst p) (snd p)) (valid_rows sim meas)
                   = false).
    { apply forallb_false_elem. exists (a, b). split; [exact Hin | exact Hne]. }
    destruct (valid_rows sim meas) as [|p rest]; [inversion Hin|].
    rewrite Hall. reflexivity.
Qed.

Lemma variable_for_spec (data_cde : option (list string)) (data : DataFrame)
    (col name c : string) :
  variable_for data_cde data col = Some (name, c)
  <-> c = col
      /\ (c ∉ metadata_columns)
      /\ name = match get_variable_label data_cde c with
                | Some var_label => if is_empty var_label then c else var_label
                | None => c
                end
      /\ exists v x, columns data !! c = Some v /\ x ∈ v /\ isna x = false.
Proof.
  unfold variable_for. split.
  - case_bool_decide as Hmeta; [discriminate|].
    destruct (columns data !! col) as [v|] eqn:Hv; [|discriminate].
    destruct (forallb isna v) eqn:Hall; [discriminate|]. cbn [negb].
    intros [= <- <-]. split; [reflexivity|]. split; [exact Hmeta|].
    split; [reflexivity|].
    apply forallb_false_elem in Hall. destruct Hall as (x & Hx & Hna).
    now exists v, x.
  - intros (-> & Hmeta & -> & v & x & Hv & Hx & Hna).
    rewrite bool_decide_eq_false_2 by exact Hmeta. rewrite Hv.
    assert (Hall : forallb isna v = false)
      by (apply forallb_false_elem; now exists x).
    rewrite Hall. reflexivity.
Qed.

Lemma omap_columns_elem {A B} (f : string -> option B) (m : gmap string A) (t : B) :
  t ∈ omap f (elements (dom m)) <-> exists col, is_Some (m !! col) /\ f col = Some t.
Proof.
  rewrite list_elem_of_omap. split; intros (col & H1 & H2); exists col;
    (split; [|exact H2]).
  - apply elem_of_elements, elem_of_dom in H1. exact H1.
  - apply elem_of_elements, elem_of_dom. exact H1.
Qed.

Lemma NoDup_fmap_omap {A B} (f : A -> option B) (g : B -> A) (l : list A) :
  (forall x t, f x = Some t -> g t = x) ->
  NoDup l -> NoDup (g <$> omap f l).
Proof.
  intros Hg. induction 1 as [|x l Hx Hl IH]; cbn; [constructor|].
  destruct (f x) as [t|] eqn:E; [|exact IH].
  cbn. constructor; [|exact IH].
  intros Hin. apply list_elem_of_fmap in Hin. destruct Hin as (t' & Ht' & Hin).
  apply list_elem_of_omap in Hin. destruct Hin as (y & Hy & Hfy).
  apply Hg in E, Hfy. subst. rewrite Ht' in Hx. exact (Hx Hy).
Qed.

(** ** X20.  [get_evaluate_variable_pairs] lists exactly the columns that
    end in 'S', are not one of RUN, EXCODE, TRNO, RN, CR, have the column
    with 'M' in place of the final 'S' beside them, and have a row where
    both values are present and differ.  The display name is the DATA.CDE
    label of the name without its 'S', or that name when there is no label
    or the label is empty. *)
Theorem evaluate_pairs_listed (data_cde : option (list string)) (data : DataFrame)
    (name s m : string) :
  (name, s, m) ∈ get_evaluate_variable_pairs data_cde data
  <-> (s ∉ metadata_columns)
      /\ endswith_char s "S" = true
      /\ m = (drop_last s ++ "M")%string
      /\ name = match get_variable_label data_cde (drop_last s) with
                | Some var_label =>
                    if is_empty var_label then drop_last s else var_label
                | None => drop_last s
                end
      /\ exists sim meas,
           columns data !! s = Some sim /\ columns data !! m = Some meas
           /\ exists i a b,
                sim !! i = Some a /\ meas !! i = Some b
                /\ isna a = false /\ isna b = false /\ cell_eqb a b = false.
Proof.
  unfold get_evaluate_variable_pairs.
  rewrite merge_sort_Permutation, omap_columns_elem. split.
  - intros (col & _ & H). apply pair_for_spec in H.
    destruct H as (_ & H). exact H.
  - intros H. exists s. split.
    + destruct H as (_ & _ & _ & _ & sim & _ & Hsim & _). now exists sim.
    + apply pair_for_spec. split; [reflexivity | exact H].
Qed.

(** ** X21.  [get_all_evaluate_variables] lists exactly the columns other
    than RUN, EXCODE, TRNO, RN, CR that have a value that is not missing,
    each under its DATA.CDE label, or under its own name when there is no
    label or the label is empty. *)
Theorem evaluate_variables_listed (data_cde : option (list string))
    (data : DataFrame) (name col : string) :
  (name, col) ∈ get_all_evaluate_variables data_cde data
  <-> (col ∉ metadata_columns)
      /\ name = match get_variable_label data_cde col with
                | Some var_label => if is_empty var_label then col else var_label
                | None => col
                end
      /\ exists v x, columns data !! col = Some v /\ x ∈ v /\ isna x = false.
Proof.
  unfold get_all_evaluate_variables.
  rewrite merge_sort_Permutation, omap_columns_elem. split.
  - intros (c & _ & H). apply variable_for_spec in H.
    destruct H as (_ & H). exact H.
  - intros H. exists col. split.
    + destruct H as (_ & _ & v & _ & Hv & _). now exists v.
    + apply variable_for_spec. split; [reflexivity | exact H].
Qed.

(** ** X22.  Both lists come out in ascending order of their tuples (every
    tuple is at most every later one, component by component), and no
    column is listed twice. *)
Theorem evaluate_lists_sorted (data_cde : option (list string)) (data : DataFrame) :
  StronglySorted triple_le (get_evaluate_variable_pairs data_cde data)
  /\ NoDup ((fun t => snd (fst t)) <$> get_evaluate_variable_pairs data_cde data)
  /\ StronglySorted pair_le (get_all_evaluate_variables data_cde data)
  /\ NoDup (snd <$> get_all_evaluate_variables data_cde data).
Proof.
  unfold get_evaluate_variable_pairs, get_all_evaluate_variables.
  split; [apply (@StronglySorted_merge_sort _ _ _ triple_le_trans triple_le_total)|].
  split.
  { rewrite merge_sort_Permutation. apply NoDup_fmap_omap; [|apply NoDup_elements].
    intros x [[name s] m] H. apply pair_for_spec in H. exact (proj1 H). }
  split; [apply (@StronglySorted_merge_sort _ _ _ pair_le_trans pair_le_total)|].
  rewrite merge_sort_Permutation. apply NoDup_fmap_omap; [|apply NoDup_elements].
  intros x [name c] H. apply variable_for_spec in H. exact (proj1 H).
Qed.

End EvaluateVariables.

(** ** The X variable of the observed data: [handle_missing_xvar] *)

Section XVarEdges.
Import XVar.
Context {rt : Runtime}.

(** What a call that returns gives back: a frame with the rows of [d],
    all its columns, and the same content in each apart from [x_var]. *)
Local Abbreviation keeps_frame :=
  (fun (d : DataFrame) (x_var : string) (r : outcome (option DataFrame)) =>
     forall df, r = Return (Some df) ->
       nrows df = nrows d
       /\ (forall col, col <> x_var -> columns df !! col = columns d !! col)
       /\ (forall col, has_column col d = true -> has_column col df = true)).

(** The last two statements of the function: the sequence, and the fill. *)
Local Abbreviation finish :=
  (fun (x_var : string) (d : DataFrame) =>
     let obs_data :=
       if negb (has_column x_var d)
       then set_column x_var (range (nrows d)) d
       else d in
     let* v := getitem obs_data x_var in
     Return (Some (set_column x_var (ffill v) obs_data))).

Lemma has_column_set (col : string) (v : list cell) (d : DataFrame) :
  has_column col (set_column col v d) = true.
Proof. unfold has_column, set_column. cbn. now rewrite lookup_insert_eq. Qed.

Lemma getitem_set (col : string) (v : list cell) (d : DataFrame) :
  getitem (set_column col v d) col = Return v.
Proof. unfold getitem, set_column. cbn. now rewrite lookup_insert_eq. Qed.

Lemma getitem_has (col : string) (d : DataFrame) :
  has_column col d = true -> exists v, columns d !! col = Some v /\ getitem d col = Return v.
Proof.
  unfold has_column, getitem. destruct (columns d !! col) as [v|]; [|discriminate].
  intros _. now exists v.
Qed.

Lemma getitem_missing (col : string) (d : DataFrame) :
  has_column col d = false -> getitem d col = Raise KeyError.
Proof.
  unfold has_column, getitem. destruct (columns d !! col); [discriminate|reflexivity].
Qed.

(** After an assignment to [x_var], the end of the function fills it. *)
Lemma finish_set (x_var : string) (v : list cell) (d : DataFrame) :
  finish x_var (set_column x_var v d)
  = Return (Some (set_column x_var (ffill v) (set_column x_var v d))).
Proof.
  cbv beta zeta. rewrite has_column_set. cbn [negb]. rewrite getitem_set. reflexivity.
Qed.

(** Without one, it creates the sequence first. *)
Lemma finish_sequence (x_var : string) (d : DataFrame) :
  has_column x_var d = false ->
  finish x_var d
  = Return (Some (set_column x_var (ffill (range (nrows d)))
                    (set_column x_var (range (nrows d)) d))).
Proof.
  intros H. cbv beta zeta. rewrite H. cbn [negb]. rewrite getitem_set. reflexivity.
Qed.

Lemma set_column_twice (col : string) (v w : list cell) (d : DataFrame) :
  set_column col w (set_column col v d) = set_column col w d.
Proof. unfold set_column. cbn. now rewrite insert_insert_eq. Qed.

Lemma keeps_frame_set (d : DataFrame) (x_var : string) (v : list cell) :
  keeps_frame d x_var (Return (Some (set_column x_var v d))).
Proof.
  intros df [= <-]. cbn [set_column nrows columns]. split; [reflexivity|]. split.
  - intros col Hcol. apply lookup_insert_ne. congruence.
  - intros col Hcol. unfold has_column, set_column in Hcol |- *. cbn [columns].
    destruct (decide (col = x_var)) as [->|Hne].
    + now rewrite lookup_insert_eq.
    + rewrite lookup_insert_ne by congruence. exact Hcol.
Qed.

Lemma keeps_frame_same (d : DataFrame) (x_var : string) :
  keeps_frame d x_var (Return (Some d)).
Proof. intros df [= <-]. auto. Qed.

Lemma resolve_xvar_keeps_frame (d : DataFrame) (x_var : string)
    (sim : option DataFrame) :
  keeps_frame d x_var (resolve_xvar d x_var sim).
Proof.
  unfold resolve_xvar.
  destruct (has_column x_var d) eqn:Hx; [apply keeps_frame_same|].
  assert (Hseq : keeps_frame d x_var (finish x_var d)).
  { rewrite (finish_sequence x_var d Hx), set_column_twice. apply keeps_frame_set. }
  cbv beta zeta in Hseq. rewrite Hx in Hseq.
  assert (Hset : forall v, keeps_frame d x_var (finish x_var (set_column x_var v d))).
  { intros v. rewrite finish_set, set_column_twice. apply keeps_frame_set. }
  case_bool_decide as Hspecial.
  - destruct (has_column "DATE" d) eqn:Hd; [|apply keeps_frame_same].
    destruct (getitem_has "DATE" d Hd) as (obs_dates & _ & ->). cbn [bind].
    destruct (String.eqb (upper x_var) "DOY"); [apply Hset|].
    destruct sim as [s|]; cbn [bind]; [|apply Hset].
    destruct (getitem s "DATE") as [sim_dates|e]; cbn [bind]; [apply Hset|].
    intros df Hdf. discriminate Hdf.
  - destruct sim as [s|]; [|exact Hseq].
    destruct (negb (empty s)); [|exact Hseq].
    destruct (has_column "DATE" s) eqn:Hsd; [|exact Hseq].
    destruct (getitem_has "DATE" s Hsd) as (sim_col & _ & ->). cbn [bind].
    destruct (getitem d "DATE") as [obs_col|e]; cbn [bind];
      [|intros df Hdf; discriminate Hdf].
    destruct (getitem s x_var) as [sim_x|e]; cbn [bind]; [apply Hset|].
    intros df Hdf. discriminate Hdf.
Qed.

(** ** X23.  Whatever the X variable, the dataset a call on observed data
    returns has the same number of rows, every column the observed data had,
    and every column other than the X variable and DATE as it was. *)
Theorem xvar_keeps_rows_and_columns (obs : DataFrame) (x_var : string)
    (sim : option DataFrame) (df : DataFrame) :
  fst (handle_missing_xvar (Some obs) x_var sim) = Return (Some df) ->
  nrows df = nrows obs
  /\ (forall col, has_column col obs = true -> has_column col df = true)
  /\ (forall col, col <> x_var -> col <> "DATE"%string ->
                  columns df !! col = columns obs !! col).
Proof.
  unfold handle_missing_xvar. destruct (empty obs); cbn [fst].
  - intros [= <-]. auto.
  - intros H. apply resolve_xvar_keeps_frame in H.
    destruct H as (Hrows & Hcols & Hhas). split; [|split].
    + rewrite Hrows. apply coerce_DATE_nrows.
    + intros col Hcol. apply Hhas. now rewrite coerce_DATE_has_column.
    + intros col H1 H2. rewrite (Hcols col H1). apply coerce_DATE_other, H2.
Qed.

Lemma ffill_from_length (last : cell) (v : list cell) :
  length (ffill_from last v) = length v.
Proof.
  revert last. induction v as [|c v IH]; intros last; [reflexivity|].
  cbn. destruct (isna c); cbn; now rewrite IH.
Qed.

(** The fill leaves every value that is present where it is. *)
Lemma ffill_from_present (last : cell) (v : list cell) (i : nat) (c : cell) :
  v !! i = Some c -> isna c = false -> ffill_from last v !! i = Some c.
Proof.
  revert last i. induction v as [|x v IH]; intros last i Hi Hc; [discriminate|].
  destruct i as [|i]; cbn in Hi |- *.
  - injection Hi as ->. now rewrite Hc.
  - destruct (isna x); cbn; now apply IH.
Qed.

(** What the fill puts in a row is that row's value or an earlier one. *)
Lemma ffill_from_values (P : cell -> Prop) (last : cell) (v : list cell) :
  P last -> Forall P v -> Forall P (ffill_from last v).
Proof.
  intros Hlast Hv. revert last Hlast.
  induction Hv as [|c v Hc _ IH]; intros last Hlast; [constructor|].
  cbn. destruct (isna c); constructor; auto.
Qed.

Lemma resolve_special_with_dates (d : DataFrame) (x_var : string)
    (sim : option DataFrame) (obs_dates : list cell) :
  has_column x_var d = false ->
  upper x_var ∈ special_variables ->
  columns d !! "DATE"%string = Some obs_dates ->
  resolve_xvar d x_var sim
  = if String.eqb (upper x_var) "DOY" then
      Return (Some (set_column x_var (ffill (map dayofyear obs_dates)) d))
    else
      let* start_date :=
        match sim with
        | Some s =>
            let* sim_dates := getitem s "DATE" in
            Return (dates_min (map to_datetime sim_dates))
        | None => Return (dates_min obs_dates)
        end in
      Return (Some (set_column x_var
                      (ffill (map (days_since start_date) obs_dates)) d)).
Proof.
  intros Hx Hspecial Hd. unfold resolve_xvar. rewrite Hx.
  rewrite bool_decide_eq_true_2 by exact Hspecial.
  unfold has_column at 1. rewrite Hd.
  unfold getitem at 1. rewrite Hd. cbn [bind].
  destruct (String.eqb (upper x_var) "DOY").
  - rewrite finish_set, set_column_twice. reflexivity.
  - destruct sim as [s|]; cbn [bind].
    + destruct (getitem s "DATE"); cbn [bind]; [|reflexivity].
      rewrite finish_set, set_column_twice. reflexivity.
    + rewrite finish_set, set_column_twice. reflexivity.
Qed.

(** ** X24.  When the X variable is DOY in any letter case, the observed
    data have a DATE column and no column of that name, the new column has
    one entry for each row, and a row whose date is read as a timestamp gets
    that timestamp's day of the year. *)
Theorem xvar_day_of_year (obs : DataFrame) (x_var : string)
    (sim : option DataFrame) (dates : list cell) :
  empty obs = false ->
  has_column x_var obs = false ->
  upper x_var = "DOY"%string ->
  columns obs !! "DATE"%string = Some dates ->
  exists df column,
    fst (handle_missing_xvar (Some obs) x_var sim) = Return (Some df)
    /\ columns df !! x_var = Some column
    /\ length column = length dates
    /\ forall i c t,
         dates !! i = Some c -> to_datetime c = CDate t ->
         column !! i = Some (CInt (ts_dayofyear t)).
Proof.
  intros He Hx Hup Hd. unfold handle_missing_xvar. rewrite He. cbn [fst].
  rewrite (resolve_special_with_dates _ _ _ (map to_datetime dates)).
  - rewrite Hup. cbn [String.eqb Ascii.eqb Bool.eqb].
    eexists _, _. split; [reflexivity|].
    split; [cbn; apply lookup_insert_eq|].
    split; [unfold ffill; now rewrite ffill_from_length, !length_map|].
    intros i c t Hi Ht. apply ffill_from_present; [|reflexivity].
    rewrite !list_lookup_fmap, Hi. cbn. now rewrite Ht.
  - now rewrite coerce_DATE_has_column.
  - rewrite Hup. apply list_elem_of_In. cbn. tauto.
  - rewrite coerce_DATE_DATE, Hd. reflexivity.
Qed.

Lemma earlier_le (a b : Timestamp) :
  (Dates.toordinal (earlier a b) <= Dates.toordinal a)%Z
  /\ (Dates.toordinal (earlier a b) <= Dates.toordinal b)%Z.
Proof.
  unfold earlier. destruct (Dates.toordinal b <? Dates.toordinal a)%Z eqn:E.
  - apply Z.ltb_lt in E. lia.
  - apply Z.ltb_ge in E. lia.
Qed.

(** The earliest date is at most every date of the column. *)
Lemma dates_min_le (v : list cell) (t : Timestamp) :
  CDate t ∈ v ->
  exists s, dates_min v = Some s /\ (Dates.toordinal s <= Dates.toordinal t)%Z.
Proof.
  induction v as [|c v IH]; intros Hin; [inversion Hin|].
  assert (Hcases : c = CDate t \/ CDate t ∈ v) by (inversion Hin; subst; auto).
  clear Hin. destruct c as [| | | |u]; cbn [dates_min];
    try (destruct Hcases as [E|Hin]; [discriminate E | exact (IH Hin)]).
  destruct (dates_min v) as [m|] eqn:Em.
  - pose proof (earlier_le u m) as [H1 H2]. eexists. split; [reflexivity|].
    destruct Hcases as [[= ->]|Hin]; [exact H1|].
    destruct (IH Hin) as (s & [= <-] & Hs). lia.
  - exists u. split; [reflexivity|].
    destruct Hcases as [[= ->]|Hin]; [lia|].
    destruct (IH Hin) as (s & Hs & _). discriminate Hs.
Qed.

(** ** X25.  When the X variable is DAP or DAS in any letter case, no
    simulated data are given, the observed data have a DATE column and no
    column of that name, a row whose date is read as a timestamp gets the
    number of days since the earliest observed date, and no value of the new
    column is negative. *)
Theorem xvar_days_since_first_observation (obs : DataFrame) (x_var : string)
    (dates : list cell) :
  empty obs = false ->
  has_column x_var obs = false ->
  upper x_var = "DAP"%string \/ upper x_var = "DAS"%string ->
  columns obs !! "DATE"%string = Some dates ->
  exists df column,
    fst (handle_missing_xvar (Some obs) x_var None) = Return (Some df)
    /\ columns df !! x_var = Some column
    /\ length column = length dates
    /\ (forall i c t,
          dates !! i = Some c -> to_datetime c = CDate t ->
          exists s,
            dates_min (map to_datetime dates) = Some s
            /\ column !! i = Some (CInt (Dates.toordinal t - Dates.toordinal s)))
    /\ Forall (fun c => c = NA \/ exists z, c = CInt z /\ (0 <= z)%Z) column.
Proof.
  intros He Hx Hup Hd. unfold handle_missing_xvar. rewrite He. cbn [fst fmap option_fmap option_map].
  rewrite (resolve_special_with_dates _ _ _ (map to_datetime dates)).
  - assert (Hdoy : String.eqb (upper x_var) "DOY" = false)
      by (destruct Hup as [-> | ->]; reflexivity).
    rewrite Hdoy. cbn [bind].
    eexists _, _. split; [reflexivity|].
    split; [cbn; apply lookup_insert_eq|].
    split; [unfold ffill; now rewrite ffill_from_length, !length_map|].
    split.
    + intros i c t Hi Ht.
      destruct (dates_min_le (map to_datetime dates) t) as (s & Hs & _).
      { rewrite <- Ht. apply list_elem_of_fmap. exists c. split; [reflexivity|].
        eapply list_elem_of_lookup_2, Hi. }
      exists s. split; [exact Hs|].
      apply ffill_from_present; [|reflexivity].
      rewrite !list_lookup_fmap, Hi. cbn. now rewrite Ht, Hs.
    + apply ffill_from_values; [now left|].
      apply Forall_forall. intros c Hc.
      apply list_elem_of_fmap in Hc. destruct Hc as (d & -> & Hin).
      destruct d as [| | | |t];
        try (left; unfold days_since; now destruct (dates_min _)).
      destruct (dates_min_le _ t Hin) as (s & Hs & Hle).
      right. unfold days_since. rewrite Hs. eexists. split; [reflexivity|lia].
  - now rewrite coerce_DATE_has_column.
  - apply list_elem_of_In. destruct Hup as [-> | ->]; cbn; tauto.
  - rewrite coerce_DATE_DATE, Hd. reflexivity.
Qed.

(** ** X26.  The call raises [KeyError] when the observed data have no
    column for the X variable and (a) the X variable is DAP or DAS, the
    observed data have a DATE column and the simulated data have none, or
    (b) the X variable is not DAP, DOY or DAS, the simulated data are not
    empty and have a DATE column, and the observed data have no DATE
    column or the simulated data have no column for the X variable. *)
Theorem xvar_raises_key_error (obs : DataFrame) (x_var : string) (sim : DataFrame) :
  empty obs = false ->
  has_column x_var obs = false ->
  ((upper x_var = "DAP"%string \/ upper x_var = "DAS"%string)
   /\ has_column "DATE" obs = true /\ has_column "DATE" sim = false)
  \/ ((upper x_var ∉ special_variables)
      /\ empty sim = false /\ has_column "DATE" sim = true
      /\ (has_column "DATE" obs = false \/ has_column x_var sim = false)) ->
  fst (handle_missing_xvar (Some obs) x_var (Some sim)) = Raise KeyError.
Proof.
  intros He Hx Hcase. unfold handle_missing_xvar. rewrite He.
  cbn [fst fmap option_fmap option_map].
  destruct Hcase as [(Hup & Hod & Hsd) | (Hup & Hse & Hsd & Hmiss)].
  - destruct (getitem_has "DATE" (coerce_DATE obs)) as (obs_dates & Hd & _);
      [now rewrite coerce_DATE_has_column|].
    rewrite (resolve_special_with_dates _ _ _ obs_dates).
    + assert (Hdoy : String.eqb (upper x_var) "DOY" = false)
        by (destruct Hup as [-> | ->]; reflexivity).
      rewrite Hdoy. rewrite getitem_missing; [reflexivity|].
      now rewrite coerce_DATE_has_column.
    + now rewrite coerce_DATE_has_column.
    + apply list_elem_of_In. destruct Hup as [-> | ->]; cbn; tauto.
    + exact Hd.
  - unfold resolve_xvar. rewrite coerce_DATE_has_column, Hx.
    rewrite bool_decide_eq_false_2 by exact Hup.
    assert (Hempty : empty (coerce_DATE sim) = false).
    { unfold empty in Hse |- *. rewrite coerce_DATE_nrows.
      apply orb_false_iff in Hse. destruct Hse as [H1 H2]. rewrite H1. cbn [orb].
      unfold coerce_DATE. destruct (columns sim !! "DATE"%string) as [v|] eqn:E;
        [|exact H2].
      cbn [set_column columns]. apply Nat.eqb_neq. apply Nat.eqb_neq in H2.
      rewrite map_size_insert_Some by (now exists v). exact H2. }
    rewrite Hempty. cbn [negb]. rewrite !coerce_DATE_has_column, Hsd.
    destruct (getitem_has "DATE" (coerce_DATE sim)) as (sim_col & _ & ->);
      [now rewrite coerce_DATE_has_column|].
    cbn [bind].
    destruct (has_column "DATE" obs) eqn:Hod.
    + destruct Hmiss as [Hmiss|Hmiss]; [discriminate|].
      destruct (getitem_has "DATE" (coerce_DATE obs)) as (obs_col & _ & ->);
        [now rewrite coerce_DATE_has_column|].
      cbn [bind]. rewrite getitem_missing; [reflexivity|].
      now rewrite coerce_DATE_has_column.
    + rewrite getitem_missing; [reflexivity|]. now rewrite coerce_DATE_has_column.
Qed.

(** ** X27.  When the X variable is DAP, DOY or DAS in any letter case and
    the observed data have neither a DATE column nor a column of that name,
    the observed data come back as they are: no X column is created. *)
Theorem xvar_special_without_dates (obs : DataFrame) (x_var : string)
    (sim : option DataFrame) :
  empty obs = false ->
  has_column x_var obs = false ->
  upper x_var ∈ special_variables ->
  has_column "DATE" obs = false ->
  fst (handle_missing_xvar (Some obs) x_var sim) = Return (Some obs).
Proof.
  intros He Hx Hup Hd. unfold handle_missing_xvar. rewrite He. cbn [fst].
  assert (Hobs : coerce_DATE obs = obs).
  { unfold coerce_DATE. unfold has_column in Hd.
    destruct (columns obs !! "DATE"%string); [discriminate|reflexivity]. }
  rewrite Hobs. unfold resolve_xvar. rewrite Hx.
  rewrite bool_decide_eq_true_2 by exact Hup. rewrite Hd. reflexivity.
Qed.

End XVarEdges.

Lemma xvar_keeps_rows_and_columns_example :
  let obs := mkFrame 2 (<["CWAD"%string := [CInt 10; CInt 20]]>
                          {[ "DATE"%string :=
                               [CDate (mkTimestamp 1991 60); CDate (mkTimestamp 1991 75)] ]}) in
  let df := mkFrame 2 (<["DAP"%string := [CInt 0; CInt 15]]> (columns obs)) in
  fst (XVar.handle_missing_xvar (rt := literal_runtime) (Some obs) "DAP" None)
  = Return (Some df)
  /\ nrows df = nrows obs
  /\ columns df !! "CWAD"%string = columns obs !! "CWAD"%string.
Proof.
  intros obs df.
  assert (H : fst (XVar.handle_missing_xvar (rt := literal_runtime) (Some obs) "DAP" None)
              = Return (Some df)) by (vm_compute; reflexivity).
  split; [exact H|].
  destruct (xvar_keeps_rows_and_columns (rt := literal_runtime) obs "DAP" None df H)
    as (Hrows & _ & Hcols).
  split; [exact Hrows|]. apply Hcols; discriminate.
Defined.

Lemma xvar_day_of_year_example :
  let obs := mkFrame 2 {[ "DATE"%string :=
                            [CDate (mkTimestamp 1991 60); CDate (mkTimestamp 1991 75)] ]} in
  exists df column,
    fst (XVar.handle_missing_xvar (rt := literal_runtime) (Some obs) "doy" None)
    = Return (Some df)
    /\ columns df !! "doy"%string = Some column
    /\ column !! 1%nat = Some (CInt 75).
Proof.
  intros obs.
  pose proof (xvar_day_of_year (rt := literal_runtime) obs "doy" None
                [CDate (mkTimestamp 1991 60); CDate (mkTimestamp 1991 75)]) as H.
  specialize (H ltac:(reflexivity)). specialize (H ltac:(reflexivity)).
  specialize (H ltac:(reflexivity)). specialize (H ltac:(reflexivity)).
  destruct H as (df & column & H1 & H2 & _ & H4).
  exists df, column. split; [exact H1|]. split; [exact H2|].
  apply (H4 1%nat (CDate (mkTimestamp 1991 75)) (mkTimestamp 1991 75));
    reflexivity.
Defined.

Lemma xvar_days_since_first_observation_example :
  let obs := mkFrame 2 {[ "DATE"%string :=
                            [CDate (mkTimestamp 1991 75); CDate (mkTimestamp 1991 60)] ]} in
  exists df column,
    fst (XVar.handle_missing_xvar (rt := literal_runtime) (Some obs) "DAP" None)
    = Return (Some df)
    /\ columns df !! "DAP"%string = Some column
    /\ Forall (fun c => c = NA \/ exists z, c = CInt z /\ (0 <= z)%Z) column.
Proof.
  intros obs.
  pose proof (xvar_days_since_first_observation (rt := literal_runtime) obs "DAP"
                [CDate (mkTimestamp 1991 75); CDate (mkTimestamp 1991 60)]) as H.
  specialize (H ltac:(reflexivity)). specialize (H ltac:(reflexivity)).
  specialize (H ltac:(left; reflexivity)). specialize (H ltac:(reflexivity)).
  destruct H as (df & column & H1 & H2 & _ & _ & H5).
  exists df, column. split; [exact H1|]. split; [exact H2 | exact H5].
Defined.

Lemma xvar_raises_key_error_example :
  fst (XVar.handle_missing_xvar (rt := literal_runtime)
         (Some (mkFrame 1 {[ "DATE"%string := [CDate (mkTimestamp 1991 60)] ]}))
         "DAP"
         (Some (mkFrame 1 {[ "CWAD"%string := [CInt 10] ]})))
  = Raise KeyError.
Proof.
  apply (xvar_raises_key_error (rt := literal_runtime)).
  - reflexivity.
  - reflexivity.
  - left. split; [left; reflexivity|]. split; reflexivity.
Defined.

Lemma xvar_special_without_dates_example :
  fst (XVar.handle_missing_xvar (rt := literal_runtime)
         (Some (mkFrame 1 {[ "CWAD"%string := [CInt 10] ]})) "das" None)
  = Return (Some (mkFrame 1 {[ "CWAD"%string := [CInt 10] ]})).
Proof.
  apply (xvar_special_without_dates (rt := literal_runtime)).
  - reflexivity.
  - reflexivity.
  - apply list_elem_of_In. vm_compute. tauto.
  - reflexivity.
Defined.

(** ** Scaling for display: [improved_smart_scale] *)

Section ScaleFacts.
Import Scale.
Local Open Scope R_scope.



Lemma fold_left_Rmin_elem (l : list R) (a : R) : fold_left Rmin l a ∈ a :: l.
Proof.
  revert a. induction l as [|y l IH]; intros a; cbn; [left|].
  specialize (IH (Rmin a y)).
  apply elem_of_cons in IH. destruct IH as [E|Hin].
  - rewrite E. unfold Rmin. destruct (Rle_dec a y); [left | right; left].
  - right. right. exact Hin.
Qed.

Lemma fold_left_Rmax_elem (l : list R) (a : R) : fold_left Rmax l a ∈ a :: l.
Proof.
  revert a. induction l as [|y l IH]; intros a; cbn; [left|].
  specialize (IH (Rmax a y)).
  apply elem_of_cons in IH. destruct IH as [E|Hin].
  - rewrite E. unfold Rmax. destruct (Rle_dec a y); [right; left | left].
  - right. right. exact Hin.
Qed.


Lemma np_min_elem (values : list R) : values <> [] -> np_min values ∈ values.
Proof. destruct values as [|a l]; [congruence|]. intros _. apply fold_left_Rmin_elem. Qed.

Lemma np_max_elem (values : list R) : values <> [] -> np_max values ∈ values.
Proof. destruct values as [|a l]; [congruence|]. intros _. apply fold_left_Rmax_elem. Qed.

Lemma dropna_elem (col : list (option R)) (x : R) :
  x ∈ Standardize.dropna col <-> Some x ∈ col.
Proof.
  unfold Standardize.dropna. rewrite list_elem_of_omap. split.
  - intros (o & Ho & ->). exact Ho.
  - intros H. now exists (Some x).
Qed.


(** Each turn of the loop adds at most the entry of its own variable, and
    that entry does not depend on the entries made before. *)
Lemma scale_step_lookup (data : Frame (list (option R))) (target_min target_max : R)
    (scaling_factors : option (gmap string (R * R)))
    (scaled_data : gmap string (list (option R))) (var k : string) :
  scale_step data target_min target_max scaling_factors scaled_data var !! k
  = match decide (k = var) with
    | left _ =>
        match scale_step data target_min target_max scaling_factors ∅ var !! var with
        | Some out => Some out
        | None => scaled_data !! k
        end
    | right _ => scaled_data !! k
    end.
Proof.
  unfold scale_step.
  destruct (columns data !! var) as [numeric_data|];
    [|rewrite lookup_empty; now destruct (decide _)].
  destruct (Standardize.dropna numeric_data) as [|v0 values] eqn:Hv;
    [rewrite lookup_empty; now destruct (decide _)|].
  destruct (scaling_factors ≫= _) as [[scale_factor offset]|];
    [|destruct (isclose _ _)];
    (destruct (decide (k = var)) as [->|Hne];
     [now rewrite !lookup_insert_eq | now rewrite lookup_insert_ne by congruence]).
Qed.

Lemma scale_loop_lookup (data : Frame (list (option R))) (target_min target_max : R)
    (scaling_factors : option (gmap string (R * R)))
    (vars : list string) (scaled_data : gmap string (list (option R))) (k : string) :
  foldl (scale_step data target_min target_max scaling_factors) scaled_data vars !! k
  = if bool_decide (k ∈ vars) then
      match scale_step data target_min target_max scaling_factors ∅ k !! k with
      | Some out => Some out
      | None => scaled_data !! k
      end
    else scaled_data !! k.
Proof.
  revert scaled_data. induction vars as [|v vars IH]; intros scaled_data; cbn [foldl].
  - rewrite bool_decide_eq_false_2; [reflexivity | apply not_elem_of_nil].
  - rewrite IH, (scale_step_lookup data _ _ _ scaled_data v k).
    destruct (decide (k = v)) as [->|Hne].
    + rewrite (bool_decide_eq_true_2 (v ∈ v :: vars)) by left.
      destruct (scale_step _ _ _ _ ∅ v !! v); [now destruct (bool_decide _)|].
      now destruct (bool_decide _).
    + case_bool_decide as Hin.
      * rewrite bool_decide_eq_true_2 by (now right). reflexivity.
      * rewrite bool_decide_eq_false_2; [reflexivity|].
        intros H. apply elem_of_cons in H. destruct H; [congruence | auto].
Qed.

(** The entry of a variable in the result is the one its own turn makes. *)
Lemma improved_smart_scale_lookup (data : Frame (list (option R)))
    (variables : list string) (target_min target_max : R)
    (scaling_factors : option (gmap string (R * R))) (var : string) :
  improved_smart_scale data variables target_min target_max scaling_factors !! var
  = if bool_decide (var ∈ variables) then
      scale_step data target_min target_max scaling_factors ∅ var !! var
    else None.
Proof.
  unfold improved_smart_scale. rewrite scale_loop_lookup, lookup_empty.
  assert (Hmiss : columns data !! var = None ->
            scale_step data target_min target_max scaling_factors ∅ var !! var = None).
  { intros E. unfold scale_step. rewrite E. apply lookup_empty. }
  case_bool_decide as Hf; case_bool_decide as Hv.
  - now destruct (scale_step _ _ _ _ ∅ var !! var).
  - apply list_elem_of_filter in Hf. tauto.
  - destruct (columns data !! var) as [c|] eqn:E.
    + exfalso. apply Hf. apply list_elem_of_filter. split; [now exists c | exact Hv].
    + symmetry. now apply Hmiss.
  - reflexivity.
Qed.





(** ** X30.  Without given factors, when the smallest and the largest
    value of a requested column are close (in particular when all its
    values are equal), every row of the scaled column, also one whose value
    is missing, holds the midpoint of the target range. *)
Theorem constant_column_scaled_to_midpoint (data : Frame (list (option R)))
    (variables : list string) (target_min target_max : R)
    (scaling_factors : option (gmap string (R * R))) (var : string)
    (col : list (option R)) :
  var ∈ variables ->
  columns data !! var = Some col ->
  scaling_factors ≫= (fun d => d !! var) = None ->
  Standardize.dropna col <> [] ->
  (isclose (np_min (Standardize.dropna col)) (np_max (Standardize.dropna col)) = true
   \/ exists c, forall x, Some x ∈ col -> x = c) ->
  improved_smart_scale data variables target_min target_max scaling_factors !! var
  = Some (replicate (length col) (Some ((target_max + target_min) / 2))).
Proof.
  intros Hv Hcol Hsf Hne Hclose.
  assert (Hc : isclose (np_min (Standardize.dropna col))
                 (np_max (Standardize.dropna col)) = true).
  { destruct Hclose as [H|[c Hc]]; [exact H|].
    rewrite (Hc (np_min (Standardize.dropna col)))
      by (apply dropna_elem, np_min_elem, Hne).
    rewrite (Hc (np_max (Standardize.dropna col)))
      by (apply dropna_elem, np_max_elem, Hne).
    unfold isclose. destruct (Rle_dec _ _) as [|Hn]; [reflexivity|].
    exfalso. apply Hn. unfold Rminus. rewrite Rplus_opp_r, Rabs_R0.
    pose proof (Rabs_pos c). lra. }
  rewrite improved_smart_scale_lookup.
  rewrite bool_decide_eq_true_2 by exact Hv. unfold scale_step. rewrite Hcol.
  destruct (Standardize.dropna col) as [|v0 values] eqn:Hvals; [congruence|].
  rewrite Hsf, <- Hvals in *. rewrite Hc, lookup_insert_eq. f_equal.
  clear. induction col as [|o col IH]; cbn; [reflexivity|]. now rewrite IH.
Qed.

End ScaleFacts.

Section ScaleExamples.
Import Scale.
Local Open Scope R_scope.




End ScaleExamples.



Lemma constant_column_example :
  Scale.improved_smart_scale
    (mkFrame 3 {[ "CWAD"%string := [Some 5%R; None; Some 5%R] ]})
    ["CWAD"%string] 1000%R 10000%R None !! "CWAD"%string
  = Some (replicate 3 (Some ((10000 + 1000) / 2)%R)).
Proof.
  apply (constant_column_scaled_to_midpoint
           (mkFrame 3 {[ "CWAD"%string := [Some 5%R; None; Some 5%R] ]})
           ["CWAD"%string] 1000%R 10000%R None "CWAD"
           [Some 5%R; None; Some 5%R]).
  - apply list_elem_of_here.
  - apply lookup_singleton_eq.
  - reflexivity.
  - discriminate.
  - right. exists 5%R. intros x Hx.
    apply elem_of_cons in Hx. destruct Hx as [[= ->]|Hx]; [reflexivity|].
    apply elem_of_cons in Hx. destruct Hx as [Hx|Hx]; [discriminate Hx|].
    apply list_elem_of_singleton in Hx. now injection Hx.
Defined.
